(** * Admin authentication core of logos-waitlist

    A shallow embedding of the credential and session core of the
    server: [AdminService] (services/admin.service.js), the token
    helpers of middleware/auth.js and the handlers of
    routes/auth.routes.js that call them.

    The three SQLite tables are lists of rows inside one [Db] value; a
    service method is a function from the database to a result and the
    database it leaves behind.  A JavaScript [throw] does not undo the
    statements that ran before it, so the database is threaded through
    failures too. *)

From Stdlib Require Import ZArith List String Ascii Bool Lia.
From Stdlib Require Import DecimalString.
Import ListNotations.
Local Open Scope string_scope.
Local Open Scope Z_scope.

(** ** JavaScript and SQLite values *)

Module Js.

(** [`${n}`] for an integer. *)
Definition show (n : Z) : string := NilZero.string_of_int (Z.to_int n).

(** Truthiness of a string-or-undefined operand of [||] and [if]. *)
Definition truthy (o : option string) : bool :=
  match o with
  | Some s => negb (String.eqb s "")
  | None => false
  end.

(** [a || b] on such operands. *)
Definition or (a b : option string) : option string :=
  if truthy a then a else b.

(** [s.toLowerCase()], on the ASCII letters. *)
Definition lower_ascii (c : ascii) : ascii :=
  let n := N_of_ascii c in
  if ((65 <=? n)%N && (n <=? 90)%N)%bool then ascii_of_N (n + 32) else c.

Fixpoint toLowerCase (s : string) : string :=
  match s with
  | EmptyString => EmptyString
  | String c r => String (lower_ascii c) (toLowerCase r)
  end.

(** White space removed by [s.trim()], on the ASCII range:
    TAB, LF, VT, FF, CR and SPACE. *)
Definition is_space (c : ascii) : bool :=
  let n := N_of_ascii c in
  (((9 <=? n)%N && (n <=? 13)%N) || (n =? 32)%N)%bool.

Fixpoint trimStart (s : string) : string :=
  match s with
  | EmptyString => EmptyString
  | String c r => if is_space c then trimStart r else s
  end.

Fixpoint trimEnd (s : string) : string :=
  match s with
  | EmptyString => EmptyString
  | String c r =>
      match trimEnd r with
      | EmptyString => if is_space c then EmptyString else String c EmptyString
      | r' => String c r'
      end
  end.

Definition trim (s : string) : string := trimEnd (trimStart s).

(** [Math.ceil(d / 60000)] for an integer number of milliseconds [d].
    The quotient of two integers below 2^53 is either an integer or
    at least 1/60000 away from one, so the double division followed by
    [Math.ceil] is the exact integer ceiling. *)
Definition ceil_div (d k : Z) : Z := - ((- d) / k).

End Js.

(** ** Calendar text

    Instants are milliseconds since the Unix epoch, as [Date.now()]
    gives them.  Two textual forms of an instant occur in the database:
    [Date.prototype.toISOString()], written by the JavaScript side, and
    SQLite's [CURRENT_TIMESTAMP], written and compared by the SQL side.
    Both are UTC; they differ in the separator after the date and in the
    fraction of a second. *)

Module Clock.

Definition ms_per_day : Z := 86400000.

(** Proleptic Gregorian date of a day number (days since 1970-01-01). *)
Definition civil_from_days (days : Z) : Z * Z * Z :=
  let z := days + 719468 in
  let era := z / 146097 in
  let doe := z - era * 146097 in
  let yoe := (doe - doe / 1460 + doe / 36524 - doe / 146096) / 365 in
  let doy := doe - (365 * yoe + yoe / 4 - yoe / 100) in
  let mp := (5 * doy + 2) / 153 in
  let d := doy - (153 * mp + 2) / 5 + 1 in
  let m := if mp <? 10 then mp + 3 else mp - 9 in
  let y := yoe + era * 400 + (if m <=? 2 then 1 else 0) in
  (y, m, d).

Definition digit (n : Z) : ascii := ascii_of_N (48 + Z.to_N (n mod 10)).

Definition pad2 (n : Z) : string :=
  String (digit (n / 10)) (String (digit n) EmptyString).

Definition pad3 (n : Z) : string := String (digit (n / 100)) (pad2 n).

Definition pad4 (n : Z) : string := String (digit (n / 1000)) (pad3 n).

(** [YYYY-MM-DD], for the years 0000 to 9999. *)
Definition date_text (t : Z) : string :=
  let '(y, m, d) := civil_from_days (t / ms_per_day) in
  pad4 y ++ "-" ++ pad2 m ++ "-" ++ pad2 d.

(** [HH:MM:SS]. *)
Definition time_text (t : Z) : string :=
  let s := (t mod ms_per_day) / 1000 in
  pad2 (s / 3600) ++ ":" ++ pad2 ((s / 60) mod 60) ++ ":" ++ pad2 (s mod 60).

(** [new Date(t).toISOString()]: [YYYY-MM-DDTHH:MM:SS.sssZ]. *)
Definition toISOString (t : Z) : string :=
  date_text t ++ "T" ++ time_text t ++ "." ++ pad3 (t mod 1000) ++ "Z".

(** SQLite's [CURRENT_TIMESTAMP] at instant [t]: [YYYY-MM-DD HH:MM:SS]. *)
Definition CURRENT_TIMESTAMP (t : Z) : string :=
  date_text t ++ " " ++ time_text t.

(** [a > b] between two TEXT values in SQLite: they are ordered by the
    BINARY collation, that is, byte by byte. *)
Definition text_gt (a b : string) : bool :=
  match String.compare a b with
  | Gt => true
  | _ => false
  end.

End Clock.

(** ** Regular expressions

    The patterns of the code have no capture or back-reference, so
    [RegExp.prototype.test] on them decides membership in the language
    of the pattern; the matcher below decides it by derivatives.
    Characters are taken on the ASCII range, as in [Js]. *)

Module Regex.

Inductive regex :=
| Fail
| Eps
| Class (p : ascii -> bool)
| Seq (r1 r2 : regex)
| Alt (r1 r2 : regex)
| Star (r : regex).

Fixpoint nullable (r : regex) : bool :=
  match r with
  | Fail => false
  | Eps => true
  | Class _ => false
  | Seq r1 r2 => nullable r1 && nullable r2
  | Alt r1 r2 => nullable r1 || nullable r2
  | Star _ => true
  end.

Fixpoint deriv (c : ascii) (r : regex) : regex :=
  match r with
  | Fail => Fail
  | Eps => Fail
  | Class p => if p c then Eps else Fail
  | Seq r1 r2 =>
      if nullable r1 then Alt (Seq (deriv c r1) r2) (deriv c r2)
      else Seq (deriv c r1) r2
  | Alt r1 r2 => Alt (deriv c r1) (deriv c r2)
  | Star r1 => Seq (deriv c r1) (Star r1)
  end.

(** The whole string is in the language of [r]: [/^r$/.test(s)]. *)
Fixpoint matches (r : regex) (s : string) : bool :=
  match s with
  | EmptyString => nullable r
  | String c s' => matches (deriv c r) s'
  end.

(** [r+] *)
Definition plus (r : regex) : regex := Seq r (Star r).

(** A literal character. *)
Definition lit (c : ascii) : regex := Class (Ascii.eqb c).

(** [[^\s@]] *)
Definition not_space_or_at (c : ascii) : bool :=
  negb (Js.is_space c) && negb (Ascii.eqb c "@").

(** [.]: any character but a line terminator. *)
Definition dot (c : ascii) : bool :=
  negb (Ascii.eqb c "010") && negb (Ascii.eqb c "013").

(** [[a-z]], [[A-Z]] and [\d]. *)
Definition lower (c : ascii) : bool :=
  let n := N_of_ascii c in ((97 <=? n)%N && (n <=? 122)%N)%bool.
Definition upper (c : ascii) : bool :=
  let n := N_of_ascii c in ((65 <=? n)%N && (n <=? 90)%N)%bool.
Definition digit (c : ascii) : bool :=
  let n := N_of_ascii c in ((48 <=? n)%N && (n <=? 57)%N)%bool.

(** [/^[^\s@]+@[^\s@]+\.[^\s@]+$/], the pattern of the signup route and
    of the landing page. *)
Definition emailRegex : regex :=
  Seq (plus (Class not_space_or_at))
    (Seq (lit "@")
       (Seq (plus (Class not_space_or_at))
          (Seq (lit ".") (plus (Class not_space_or_at))))).

(** A look-ahead [(?=.*[x])] at the start of the string: some prefix of
    the string is in [.*[x]]. *)
Definition lookahead (p : ascii -> bool) (s : string) : bool :=
  matches (Seq (Star (Class dot)) (Seq (Class p) (Star (Class (fun _ => true)))))
    s.

(** [/^(?=.*[a-z])(?=.*[A-Z])(?=.*\d)/.test(s)], the pattern of the
    password rules. *)
Definition passwordRegex_test (s : string) : bool :=
  lookahead lower s && lookahead upper s && lookahead digit s.

End Regex.

(** ** Column values

    The columns declared DATETIME have NUMERIC affinity: a text that is
    a well-formed integer or real literal (white space allowed at both
    ends) is converted to a number when it is stored or compared; any
    other text stays TEXT.  A number sorts before every text; two texts
    are ordered byte by byte (BINARY collation). *)

Module Column.

Inductive Value :=
| Number (literal : string)
| Text (s : string).

Definition sign (c : ascii) : bool := Ascii.eqb c "+" || Ascii.eqb c "-".

Definition exponent_mark (c : ascii) : bool :=
  Ascii.eqb c "e" || Ascii.eqb c "E".

(** [r?] *)
Definition opt (r : Regex.regex) : Regex.regex := Regex.Alt Regex.Eps r.

(** The integer and real literals: an optional sign, digits with an
    optional point (one digit at least), an optional exponent. *)
Definition numeric_literal : Regex.regex :=
  let digits := Regex.Star (Regex.Class Regex.digit) in
  let digits1 := Regex.plus (Regex.Class Regex.digit) in
  let spaces := Regex.Star (Regex.Class Js.is_space) in
  Regex.Seq spaces
    (Regex.Seq (opt (Regex.Class sign))
       (Regex.Seq
          (Regex.Alt
             (Regex.Seq digits1 (opt (Regex.Seq (Regex.lit ".") digits)))
             (Regex.Seq (Regex.lit ".") digits1))
          (Regex.Seq
             (opt (Regex.Seq (Regex.Class exponent_mark)
                     (Regex.Seq (opt (Regex.Class sign)) digits1)))
             spaces))).

(** What a column of NUMERIC affinity keeps of a text bound to it.  The
    number carries the literal it was read from. *)
Definition numeric_affinity (s : string) : Value :=
  if Regex.matches numeric_literal s then Number s else Text s.

(** [v > b] for a stored value [v] and a text [b] that is no numeric
    literal, as the text of [CURRENT_TIMESTAMP] is. *)
Definition gt (v : Value) (b : string) : bool :=
  match v with
  | Number _ => false
  | Text a => Clock.text_gt a b
  end.

End Column.

(** ** External primitives

    The hash and token libraries (bcryptjs, node:crypto, jsonwebtoken)
    and the sanitizer of express-validator are outside the repository;
    the development is parametric in them.  [jwt_verify] stands for
    [jwt.verify(token, JWT_SECRET)] at a given instant: [None] when it
    throws (bad signature, malformed or expired token).  [jwt_sign]
    takes the payload, the [expiresIn] option and the instant.  The two
    lifetimes come from the environment of the process. *)

Record JwtClaims := mkClaims {
  claim_id : Z;
  claim_username : option string;
  claim_role : option string;
  claim_type : option string
}.

Class Externals := {
  bcrypt_compare : string -> string -> bool;
  bcrypt_hash : string -> Z -> string;
  sha256_hex : string -> string;
  jwt_sign : JwtClaims -> string -> Z -> string;
  jwt_verify : string -> Z -> option JwtClaims;
  validator_escape : string -> string;
  JWT_EXPIRES_IN : string;
  JWT_REFRESH_EXPIRES_IN : string
}.

(** ** Tables (initDatabase) *)

(** A row of [admins].  [locked_until] holds the instant whose
    [toISOString()] text the column stores: the column is only ever read
    back through [new Date(text)], which inverts that format. *)
Record Admin := mkAdmin {
  id : Z;
  username : string;
  password : string;
  role : string;
  email : option string;
  created_at : string;
  last_login : option string;
  login_attempts : Z;
  locked_until : option Z;
  is_active : Z
}.

(** A row of [refresh_tokens].  [expires_at] is the value as stored: it
    is compared inside SQLite. *)
Record RefreshToken := mkRefreshToken {
  rt_id : Z;
  rt_admin_id : Z;
  token_hash : string;
  expires_at : Column.Value;
  rt_created_at : string;
  revoked : Z
}.

(** A row of [admin_audit_log]. *)
Record AuditEntry := mkAudit {
  al_id : Z;
  al_admin_id : option Z;
  action : string;
  ip_address : option string;
  user_agent : option string;
  success : Z;
  details : option string;
  al_created_at : string
}.

(** The database: the three tables in row order, with the AUTOINCREMENT
    counters of the two tables the service inserts into. *)
Record Db := mkDb {
  admins : list Admin;
  refresh_tokens : list RefreshToken;
  admin_audit_log : list AuditEntry;
  refresh_tokens_seq : Z;
  admin_audit_log_seq : Z
}.

(** The object left by [const { password: _, ...safeAdmin } = admin]:
    every column but [password]. *)
Record SafeAdmin := mkSafeAdmin {
  safe_id : Z;
  safe_username : string;
  safe_role : string;
  safe_email : option string;
  safe_created_at : string;
  safe_last_login : option string;
  safe_login_attempts : Z;
  safe_locked_until : option Z;
  safe_is_active : Z
}.

Definition strip_password (a : Admin) : SafeAdmin :=
  mkSafeAdmin (id a) (username a) (role a) (email a) (created_at a)
    (last_login a) (login_attempts a) (locked_until a) (is_active a).

(** The projection of [getAdminById] and [getAllAdmins]:
    [SELECT id, username, email, role, created_at, last_login, is_active]. *)
Record AdminView := mkAdminView {
  view_id : Z;
  view_username : string;
  view_email : option string;
  view_role : string;
  view_created_at : string;
  view_last_login : option string;
  view_is_active : Z
}.

(** ** Errors

    One constructor per [throw new Error(...)] of the service;
    [message] is the text the [Error] carries. *)
Inductive AuthError :=
| InvalidCredentials
| AccountLocked (minutesLeft : Z)
| AccountDisabled
| TooManyFailedAttempts
| NewPasswordTooShort
| AdminNotFound
| InvalidOldPassword.

Definition message (e : AuthError) : string :=
  match e with
  | InvalidCredentials => "Invalid credentials"
  | AccountLocked minutesLeft =>
      "Account locked. Try again in " ++ Js.show minutesLeft ++ " minutes."
  | AccountDisabled => "Account is disabled"
  | TooManyFailedAttempts =>
      "Too many failed attempts. Account locked for 15 minutes."
  | NewPasswordTooShort => "New password must be at least 8 characters"
  | AdminNotFound => "Admin not found"
  | InvalidOldPassword => "Invalid old password"
  end.

(** ** Service computations *)

Inductive Outcome (A : Type) :=
| Returned (a : A)
| Thrown (e : AuthError).
Arguments Returned {A} a.
Arguments Thrown {A} e.

Definition Svc (A : Type) : Type := Db -> Outcome A * Db.

Definition ret {A} (a : A) : Svc A := fun db => (Returned a, db).

Definition throw {A} (e : AuthError) : Svc A := fun db => (Thrown e, db).

Definition bind {A B} (m : Svc A) (k : A -> Svc B) : Svc B :=
  fun db =>
    match m db with
    | (Returned a, db') => k a db'
    | (Thrown e, db') => (Thrown e, db')
    end.

(** A statement that only writes. *)
Definition exec (f : Db -> Db) : Svc unit := fun db => (Returned tt, f db).

(** A query. *)
Definition query {A} (f : Db -> A) : Svc A := fun db => (Returned (f db), db).

Notation "x <- m ;; k" := (bind m (fun x => k))
  (at level 61, m at next level, right associativity).
Notation "m ;;; k" := (bind m (fun _ => k))
  (at level 61, right associativity).

Definition outcome {A} (r : Outcome A * Db) : Outcome A := fst r.
Definition db_after {A} (r : Outcome A * Db) : Db := snd r.

(** ** AdminService (services/admin.service.js) *)

Definition SALT_ROUNDS : Z := 12.
Definition MAX_LOGIN_ATTEMPTS : Z := 5.
Definition LOCKOUT_DURATION : Z := 15 * 60 * 1000.

Module AdminService.
Section WithExternals.
Context `{E : Externals}.

(** [UPDATE admins SET ... WHERE id = ?] *)
Definition update_admins (target : Z) (set : Admin -> Admin) (db : Db) : Db :=
  mkDb (map (fun a => if id a =? target then set a else a) (admins db))
    (refresh_tokens db) (admin_audit_log db)
    (refresh_tokens_seq db) (admin_audit_log_seq db).

(** [SET revoked = 1] on one row. *)
Definition set_revoked (t : RefreshToken) : RefreshToken :=
  mkRefreshToken (rt_id t) (rt_admin_id t) (token_hash t) (expires_at t)
    (rt_created_at t) 1.

(** [UPDATE refresh_tokens SET revoked = 1 WHERE ...] *)
Definition revoke_where (cond : RefreshToken -> bool) (db : Db) : Db :=
  mkDb (admins db)
    (map (fun t => if cond t then set_revoked t else t) (refresh_tokens db))
    (admin_audit_log db) (refresh_tokens_seq db) (admin_audit_log_seq db).

(** [logAudit(adminId, action, ipAddress, userAgent, success, details)] *)
Definition logAudit (adminId : option Z) (act : string)
    (ipAddress userAgent : option string) (ok : bool)
    (detail : option string) (now : Z) : Svc unit :=
  exec (fun db =>
    let n := admin_audit_log_seq db + 1 in
    mkDb (admins db) (refresh_tokens db)
      (admin_audit_log db ++
         [mkAudit n adminId act ipAddress userAgent (if ok then 1 else 0)
            detail (Clock.CURRENT_TIMESTAMP now)])
      (refresh_tokens_seq db) n).

(** [storeRefreshToken(adminId, tokenHash, expiresAt)] *)
Definition storeRefreshToken (adminId : Z) (tokenHash expiresAt : string)
    (now : Z) : Svc unit :=
  exec (fun db =>
    let n := refresh_tokens_seq db + 1 in
    mkDb (admins db)
      (refresh_tokens db ++
         [mkRefreshToken n adminId tokenHash
            (Column.numeric_affinity expiresAt)
            (Clock.CURRENT_TIMESTAMP now) 0])
      (admin_audit_log db) n (admin_audit_log_seq db)).

(** The WHERE clause of [verifyRefreshToken]:
    [token_hash = ? AND revoked = 0 AND expires_at > CURRENT_TIMESTAMP]. *)
Definition usable (tokenHash : string) (now : Z) (t : RefreshToken) : bool :=
  String.eqb (token_hash t) tokenHash
  && (revoked t =? 0)
  && Column.gt (expires_at t) (Clock.CURRENT_TIMESTAMP now).

(** [verifyRefreshToken(tokenHash)]: the first matching row, if any. *)
Definition verifyRefreshToken (tokenHash : string) (now : Z) (db : Db)
    : option RefreshToken :=
  find (usable tokenHash now) (refresh_tokens db).

(** [revokeRefreshToken(tokenHash)] *)
Definition revokeRefreshToken (tokenHash : string) : Svc unit :=
  exec (revoke_where (fun t => String.eqb (token_hash t) tokenHash)).

(** [revokeAllRefreshTokens(adminId)] *)
Definition revokeAllRefreshTokens (adminId : Z) : Svc unit :=
  exec (revoke_where (fun t => rt_admin_id t =? adminId)).

(** [getAdminById(id)] *)
Definition getAdminById (i : Z) (db : Db) : option AdminView :=
  match find (fun a => id a =? i) (admins db) with
  | Some a =>
      Some (mkAdminView (id a) (username a) (email a) (role a)
              (created_at a) (last_login a) (is_active a))
  | None => None
  end.



(** [UPDATE admins SET login_attempts = ?, locked_until = ? WHERE id = ?] *)
Definition set_attempts (attempts : Z) (lock : option Z) (a : Admin) : Admin :=
  mkAdmin (id a) (username a) (password a) (role a) (email a)
    (created_at a) (last_login a) attempts lock (is_active a).

(** [UPDATE admins SET login_attempts = 0, locked_until = NULL,
    last_login = CURRENT_TIMESTAMP WHERE id = ?] *)
Definition set_logged_in (now : Z) (a : Admin) : Admin :=
  mkAdmin (id a) (username a) (password a) (role a) (email a)
    (created_at a) (Some (Clock.CURRENT_TIMESTAMP now)) 0 None (is_active a).

(** [UPDATE admins SET password = ? WHERE id = ?].  The value is a
    bcrypt hash, 60 characters long, which the CHECK on the length of the
    column accepts. *)
Definition set_password (hashed : string) (a : Admin) : Admin :=
  mkAdmin (id a) (username a) hashed (role a) (email a)
    (created_at a) (last_login a) (login_attempts a) (locked_until a)
    (is_active a).

(** The lock check of [authenticate]: [admin] is the row as it was
    read at the start of the call. *)
Definition check_lock (admin : Admin) (ipAddress userAgent : option string)
    (now : Z) : Svc unit :=
  match locked_until admin with
  | Some lockUntil =>
      if lockUntil >? now then
        logAudit (Some (id admin)) "login_failed" ipAddress userAgent false
          (Some "Account locked") now ;;;
        throw (AccountLocked (Js.ceil_div (lockUntil - now) 60000))
      else
        exec (update_admins (id admin) (set_attempts 0 None))
  | None => ret tt
  end.

(** [authenticate(username, password, ipAddress, userAgent)] at instant
    [now].  [simulateDelay] only waits and is left out. *)
Definition authenticate (user pass : string)
    (ipAddress userAgent : option string) (now : Z) : Svc SafeAdmin :=
  let user := Js.trim (Js.toLowerCase user) in
  found <- query (fun db =>
             find (fun a => String.eqb (username a) user) (admins db)) ;;
  match found with
  | None =>
      logAudit None "login_failed" ipAddress userAgent false
        (Some "User not found") now ;;;
      throw InvalidCredentials
  | Some admin =>
      check_lock admin ipAddress userAgent now ;;;
      if is_active admin =? 0 then
        logAudit (Some (id admin)) "login_failed" ipAddress userAgent false
          (Some "Account disabled") now ;;;
        throw AccountDisabled
      else if negb (bcrypt_compare pass (password admin)) then
        let newAttempts := login_attempts admin + 1 in
        let shouldLock := newAttempts >=? MAX_LOGIN_ATTEMPTS in
        exec (update_admins (id admin)
                (set_attempts newAttempts
                   (if shouldLock then Some (now + LOCKOUT_DURATION)
                    else None))) ;;;
        logAudit (Some (id admin)) "login_failed" ipAddress userAgent false
          (Some ("Invalid password (attempt " ++ Js.show newAttempts ++ "/"
                 ++ Js.show MAX_LOGIN_ATTEMPTS ++ ")")) now ;;;
        if shouldLock then throw TooManyFailedAttempts
        else throw InvalidCredentials
      else
        exec (update_admins (id admin) (set_logged_in now)) ;;;
        logAudit (Some (id admin)) "login_success" ipAddress userAgent true
          None now ;;;
        ret (strip_password admin)
  end.

(** [changePassword(adminId, oldPassword, newPassword)] *)
Definition changePassword (adminId : Z) (oldPassword newPassword : string)
    (now : Z) : Svc bool :=
  if Z.of_nat (String.length newPassword) <? 8 then
    throw NewPasswordTooShort
  else
    found <- query (fun db =>
               option_map password
                 (find (fun a => id a =? adminId) (admins db))) ;;
    match found with
    | None => throw AdminNotFound
    | Some stored =>
        if negb (bcrypt_compare oldPassword stored) then
          logAudit (Some adminId) "password_change_failed" None None false
            (Some "Invalid old password") now ;;;
          throw InvalidOldPassword
        else
          let hashedPassword := bcrypt_hash newPassword SALT_ROUNDS in
          exec (update_admins adminId (set_password hashedPassword)) ;;;
          revokeAllRefreshTokens adminId ;;;
          logAudit (Some adminId) "password_changed" None None true None
            now ;;;
          ret true
    end.

End WithExternals.
End AdminService.

(** ** Token helpers (middleware/auth.js) *)

Module Middleware.
Section WithExternals.
Context `{E : Externals}.

(** [generateAccessToken(user)] *)
Definition generateAccessToken (uid : Z) (uname urole : string) (now : Z)
    : string :=
  jwt_sign (mkClaims uid (Some uname) (Some urole) None) JWT_EXPIRES_IN now.

(** [generateRefreshToken(user)] *)
Definition generateRefreshToken (uid : Z) (now : Z) : string :=
  jwt_sign (mkClaims uid None None (Some "refresh")) JWT_REFRESH_EXPIRES_IN
    now.

(** [verifyRefreshToken(token)]: the decoded payload, or [None] when
    the function throws: [jwt.verify] threw, or the payload's [type]
    is not ['refresh'].  It has no path that returns a falsy value. *)
Definition verifyRefreshToken (token : string) (now : Z)
    : option JwtClaims :=
  match jwt_verify token now with
  | Some decoded =>
      match claim_type decoded with
      | Some ty => if String.eqb ty "refresh" then Some decoded else None
      | None => None
      end
  | None => None
  end.

End WithExternals.
End Middleware.

(** ** Handlers (routes/auth.routes.js) *)

(** What a handler sends: the status, the fields of the JSON body that
    the handlers of this file use, and the cookies it sets. *)
Record Response := mkResponse {
  status : Z;
  res_success : bool;
  res_error : option string;
  res_code : option string;
  res_message : option string;
  res_details : list string;
  res_user : option SafeAdmin;
  res_accessToken : option string;
  res_refreshToken : option string;
  res_expiresIn : option Z;
  res_cookies : list (string * string)
}.

Definition failure (st : Z) (err : string) (code : option string) : Response :=
  mkResponse st false (Some err) code None [] None None None None [].

Module Routes.
Section WithExternals.
Context `{E : Externals}.

(** The validation chain of POST /login, on the sanitized user name
    and the password: the messages of the checks that fail. *)
Definition login_validation (user pass : string) : list string :=
  (if Z.of_nat (String.length user) <? 3
   then ["Username must be at least 3 characters"] else [])
  ++ (if Z.of_nat (String.length pass) <? 8
      then ["Password must be at least 8 characters"] else []).

(** The handler of POST /api/auth/login with its validation chain.
    [Router.post_login] puts [loginRateLimiter] in front of it. *)
Definition login (user pass : string) (ipAddress userAgent : option string)
    (now : Z) (db : Db) : Response * Db :=
  let trimmed := Js.trim user in
  match login_validation trimmed pass with
  | (_ :: _) as errors =>
      (mkResponse 400 false (Some "Validation failed") None None errors
         None None None None [], db)
  | [] =>
      let user := validator_escape trimmed in
      match AdminService.authenticate user pass ipAddress userAgent now db with
      | (Returned admin, db1) =>
          let accessToken :=
            Middleware.generateAccessToken (safe_id admin)
              (safe_username admin) (safe_role admin) now in
          let refreshToken :=
            Middleware.generateRefreshToken (safe_id admin) now in
          let refreshTokenHash := sha256_hex refreshToken in
          let expiresAt := Clock.toISOString (now + 7 * 24 * 60 * 60 * 1000) in
          let db2 :=
            db_after (AdminService.storeRefreshToken (safe_id admin)
                        refreshTokenHash expiresAt now db1) in
          (mkResponse 200 true None None (Some "Login successful") []
             (Some admin) (Some accessToken) (Some refreshToken) (Some 86400)
             [("auth_token", accessToken); ("refresh_token", refreshToken)],
           db2)
      | (Thrown error, db1) =>
          (failure 401
             (match Js.or (Some (message error)) (Some "Invalid credentials")
              with Some m => m | None => "" end)
             None,
           db1)
      end
  end.

(** POST /api/auth/refresh.  The handler only reads the database.  A
    throw of [verifyRefreshToken] lands in the handler's [catch], which
    answers 500; the [if (!decoded)] answer (403,
    INVALID_REFRESH_TOKEN) needs a falsy return value, which
    [verifyRefreshToken] never produces. *)
Definition refresh (cookie body : option string) (now : Z) (db : Db)
    : Response :=
  match Js.or cookie body with
  | None | Some "" =>
      failure 401 "Refresh token required" (Some "NO_REFRESH_TOKEN")
  | Some refreshToken =>
      match Middleware.verifyRefreshToken refreshToken now with
      | None => failure 500 "Failed to refresh token" None
      | Some decoded =>
          let tokenHash := sha256_hex refreshToken in
          match AdminService.verifyRefreshToken tokenHash now db with
          | None =>
              failure 403 "Refresh token expired or revoked"
                (Some "TOKEN_REVOKED")
          | Some storedToken =>
              match AdminService.getAdminById (claim_id decoded) db with
              | None =>
                  failure 403 "Account not found or disabled"
                    (Some "ACCOUNT_DISABLED")
              | Some admin =>
                  if view_is_active admin =? 0 then
                    failure 403 "Account not found or disabled"
                      (Some "ACCOUNT_DISABLED")
                  else
                    let newAccessToken :=
                      Middleware.generateAccessToken (view_id admin)
                        (view_username admin) (view_role admin) now in
                    mkResponse 200 true None None
                      (Some "Token refreshed successfully") [] None
                      (Some newAccessToken) None (Some 86400)
                      [("auth_token", newAccessToken)]
              end
          end
      end
  end.

(** The [catch] of POST /api/auth/change-password: what the caller is
    sent when [changePassword] throws. *)
Definition change_password_failure (error : AuthError) : Response :=
  failure 400
    (match Js.or (Some (message error)) (Some "Failed to change password")
     with Some m => m | None => "" end)
    None.

End WithExternals.
End Routes.

(** ** Rate limiters (middleware/auth.js, index.js)

    [rateLimit(options)] of express-rate-limit with its memory store, as
    the library documents it: every request is counted under its key
    ([req.ip]) when it arrives; the count of a key starts again
    [windowMs] after its first request; a request whose count is above
    [max] is answered 429 with [message] and does not reach the handler;
    with [skipSuccessfulRequests], a request is un-counted when its
    response finishes with a status below 400.  Requests are taken one
    at a time: the response of one has finished when the next arrives. *)

Module RateLimit.


(** What the store keeps for a key. *)
Record Client := mkClient {
  totalHits : Z;
  resetTime : Z
}.

Definition Key : Type := option string.

Definition key_eqb (a b : Key) : bool :=
  match a, b with
  | Some x, Some y => String.eqb x y
  | None, None => true
  | _, _ => false
  end.

Definition Store : Type := Key -> option Client.


Definition set (key : Key) (c : Client) (st : Store) : Store :=
  fun k => if key_eqb k key then Some c else st k.





End RateLimit.



(** A POST /api/auth/login request: the two fields of the body, what the
    connection and the headers give, and the instant of its arrival. *)
Record LoginRequest := mkLoginRequest {
  req_username : string;
  req_password : string;
  req_remoteAddress : option string;
  req_userAgent : option string;
  req_at : Z
}.

Module Router.
Section WithExternals.
Context `{E : Externals}.




End WithExternals.
End Router.

(** ** A concrete instance, for running the model

    Toy stand-ins for the libraries: a hash that prefixes, tokens that
    are looked up in a two-entry table.  The refresh token ["refresh.1"]
    belongs to admin 1 and is signed to expire at [refresh1_exp]
    (seconds), the access token ["access.1"] never expires. *)

Module Demo.

Definition hash (p : string) (rounds : Z) : string :=
  "$2a$" ++ Js.show rounds ++ "$" ++ p.

Definition compare (p h : string) : bool := String.eqb h (hash p SALT_ROUNDS).

Definition sha (t : string) : string := "sha256:" ++ t.

Definition sign (c : JwtClaims) (expiresIn : string) (now : Z) : string :=
  match claim_type c with
  | Some _ => "refresh." ++ Js.show (claim_id c)
  | None => "access." ++ Js.show (claim_id c)
  end.

(** 2026-12-02 06:00:00 UTC, thirty days after [t_login]. *)
Definition refresh1_exp : Z := 1796191200.

Definition verify (tok : string) (now : Z) : option JwtClaims :=
  if String.eqb tok "refresh.1" then
    if now / 1000 >=? refresh1_exp then None
    else Some (mkClaims 1 None None (Some "refresh"))
  else if String.eqb tok "access.1" then
    Some (mkClaims 1 (Some "admin") (Some "admin") None)
  else None.

Definition externals : Externals :=
  Build_Externals compare hash sha sign verify (fun s => s) "24h" "30d".

(** 2026-11-02 06:00:00 UTC. *)
Definition t_login : Z := 1793599200000.

(** 2026-11-09 06:00:00 UTC, seven days later. *)
Definition t_expiry : Z := 1794204000000.

(** The seeded admin of [createDefaultAdmin]. *)
Definition admin1 : Admin :=
  mkAdmin 1 "admin" (hash "admin123" SALT_ROUNDS) "admin" None
    "2026-11-01 00:00:00" None 0 None 1.

Definition db0 : Db := mkDb [admin1] [] [] 0 0.

(** The seeded admin, locked at its fifth failure until [t_login]. *)
Definition admin1_locked : Admin :=
  AdminService.set_attempts 5 (Some t_login) admin1.

(** The seeded admin, deactivated. *)
Definition admin1_disabled : Admin :=
  mkAdmin 1 "admin" (hash "admin123" SALT_ROUNDS) "admin" None
    "2026-11-01 00:00:00" None 0 None 0.

(** The row that a login of admin 1 at [t_login] stores. *)
Definition token1 : RefreshToken :=
  mkRefreshToken 1 1 (sha "refresh.1")
    (Column.Text (Clock.toISOString t_expiry))
    (Clock.CURRENT_TIMESTAMP t_login) 0.

Definition db1 : Db := mkDb [admin1] [token1] [] 1 0.

End Demo.

(** ** Vocabulary of the statements *)

(** [after] differs from [before] only in the [revoked] column, which is
    1 on the rows that satisfy [P]; the rows that do not are untouched. *)
Definition revokes_exactly (P : RefreshToken -> Prop) (before after : Db)
    : Prop :=
  admins after = admins before
  /\ admin_audit_log after = admin_audit_log before
  /\ refresh_tokens_seq after = refresh_tokens_seq before
  /\ admin_audit_log_seq after = admin_audit_log_seq before
  /\ Forall2
       (fun t t' =>
          rt_id t' = rt_id t /\ rt_admin_id t' = rt_admin_id t
          /\ token_hash t' = token_hash t /\ expires_at t' = expires_at t
          /\ rt_created_at t' = rt_created_at t
          /\ (P t -> revoked t' = 1) /\ (~ P t -> t' = t))
       (refresh_tokens before) (refresh_tokens after).

(** The user name as [authenticate] looks it up. *)
Definition normalized (user : string) : string := Js.trim (Js.toLowerCase user).

(** [SELECT * FROM admins WHERE username = ?], first row. *)
Definition admin_named (user : string) (db : Db) : option Admin :=
  find (fun a => String.eqb (username a) user) (admins db).

(** [SELECT * FROM admins WHERE id = ?], first row. *)
Definition admin_with_id (i : Z) (db : Db) : option Admin :=
  find (fun a => id a =? i) (admins db).

(** The lock of the row is still running at [now]. *)
Definition locked_at (now : Z) (a : Admin) : bool :=
  match locked_until a with
  | Some lockUntil => lockUntil >? now
  | None => false
  end.

(** The database after one [logAudit] call. *)
Definition logged (adminId : option Z) (act : string)
    (ipAddress userAgent : option string) (ok : bool) (detail : option string)
    (now : Z) (db : Db) : Db :=
  db_after (AdminService.logAudit adminId act ipAddress userAgent ok detail
              now db).

(** The database after the lock check let the call through: a lock that
    ran out has been cleared. *)
Definition lock_cleared (a : Admin) (db : Db) : Db :=
  match locked_until a with
  | Some _ =>
      AdminService.update_admins (id a) (AdminService.set_attempts 0 None) db
  | None => db
  end.

(** The database after a run of [authenticate] calls for one user
    name, each with its password and its instant. *)
Fixpoint after_attempts `{E : Externals} (user : string)
    (tries : list (string * Z)) (db : Db) : Db :=
  match tries with
  | [] => db
  | (pass, now) :: rest =>
      after_attempts user rest
        (db_after (AdminService.authenticate user pass None None now db))
  end.

(** The user name that POST /login ends up looking for: trimmed and
    escaped by the validation chain, then normalized by [authenticate]. *)
Definition login_name `{E : Externals} (user : string) : string :=
  normalized (validator_escape (Js.trim user)).

(** [changePassword] gets as far as comparing the old password: the new
    one is long enough and the admin exists. *)
Definition reaches_old_password_check (adminId : Z) (newPassword : string)
    (db : Db) : bool :=
  negb (Z.of_nat (String.length newPassword) <? 8)
  && match admin_with_id adminId db with Some _ => true | None => false end.

(** The [success] column of the entry that goes with an outcome. *)
Definition success_flag {A} (o : Outcome A) : Z :=
  match o with
  | Returned _ => 1
  | Thrown _ => 0
  end.

(** Every stored row with this token hash belongs to this admin. *)
Definition owned_by (adminId : Z) (tokenHash : string) (db : Db) : Prop :=
  forall t, In t (refresh_tokens db) ->
            token_hash t = tokenHash -> rt_admin_id t = adminId.

(** The answer of POST /refresh when the token store has no usable row. *)
Definition token_revoked : Response :=
  failure 403 "Refresh token expired or revoked" (Some "TOKEN_REVOKED").

(** The answer of POST /refresh when the admin is missing or inactive. *)
Definition account_disabled : Response :=
  failure 403 "Account not found or disabled" (Some "ACCOUNT_DISABLED").


(** Requests handled one after another: the answers in order and the
    state left. *)
Fixpoint run {S : Type} (step : LoginRequest -> S -> Response * S)
    (reqs : list LoginRequest) (state : S) : list Response * S :=
  match reqs with
  | [] => ([], state)
  | r :: rest =>
      let '(res, state') := step r state in
      let '(more, final) := run step rest state' in
      (res :: more, final)
  end.



(** ** Token maintenance and sessions (services/admin.service.js,
       routes/auth.routes.js) *)

Module TokenStore.

(** [a < b] between two TEXT values in SQLite (BINARY collation). *)
Definition text_lt (a b : string) : bool :=
  match String.compare a b with
  | Lt => true
  | _ => false
  end.

(** The WHERE clause of [cleanupExpiredTokens]:
    [expires_at < CURRENT_TIMESTAMP]. *)
Definition expired (now : Z) (t : RefreshToken) : bool :=
  match expires_at t with
  | Column.Number _ => true
  | Column.Text a => text_lt a (Clock.CURRENT_TIMESTAMP now)
  end.

(** [cleanupExpiredTokens()]: deletes the matching rows and returns
    [result.changes], the number of rows deleted. *)
Definition cleanupExpiredTokens (now : Z) : Svc Z :=
  fun db =>
    let kept := filter (fun t => negb (expired now t)) (refresh_tokens db) in
    (Returned (Z.of_nat (List.length (refresh_tokens db))
               - Z.of_nat (List.length kept)),
     mkDb (admins db) kept (admin_audit_log db) (refresh_tokens_seq db)
       (admin_audit_log_seq db)).

End TokenStore.

(** ** Request gate (middleware/auth.js) *)

(** [err.name] of the error that [jwt.verify] reports for a token it
    does not accept at a given instant. *)
Class JwtFailure := {
  jwt_error_name : string -> Z -> string
}.

Module Gate.

(** [s.split(sep)] for a one-character separator. *)
Fixpoint split (sep : ascii) (s : string) : list string :=
  match s with
  | EmptyString => [EmptyString]
  | String c r =>
      if Ascii.eqb c sep then EmptyString :: split sep r
      else
        match split sep r with
        | h :: t => String c h :: t
        | [] => [String c EmptyString]
        end
  end.

(** [authHeader && authHeader.split(' ')[1]] *)
Definition headerToken (authHeader : option string) : option string :=
  match authHeader with
  | Some h => if Js.truthy authHeader then nth_error (split " " h) 1 else authHeader
  | None => None
  end.

(** What a middleware does with a request: answer it, or call [next()]
    with [req.user] set. *)
Inductive Passage :=
| Rejected (r : Response)
| Next (user : JwtClaims).

Section WithExternals.
Context `{E : Externals} `{F : JwtFailure}.

(** [authenticateToken(req, res, next)], from the Authorization header
    and the [auth_token] cookie of the request. *)
Definition authenticateToken (authHeader cookieToken : option string)
    (now : Z) : Passage :=
  match Js.or (headerToken authHeader) cookieToken with
  | None | Some "" =>
      Rejected (failure 401 "Access denied. No token provided."
                  (Some "NO_TOKEN"))
  | Some token =>
      match jwt_verify token now with
      | Some user => Next user
      | None =>
          if String.eqb (jwt_error_name token now) "TokenExpiredError" then
            Rejected (failure 401 "Token expired. Please login again."
                        (Some "TOKEN_EXPIRED"))
          else
            Rejected (failure 403 "Invalid token." (Some "INVALID_TOKEN"))
      end
  end.

End WithExternals.

(** [requireAdmin(req, res, next)]: [None] when it calls [next()]. *)
Definition requireAdmin (user : option JwtClaims) : option Response :=
  match user with
  | None => Some (failure 401 "Authentication required" None)
  | Some u =>
      match claim_role u with
      | Some "admin" => None
      | _ =>
          Some (failure 403 "Admin access required"
                  (Some "INSUFFICIENT_PERMISSIONS"))
      end
  end.

End Gate.

(** ** Session handlers (routes/auth.routes.js) *)

Module Sessions.
Section WithExternals.
Context `{E : Externals} `{F : JwtFailure}.

(** A handler mounted behind [authenticateToken]. *)
Definition behind_gate (authHeader cookieToken : option string) (now : Z)
    (handler : JwtClaims -> Db -> Response * Db) (db : Db) : Response * Db :=
  match Gate.authenticateToken authHeader cookieToken now with
  | Gate.Rejected r => (r, db)
  | Gate.Next user => handler user db
  end.

(** What [res.clearCookie] sends for the two cookies: empty values. *)
Definition cleared_cookies : list (string * string) :=
  [("auth_token", ""); ("refresh_token", "")].

(** The handler of POST /api/auth/logout: [cookie] and [body] are
    [req.cookies.refresh_token] and [req.body.refreshToken]. *)
Definition logout_handler (cookie body : option string)
    (ip userAgent : option string) (now : Z) (user : JwtClaims) (db : Db)
    : Response * Db :=
  let db1 :=
    match Js.or cookie body with
    | None | Some "" => db
    | Some refreshToken =>
        db_after (AdminService.revokeRefreshToken (sha256_hex refreshToken) db)
    end in
  let db2 :=
    db_after (AdminService.logAudit (Some (claim_id user)) "logout" ip
                userAgent true None now db1) in
  (mkResponse 200 true None None (Some "Logged out successfully") [] None
     None None None cleared_cookies,
   db2).

(** POST /api/auth/logout *)
Definition logout (authHeader cookieToken cookie body : option string)
    (ip userAgent : option string) (now : Z) : Db -> Response * Db :=
  behind_gate authHeader cookieToken now
    (logout_handler cookie body ip userAgent now).

(** The handler of POST /api/auth/logout-all. *)
Definition logout_all_handler (ip userAgent : option string) (now : Z)
    (user : JwtClaims) (db : Db) : Response * Db :=
  let db1 := db_after (AdminService.revokeAllRefreshTokens (claim_id user) db) in
  let db2 :=
    db_after (AdminService.logAudit (Some (claim_id user)) "logout_all_devices"
                ip userAgent true None now db1) in
  (mkResponse 200 true None None (Some "Logged out from all devices") [] None
     None None None cleared_cookies,
   db2).

(** POST /api/auth/logout-all *)
Definition logout_all (authHeader cookieToken : option string)
    (ip userAgent : option string) (now : Z) : Db -> Response * Db :=
  behind_gate authHeader cookieToken now (logout_all_handler ip userAgent now).

(** The validation chain of POST /change-password: the messages of the
    checks that fail, in the order of the chain. *)
Definition change_password_validation (oldPassword newPassword : string)
    : list string :=
  (if String.eqb oldPassword "" then ["Old password is required"] else [])
  ++ (if Z.of_nat (String.length newPassword) <? 8
      then ["New password must be at least 8 characters"] else [])
  ++ (if Regex.passwordRegex_test newPassword then []
      else ["Password must contain uppercase, lowercase, and number"]).

(** The handler of POST /api/auth/change-password. *)
Definition change_password_handler (oldPassword newPassword : string)
    (now : Z) (user : JwtClaims) (db : Db) : Response * Db :=
  match change_password_validation oldPassword newPassword with
  | (_ :: _) as errors =>
      (mkResponse 400 false (Some "Validation failed") None None errors
         None None None None [], db)
  | [] =>
      match AdminService.changePassword (claim_id user) oldPassword
              newPassword now db with
      | (Returned _, db1) =>
          (mkResponse 200 true None None
             (Some "Password changed successfully. Please login again.") []
             None None None None cleared_cookies,
           db1)
      | (Thrown error, db1) => (Routes.change_password_failure error, db1)
      end
  end.

(** POST /api/auth/change-password *)
Definition change_password (authHeader cookieToken : option string)
    (oldPassword newPassword : string) (now : Z) : Db -> Response * Db :=
  behind_gate authHeader cookieToken now
    (change_password_handler oldPassword newPassword now).

End WithExternals.
End Sessions.

(** ** Admin accounts (services/admin.service.js) *)

(** The SQL functions of the CHECK constraints of [admins]. *)
Module Sql.

(** [LOWER(s)]: the ASCII letters only. *)
Definition LOWER (s : string) : string := Js.toLowerCase s.

Fixpoint ltrim (s : string) : string :=
  match s with
  | EmptyString => EmptyString
  | String c r => if Ascii.eqb c " " then ltrim r else s
  end.

Fixpoint rtrim (s : string) : string :=
  match s with
  | EmptyString => EmptyString
  | String c r =>
      match rtrim r with
      | EmptyString =>
          if Ascii.eqb c " " then EmptyString else String c EmptyString
      | r' => String c r'
      end
  end.

(** [TRIM(s)]: spaces only, at both ends. *)
Definition TRIM (s : string) : string := rtrim (ltrim s).

(** [LENGTH(s)] of a TEXT value: the characters before the first NUL. *)
Fixpoint LENGTH (s : string) : Z :=
  match s with
  | EmptyString => 0
  | String c r => if Ascii.eqb c Ascii.zero then 0 else 1 + LENGTH r
  end.

End Sql.

(** The [admins] table with its AUTOINCREMENT counter. *)
Record AdminStore := mkStore {
  store_db : Db;
  admins_seq : Z
}.

(** The object that [createAdmin] returns. *)
Record NewAdmin := mkNewAdmin {
  new_id : Z;
  new_username : string;
  new_email : option string;
  new_role : string
}.

(** What [createAdmin] can throw: its own three errors
    ([Username must be at least 3 characters],
    [Password must be at least 8 characters], [Username already exists])
    and the error of the INSERT when a constraint of the table fails. *)
Inductive CreateAdminError :=
| UsernameTooShort
| PasswordTooShort
| UsernameExists
| ConstraintFailed.

Inductive Creation :=
| Created (info : NewAdmin)
| CreateFailed (e : CreateAdminError).

Module Accounts.

(** The largest [id] of the table, 0 when it is empty. *)
Definition max_id (l : list Admin) : Z := fold_right Z.max 0 (map id l).

(** The constraints of [admins] on a new row: the three CHECKs and
    UNIQUE(username). *)
Definition constraints_hold (uname hashed : string) (l : list Admin) : bool :=
  String.eqb uname (Sql.LOWER (Sql.TRIM uname))
  && (3 <=? Sql.LENGTH uname)
  && (60 <=? Sql.LENGTH hashed)
  && negb (existsb (fun a => String.eqb (username a) uname) l).

(** [INSERT INTO admins (username, password, role, email) VALUES ...]:
    the row id given to the new row and the table after it, or [None]
    when a constraint fails.  The other columns take their defaults. *)
Definition insert_admin (uname hashed rl : string) (mail : option string)
    (now : Z) (s : AdminStore) : option (Z * AdminStore) :=
  let db := store_db s in
  if constraints_hold uname hashed (admins db) then
    let n := Z.max (admins_seq s) (max_id (admins db)) + 1 in
    Some (n,
          mkStore
            (mkDb (admins db
                   ++ [mkAdmin n uname hashed rl mail
                         (Clock.CURRENT_TIMESTAMP now) None 0 None 1])
               (refresh_tokens db) (admin_audit_log db)
               (refresh_tokens_seq db) (admin_audit_log_seq db))
            n)
  else None.

Section WithExternals.
Context `{E : Externals}.

(** [createAdmin(username, password, email)] *)
Definition createAdmin (user pass : string) (mail : option string) (now : Z)
    (s : AdminStore) : Creation * AdminStore :=
  let user := Js.trim (Js.toLowerCase user) in
  if Z.of_nat (String.length user) <? 3 then (CreateFailed UsernameTooShort, s)
  else if Z.of_nat (String.length pass) <? 8 then
    (CreateFailed PasswordTooShort, s)
  else
    match find (fun a => String.eqb (username a) user) (admins (store_db s)) with
    | Some _ => (CreateFailed UsernameExists, s)
    | None =>
        let hashedPassword := bcrypt_hash pass SALT_ROUNDS in
        match insert_admin user hashedPassword "admin" mail now s with
        | Some (n, s') => (Created (mkNewAdmin n user mail "admin"), s')
        | None => (CreateFailed ConstraintFailed, s)
        end
    end.

(** [createDefaultAdmin()]: [None] when the INSERT throws. *)
Definition createDefaultAdmin (now : Z) (s : AdminStore) : option AdminStore :=
  match admins (store_db s) with
  | _ :: _ => Some s
  | [] =>
      let hashedPassword := bcrypt_hash "admin123" SALT_ROUNDS in
      match insert_admin "admin" hashedPassword "admin" None now s with
      | Some (_, s') => Some s'
      | None => None
      end
  end.

End WithExternals.
End Accounts.

(** ** Waitlist (services/waitlist.service.js, index.js, landing/script.js) *)

(** A row of [waitlist]. *)
Record Signup := mkSignup {
  w_id : Z;
  w_name : string;
  w_email : string;
  w_church : option string;
  w_created_at : string;
  w_ip_address : option string;
  w_user_agent : option string
}.

(** The [waitlist] table in row order, with its AUTOINCREMENT counter. *)
Record WaitlistDb := mkWaitlistDb {
  waitlist : list Signup;
  waitlist_seq : Z
}.

(** The object that [addToWaitlist] returns. *)
Record AddResult := mkAddResult {
  add_success : bool;
  add_message : string;
  add_id : option Z
}.

Module WaitlistService.

Definition max_id (l : list Signup) : Z := fold_right Z.max 0 (map w_id l).

(** [addToWaitlist({ name, email, church, ipAddress, userAgent })].  The
    INSERT cannot fail once the look-up has found no row with the email:
    [name] and [email] are strings and UNIQUE(email) holds. *)
Definition addToWaitlist (name email : string) (church : option string)
    (ipAddress userAgent : option string) (now : Z) (db : WaitlistDb)
    : AddResult * WaitlistDb :=
  match find (fun r => String.eqb (w_email r) email) (waitlist db) with
  | Some _ => (mkAddResult false "Email already registered" None, db)
  | None =>
      let n := Z.max (waitlist_seq db) (max_id (waitlist db)) + 1 in
      (mkAddResult true "Successfully added to waitlist" (Some n),
       mkWaitlistDb
         (waitlist db
          ++ [mkSignup n name email church (Clock.CURRENT_TIMESTAMP now)
                ipAddress userAgent])
         n)
  end.

(** [getCount()] *)
Definition getCount (db : WaitlistDb) : Z := Z.of_nat (List.length (waitlist db)).

End WaitlistService.

Module Server.

(** POST /api/waitlist/signup: the status and the JSON body sent.
    [name], [email] and [church] are the fields of [req.body], absent or
    strings. *)
Definition signup (name email church : option string)
    (ipAddress userAgent : option string) (now : Z) (db : WaitlistDb)
    : (Z * AddResult) * WaitlistDb :=
  match email with
  | None | Some "" => ((400, mkAddResult false "Email is required" None), db)
  | Some address =>
      if negb (Regex.matches Regex.emailRegex address) then
        ((400, mkAddResult false "Invalid email address" None), db)
      else
        let name :=
          match Js.or name (Some "Anonymous") with
          | Some n => n
          | None => "Anonymous"
          end in
        let '(result, db') :=
          WaitlistService.addToWaitlist name address church ipAddress
            userAgent now db in
        ((if add_success result then 201 else 409, result), db')
  end.

(** GET /api/waitlist/count *)
Definition count (db : WaitlistDb) : Z := WaitlistService.getCount db.

End Server.

Module Landing.

(** [validateEmail(email)] *)
Definition validateEmail (email : string) : bool :=
  Regex.matches Regex.emailRegex email.

(** The [formData] that the submit handler of the signup form builds
    from the two inputs, [None] when it shows the validation error
    instead of sending the request. *)
Definition formData (emailInput churchInput : string)
    : option (string * string * option string) :=
  let email := Js.trim emailInput in
  let church := Js.trim churchInput in
  let name :=
    match Gate.split "@" email with
    | h :: _ => h
    | [] => EmptyString
    end in
  if validateEmail email then
    Some (name, email, Js.or (Some church) None)
  else None.

(** The headlines of [startTypingAnimation]. *)
Definition headlines : list string :=
  ["Your Pastor Speaks. Logos Finds the Scripture.";
   "From word to screen, instantly with Logos";
   "Experience the future of Projection";
   "Real-Time Bible Verses. No More Projection Delays";
   "AI That Understands Sermons";
   "Your #1 Media Assistant for Real-Time Scripture Detection."].

(** The variables of [startTypingAnimation] with the text shown. *)
Record Typing := mkTyping {
  currentHeadlineIndex : nat;
  index : nat;
  isDeleting : bool;
  textContent : string
}.

(** The callback a timer is waiting to run: [type] itself, or the arrow
    function that starts the deletion. *)
Inductive Callback :=
| CallType
| CallStartDeleting.

(** [s.substring(0, n)] *)
Fixpoint substring0 (n : nat) (s : string) : string :=
  match n, s with
  | S n', String c r => String c (substring0 n' r)
  | _, _ => EmptyString
  end.

(** One run of [type()]: the variables after it, the callback it hands
    to [setTimeout] and the delay. *)
Definition type (st : Typing) : Typing * Callback * Z :=
  let currentText := nth (currentHeadlineIndex st) headlines EmptyString in
  let len := String.length currentText in
  if negb (isDeleting st) && (index st <=? len)%nat then
    (mkTyping (currentHeadlineIndex st) (S (index st)) false
       (substring0 (index st) currentText),
     CallType, 50)
  else if negb (isDeleting st) then
    (st, CallStartDeleting, 3000)
  else if (0 <? index st)%nat then
    (mkTyping (currentHeadlineIndex st) (pred (index st)) true
       (substring0 (pred (index st)) currentText),
     CallType, 30)
  else
    (mkTyping (Nat.modulo (S (currentHeadlineIndex st)) (List.length headlines))
       0 false (textContent st),
     CallType, 500).

(** Running the callback a timer holds. *)
Definition run (cb : Callback) (st : Typing) : Typing * Callback * Z :=
  match cb with
  | CallType => type st
  | CallStartDeleting =>
      type (mkTyping (currentHeadlineIndex st) (index st) true (textContent st))
  end.

(** The state after [n] timers have fired, with the time they took. *)
Fixpoint after_timers (n : nat) (st : Typing) (cb : Callback) (elapsed : Z)
    : Typing * Callback * Z :=
  match n with
  | O => (st, cb, elapsed)
  | S n' =>
      let '(st', cb', delay) := run cb st in
      after_timers n' st' cb' (elapsed + delay)
  end.

End Landing.

(** ** Vocabulary of the further statements *)

(** Every character of the string satisfies [p]. *)
Fixpoint all_chars (p : ascii -> bool) (s : string) : bool :=
  match s with
  | EmptyString => true
  | String c r => p c && all_chars p r
  end.

(** The string has no occurrence of the character. *)
Definition lacks (c : ascii) (s : string) : bool :=
  all_chars (fun x => negb (Ascii.eqb x c)) s.

(** Some character satisfying [p] occurs before the first line
    terminator of the string. *)
Fixpoint on_first_line (p : ascii -> bool) (s : string) : bool :=
  match s with
  | EmptyString => false
  | String c r => p c || (Regex.dot c && on_first_line p r)
  end.

(** The language of a pattern. *)
Inductive in_lang : Regex.regex -> string -> Prop :=
| in_eps : in_lang Regex.Eps EmptyString
| in_class (p : ascii -> bool) (c : ascii) :
    p c = true -> in_lang (Regex.Class p) (String c EmptyString)
| in_seq (r1 r2 : Regex.regex) (s1 s2 : string) :
    in_lang r1 s1 -> in_lang r2 s2 -> in_lang (Regex.Seq r1 r2) (s1 ++ s2)
| in_alt_l (r1 r2 : Regex.regex) (s : string) :
    in_lang r1 s -> in_lang (Regex.Alt r1 r2) s
| in_alt_r (r1 r2 : Regex.regex) (s : string) :
    in_lang r2 s -> in_lang (Regex.Alt r1 r2) s
| in_star_nil (r : Regex.regex) : in_lang (Regex.Star r) EmptyString
| in_star_more (r : Regex.regex) (s1 s2 : string) :
    in_lang r s1 -> in_lang (Regex.Star r) s2 ->
    in_lang (Regex.Star r) (s1 ++ s2).

(** The date of [e] is an earlier one than the date of [now], as texts. *)
Definition date_before (e now : Z) : bool :=
  match String.compare (Clock.date_text e) (Clock.date_text now) with
  | Lt => true
  | _ => false
  end.

(** Some character class of the pattern accepts the character. *)
Fixpoint mentions (r : Regex.regex) (c : ascii) : bool :=
  match r with
  | Regex.Fail | Regex.Eps => false
  | Regex.Class p => p c
  | Regex.Seq r1 r2 | Regex.Alt r1 r2 => mentions r1 c || mentions r2 c
  | Regex.Star r1 => mentions r1 c
  end.

(** The constraints that the schema puts on [waitlist], and the check
    of the signup route on every stored email. *)
Definition waitlist_constraints (l : list Signup) : Prop :=
  NoDup (map w_id l)
  /\ NoDup (map w_email l)
  /\ Forall (fun r => Regex.matches Regex.emailRegex (w_email r) = true) l.

(** ** More of the concrete instance *)

Module DemoGate.

(** [jwt.verify] reports the expiry of ["refresh.1"] and a malformed
    token otherwise. *)
Definition failure_name (tok : string) (now : Z) : string :=
  if String.eqb tok "refresh.1" then "TokenExpiredError"
  else "JsonWebTokenError".

Definition failures : JwtFailure := Build_JwtFailure failure_name.

(** A hash of the length of a bcrypt hash: a 29-character prefix and
    the first 31 characters of the padded password. *)
Definition hash60 (p : string) (rounds : Z) : string :=
  "$2a$12$0123456789012345678901"
  ++ Landing.substring0 31 (p ++ "...............................").

Definition compare60 (p h : string) : bool :=
  String.eqb h (hash60 p SALT_ROUNDS).

Definition externals60 : Externals :=
  Build_Externals compare60 hash60 Demo.sha Demo.sign Demo.verify
    (fun s => s) "24h" "7d".

Definition store0 : AdminStore := mkStore (mkDb [] [] [] 0 0) 0.

End DemoGate.

(** The headline the animation is on. *)
Definition typing_headline (st : Landing.Typing) : string :=
  nth (Landing.currentHeadlineIndex st) Landing.headlines EmptyString.

(** What holds of the variables of the animation between two timers. *)
Definition typing_settled (st : Landing.Typing) (cb : Landing.Callback)
    : Prop :=
  (Landing.currentHeadlineIndex st < 6)%nat
  /\ (Landing.index st <= S (String.length (typing_headline st)))%nat
  /\ Landing.textContent st
     = Landing.substring0
         (if Landing.isDeleting st then Landing.index st
          else pred (Landing.index st))
         (typing_headline st)
  /\ (cb = Landing.CallStartDeleting ->
      Landing.isDeleting st = false
      /\ (String.length (typing_headline st) < Landing.index st)%nat).

(** * Properties *)

Example toISOString_epoch :
  Clock.toISOString 0 = "1970-01-01T00:00:00.000Z".
Proof. reflexivity. Qed.

Example toISOString_leap_day :
  Clock.toISOString 1709251199123 = "2024-02-29T23:59:59.123Z".
Proof. vm_compute. reflexivity. Qed.

Example CURRENT_TIMESTAMP_sample :
  Clock.CURRENT_TIMESTAMP 1794207600999 = "2026-11-09 07:00:00".
Proof. vm_compute. reflexivity. Qed.

Example trim_lower_sample :
  Js.trim (Js.toLowerCase "  Admin ") = "admin".
Proof. reflexivity. Qed.

Example show_sample : Js.show 15 = "15".
Proof. reflexivity. Qed.

Example ceil_div_sample :
  Js.ceil_div 60001 60000 = 2 /\ Js.ceil_div 60000 60000 = 1.
Proof. split; reflexivity. Qed.

(** A login of the seeded admin stores the row [Demo.token1]. *)
Example login_stores_row :
  refresh_tokens
    (snd (Routes.login (E := Demo.externals) "admin" "admin123" None None
            Demo.t_login Demo.db0))
  = [Demo.token1].
Proof. vm_compute. reflexivity. Qed.

(** Four wrong passwords leave the counter at 4 and the account open;
    the fifth locks it, and the right password is then refused. *)
Example five_failures_scenario :
  let wrong := ("wrongpass", Demo.t_login) in
  let db4 := after_attempts (E := Demo.externals) "admin"
               [wrong; wrong; wrong; wrong] Demo.db0 in
  let db5 := after_attempts (E := Demo.externals) "admin" [wrong] db4 in
  admin_named "admin" db4
  = Some (AdminService.set_attempts 4 None Demo.admin1)
  /\ admin_named "admin" db5
     = Some (AdminService.set_attempts 5
               (Some (Demo.t_login + LOCKOUT_DURATION)) Demo.admin1)
  /\ outcome (AdminService.authenticate (E := Demo.externals) "admin"
                "admin123" None None (Demo.t_login + 1) db5)
     = Thrown (AccountLocked 15).
Proof. vm_compute. repeat split. Qed.

Example login_validation_answer :
  res_details
    (fst (Routes.login (E := Demo.externals) " ab " "short" None None
            Demo.t_login Demo.db0))
  = ["Username must be at least 3 characters";
     "Password must be at least 8 characters"].
Proof. reflexivity. Qed.

Example change_password_validation_answer :
  res_details
    (fst (Sessions.change_password_handler (E := Demo.externals) "" "short" 0
            (mkClaims 1 None None None) Demo.db0))
  = ["Old password is required";
     "New password must be at least 8 characters";
     "Password must contain uppercase, lowercase, and number"].
Proof. reflexivity. Qed.

Example numeric_affinity_samples :
  Column.numeric_affinity "9999" = Column.Number "9999"
  /\ Column.numeric_affinity " -1.5e+3 " = Column.Number " -1.5e+3 "
  /\ Column.numeric_affinity ".5" = Column.Number ".5"
  /\ Column.numeric_affinity "1e" = Column.Text "1e"
  /\ Column.numeric_affinity "0x10" = Column.Text "0x10"
  /\ Column.numeric_affinity "" = Column.Text ""
  /\ Column.numeric_affinity "2026-11-09T06:00:00.000Z"
     = Column.Text "2026-11-09T06:00:00.000Z".
Proof. vm_compute. repeat split. Qed.

Example LENGTH_samples :
  Sql.LENGTH "admin" = 5
  /\ Sql.LENGTH (String "a" (String "b" (String Ascii.zero "c"))) = 2.
Proof. vm_compute. repeat split. Qed.

(** ** Rows and statements *)

Lemma find_map_same {A} (p : A -> bool) (g : A -> A) (l : list A) :
  (forall a, p (g a) = p a) ->
  find p (map g l) = option_map g (find p l).
Proof.
  intros Hp. induction l as [|a l IH]; cbn; [reflexivity|].
  rewrite Hp. destruct (p a); [reflexivity | exact IH].
Qed.

Lemma map_map_idem {A} (g : A -> A) (l : list A) :
  (forall a, g (g a) = g a) -> map g (map g l) = map g l.
Proof.
  intros Hg. rewrite map_map. apply map_ext. exact Hg.
Qed.

Lemma revoke_where_idem (cond : RefreshToken -> bool) (db : Db) :
  (forall t, cond (AdminService.set_revoked t) = cond t) ->
  AdminService.revoke_where cond (AdminService.revoke_where cond db)
  = AdminService.revoke_where cond db.
Proof.
  intros Hc. unfold AdminService.revoke_where; cbn. f_equal.
  apply map_map_idem. intros t.
  destruct (cond t) eqn:Ht.
  - rewrite Hc, Ht. reflexivity.
  - rewrite Ht. reflexivity.
Qed.

Lemma revoke_where_exactly (cond : RefreshToken -> bool)
    (P : RefreshToken -> Prop) (db : Db) :
  (forall t, cond t = true <-> P t) ->
  revokes_exactly P db (AdminService.revoke_where cond db).
Proof.
  intros Hc. unfold revokes_exactly, AdminService.revoke_where; cbn.
  repeat split.
  induction (refresh_tokens db) as [|t l IH]; cbn; constructor; [|exact IH].
  destruct (cond t) eqn:Ht; cbn.
  - repeat split; try reflexivity.
    intros Hn. exfalso. apply Hn, Hc, Ht.
  - repeat split; try reflexivity.
    intros HP. apply Hc in HP. congruence.
Qed.

(** C8. [revokeRefreshToken] and [revokeAllRefreshTokens] are idempotent:
    for every token hash and every admin id, running the operation a
    second time leaves the database as the first run left it; and one
    run sets [revoked] to 1 on exactly the rows with that token hash
    (respectively that owner), changing no other column and no other
    row or table. *)
Theorem C8_revocation_idempotent (tokenHash : string) (adminId : Z) (db : Db) :
  let once := db_after (AdminService.revokeRefreshToken tokenHash db) in
  let all := db_after (AdminService.revokeAllRefreshTokens adminId db) in
  db_after (AdminService.revokeRefreshToken tokenHash once) = once
  /\ db_after (AdminService.revokeAllRefreshTokens adminId all) = all
  /\ revokes_exactly (fun t => token_hash t = tokenHash) db once
  /\ revokes_exactly (fun t => rt_admin_id t = adminId) db all.
Proof.
  cbn. repeat split.
  - apply revoke_where_idem. reflexivity.
  - apply revoke_where_idem. reflexivity.
  - apply revoke_where_exactly. intros t. apply String.eqb_eq.
  - apply revoke_where_exactly. intros t. apply Z.eqb_eq.
Qed.

(** ** The branches of [authenticate] *)

Section Authenticate.
Context `{E : Externals}.
Variables (user pass : string) (ipAddress userAgent : option string).
Variables (now : Z) (db : Db).

Lemma authenticate_unknown :
  admin_named (normalized user) db = None ->
  AdminService.authenticate user pass ipAddress userAgent now db
  = (Thrown InvalidCredentials,
         logged None "login_failed" ipAddress userAgent false
           (Some "User not found") now db).
Proof.
  unfold AdminService.authenticate, admin_named, normalized, bind, query.
  intros ->. reflexivity.
Qed.

Lemma authenticate_locked (a : Admin) :
  admin_named (normalized user) db = Some a ->
  locked_at now a = true ->
  exists lockUntil,
    locked_until a = Some lockUntil /\ now < lockUntil
    /\ AdminService.authenticate user pass ipAddress userAgent now db
  = (Thrown (AccountLocked (Js.ceil_div (lockUntil - now) 60000)),
              logged (Some (id a)) "login_failed" ipAddress userAgent false
                (Some "Account locked") now db).
Proof.
  unfold AdminService.authenticate, admin_named, normalized, bind, query,
    locked_at, AdminService.check_lock.
  intros -> Hl. destruct (locked_until a) as [t|]; [|discriminate].
  exists t. rewrite Hl. repeat split. lia.
Qed.

Lemma check_lock_passes (a : Admin) :
  locked_at now a = false ->
  AdminService.check_lock a ipAddress userAgent now db
  = (Returned tt, lock_cleared a db).
Proof.
  unfold locked_at, AdminService.check_lock, lock_cleared.
  destruct (locked_until a) as [t|]; [|reflexivity].
  intros ->. reflexivity.
Qed.

Lemma authenticate_disabled (a : Admin) :
  admin_named (normalized user) db = Some a ->
  locked_at now a = false ->
  is_active a = 0 ->
  AdminService.authenticate user pass ipAddress userAgent now db
  = (Thrown AccountDisabled,
         logged (Some (id a)) "login_failed" ipAddress userAgent false
           (Some "Account disabled") now (lock_cleared a db)).
Proof.
  intros Hf Hl Ha.
  unfold AdminService.authenticate, bind, query.
  fold (normalized user). fold (admin_named (normalized user) db).
  rewrite Hf, (check_lock_passes a Hl), Ha. reflexivity.
Qed.

Lemma authenticate_mismatch (a : Admin) :
  admin_named (normalized user) db = Some a ->
  locked_at now a = false ->
  is_active a <> 0 ->
  bcrypt_compare pass (password a) = false ->
  let newAttempts := login_attempts a + 1 in
  let shouldLock := newAttempts >=? MAX_LOGIN_ATTEMPTS in
  AdminService.authenticate user pass ipAddress userAgent now db
  = (Thrown (if shouldLock then TooManyFailedAttempts
                 else InvalidCredentials),
         logged (Some (id a)) "login_failed" ipAddress userAgent false
           (Some ("Invalid password (attempt " ++ Js.show newAttempts ++ "/"
                  ++ Js.show MAX_LOGIN_ATTEMPTS ++ ")")) now
           (AdminService.update_admins (id a)
              (AdminService.set_attempts newAttempts
                 (if shouldLock then Some (now + LOCKOUT_DURATION) else None))
              (lock_cleared a db))).
Proof.
  intros Hf Hl Ha Hp.
  unfold AdminService.authenticate, bind, query.
  fold (normalized user). fold (admin_named (normalized user) db).
  rewrite Hf, (check_lock_passes a Hl), Hp.
  apply Z.eqb_neq in Ha. rewrite Ha. cbn [negb].
  destruct (login_attempts a + 1 >=? MAX_LOGIN_ATTEMPTS); reflexivity.
Qed.

Lemma authenticate_match (a : Admin) :
  admin_named (normalized user) db = Some a ->
  locked_at now a = false ->
  is_active a <> 0 ->
  bcrypt_compare pass (password a) = true ->
  AdminService.authenticate user pass ipAddress userAgent now db
  = (Returned (strip_password a),
         logged (Some (id a)) "login_success" ipAddress userAgent true None
           now
           (AdminService.update_admins (id a)
              (AdminService.set_logged_in now) (lock_cleared a db))).
Proof.
  intros Hf Hl Ha Hp.
  unfold AdminService.authenticate, bind, query.
  fold (normalized user). fold (admin_named (normalized user) db).
  rewrite Hf, (check_lock_passes a Hl), Hp.
  apply Z.eqb_neq in Ha. rewrite Ha. reflexivity.
Qed.

End Authenticate.

(** ** Reading a row back after a call *)

Lemma admin_named_logged (u : string) adminId act ip ua ok detail now db :
  admin_named u (logged adminId act ip ua ok detail now db) = admin_named u db.
Proof. reflexivity. Qed.

Lemma admin_named_update (u : string) (i : Z) (f : Admin -> Admin) (db : Db) :
  (forall a, username (f a) = username a) ->
  admin_named u (AdminService.update_admins i f db)
  = option_map (fun a => if id a =? i then f a else a) (admin_named u db).
Proof.
  intros Hf. unfold admin_named, AdminService.update_admins; cbn.
  apply find_map_same. intros a.
  destruct (id a =? i); [rewrite Hf|]; reflexivity.
Qed.

Lemma admin_named_update_self (u : string) (f : Admin -> Admin) (a : Admin)
    (db : Db) :
  (forall x, username (f x) = username x) ->
  admin_named u db = Some a ->
  admin_named u (AdminService.update_admins (id a) f db) = Some (f a).
Proof.
  intros Hf Ha. rewrite admin_named_update, Ha by exact Hf. cbn.
  rewrite Z.eqb_refl. reflexivity.
Qed.

Lemma admin_named_lock_cleared (u : string) (a : Admin) (db : Db) :
  admin_named u db = Some a ->
  exists a',
    admin_named u (lock_cleared a db) = Some a'
    /\ id a' = id a
    /\ (forall n l, AdminService.set_attempts n l a'
                    = AdminService.set_attempts n l a)
    /\ (forall t, AdminService.set_logged_in t a'
                  = AdminService.set_logged_in t a)
    /\ (locked_until a = None -> a' = a)
    /\ (locked_until a <> None -> a' = AdminService.set_attempts 0 None a).
Proof.
  intros Ha. unfold lock_cleared. destruct (locked_until a) as [t|] eqn:Hl.
  - exists (AdminService.set_attempts 0 None a).
    rewrite (admin_named_update_self u _ a db) by auto.
    repeat split; auto. discriminate.
  - exists a. repeat split; auto. congruence.
Qed.

Lemma audit_logged adminId act ip ua ok detail now db :
  admin_audit_log (logged adminId act ip ua ok detail now db)
  = (admin_audit_log db
     ++ [mkAudit (admin_audit_log_seq db + 1) adminId act ip ua
           (if ok then 1 else 0) detail (Clock.CURRENT_TIMESTAMP now)])%list.
Proof. reflexivity. Qed.

Lemma audit_lock_cleared (a : Admin) (db : Db) :
  admin_audit_log (lock_cleared a db) = admin_audit_log db
  /\ admin_audit_log_seq (lock_cleared a db) = admin_audit_log_seq db
  /\ refresh_tokens (lock_cleared a db) = refresh_tokens db.
Proof. unfold lock_cleared. destruct (locked_until a); repeat split. Qed.

(** ** Successful authentication *)

(** C5. Whatever the attempt counter and the lock of the admin were,
    when [authenticate] returns, the admin's row read back from the
    database has [login_attempts = 0], [locked_until] NULL and
    [last_login] equal to the current time, every other column being
    what it was, and the value returned is the row that was read at the
    start of the call with the [password] column removed: its nine
    fields are the other nine columns of that row. *)
Theorem C5_successful_authentication `{E : Externals}
    (user pass : string) (ipAddress userAgent : option string) (now : Z)
    (db : Db) (safe : SafeAdmin) :
  outcome (AdminService.authenticate user pass ipAddress userAgent now db)
  = Returned safe ->
  exists before after,
    admin_named (normalized user) db = Some before
    /\ admin_named (normalized user)
         (db_after (AdminService.authenticate user pass ipAddress userAgent
                      now db))
       = Some after
    /\ login_attempts after = 0
    /\ locked_until after = None
    /\ last_login after = Some (Clock.CURRENT_TIMESTAMP now)
    /\ after = AdminService.set_logged_in now before
    /\ safe = strip_password before
    /\ (id after = id before
        /\ username after = username before
        /\ password after = password before
        /\ role after = role before
        /\ email after = email before
        /\ created_at after = created_at before
        /\ is_active after = is_active before)
    /\ (safe_id safe = id before
        /\ safe_username safe = username before
        /\ safe_role safe = role before
        /\ safe_email safe = email before
        /\ safe_created_at safe = created_at before
        /\ safe_last_login safe = last_login before
        /\ safe_login_attempts safe = login_attempts before
        /\ safe_locked_until safe = locked_until before
        /\ safe_is_active safe = is_active before).
Proof.
  intros Hret.
  destruct (admin_named (normalized user) db) as [a|] eqn:Hf.
  2:{ rewrite (authenticate_unknown _ _ _ _ _ _ Hf) in Hret. discriminate. }
  destruct (locked_at now a) eqn:Hl.
  { destruct (authenticate_locked user pass ipAddress userAgent now db a Hf Hl)
      as (t & _ & _ & Hrun).
    rewrite Hrun in Hret. discriminate. }
  destruct (Z.eq_dec (is_active a) 0) as [Ha|Ha].
  { rewrite (authenticate_disabled _ pass _ _ _ _ a Hf Hl Ha) in Hret.
    discriminate. }
  destruct (bcrypt_compare pass (password a)) eqn:Hp.
  2:{ rewrite (authenticate_mismatch _ _ ipAddress userAgent _ _ a Hf Hl Ha Hp)
        in Hret.
      cbn in Hret. destruct (_ >=? _) in Hret; discriminate. }
  rewrite (authenticate_match _ _ ipAddress userAgent _ _ a Hf Hl Ha Hp) in *.
  cbn in Hret. injection Hret as <-.
  destruct (admin_named_lock_cleared _ a db Hf) as (a' & Ha' & Hid & _ & Hin & _).
  exists a, (AdminService.set_logged_in now a).
  cbn [db_after snd]. rewrite admin_named_logged.
  rewrite <- Hid.
  rewrite (admin_named_update_self _ (AdminService.set_logged_in now) a' _
             (fun _ => eq_refl) Ha'), Hin.
  repeat split; cbn; congruence.
Qed.

(** A correct password on an active account whose lock is not running
    does reach that branch. *)
Lemma C5_witness :
  outcome (AdminService.authenticate (E := Demo.externals) " Admin" "admin123"
             None None Demo.t_login
             (mkDb [Demo.admin1_locked] [] [] 0 0))
  = Returned (strip_password Demo.admin1_locked)
  /\ exists before after,
      admin_named "admin" (mkDb [Demo.admin1_locked] [] [] 0 0) = Some before
      /\ admin_named "admin"
           (db_after (AdminService.authenticate (E := Demo.externals) " Admin"
                        "admin123" None None Demo.t_login
                        (mkDb [Demo.admin1_locked] [] [] 0 0)))
         = Some after
      /\ login_attempts after = 0
      /\ locked_until after = None
      /\ last_login after = Some "2026-11-02 06:00:00"
      /\ after = AdminService.set_logged_in Demo.t_login before
      /\ strip_password Demo.admin1_locked = strip_password before
      /\ (id after = id before
          /\ username after = username before
          /\ password after = password before
          /\ role after = role before
          /\ email after = email before
          /\ created_at after = created_at before
          /\ is_active after = is_active before)
      /\ (safe_id (strip_password Demo.admin1_locked) = id before
          /\ safe_username (strip_password Demo.admin1_locked) = username before
          /\ safe_role (strip_password Demo.admin1_locked) = role before
          /\ safe_email (strip_password Demo.admin1_locked) = email before
          /\ safe_created_at (strip_password Demo.admin1_locked)
             = created_at before
          /\ safe_last_login (strip_password Demo.admin1_locked)
             = last_login before
          /\ safe_login_attempts (strip_password Demo.admin1_locked)
             = login_attempts before
          /\ safe_locked_until (strip_password Demo.admin1_locked)
             = locked_until before
          /\ safe_is_active (strip_password Demo.admin1_locked)
             = is_active before).
Proof.
  split; [reflexivity|].
  apply (C5_successful_authentication (E := Demo.externals) " Admin" "admin123"
           None None Demo.t_login (mkDb [Demo.admin1_locked] [] [] 0 0)).
  reflexivity.
Defined.

(** ** The lockout state machine *)

Section Lockout.
Context `{E : Externals}.
Variable user : string.

Lemma wrong_password_step (pass : string) (ip ua : option string) (now : Z)
    (db : Db) (a : Admin) :
  admin_named (normalized user) db = Some a ->
  locked_at now a = false ->
  is_active a <> 0 ->
  bcrypt_compare pass (password a) = false ->
  let newAttempts := login_attempts a + 1 in
  let shouldLock := newAttempts >=? MAX_LOGIN_ATTEMPTS in
  let r := AdminService.authenticate user pass ip ua now db in
  outcome r = Thrown (if shouldLock then TooManyFailedAttempts
                      else InvalidCredentials)
  /\ admin_named (normalized user) (db_after r)
     = Some (AdminService.set_attempts newAttempts
               (if shouldLock then Some (now + LOCKOUT_DURATION) else None)
               a).
Proof.
  intros Hf Hl Ha Hp. cbn zeta.
  rewrite (authenticate_mismatch _ _ ip ua _ _ a Hf Hl Ha Hp).
  split; [reflexivity|]. cbn [db_after snd].
  rewrite admin_named_logged.
  destruct (admin_named_lock_cleared _ a db Hf)
    as (a' & Ha' & Hid & Hset & _).
  rewrite <- Hid.
  rewrite (admin_named_update_self _ (AdminService.set_attempts _ _) a' _
             (fun _ => eq_refl) Ha').
  rewrite Hset. reflexivity.
Qed.

Lemma locked_refuses (pass : string) (ip ua : option string) (now : Z)
    (db : Db) (a : Admin) (lockUntil : Z) :
  admin_named (normalized user) db = Some a ->
  locked_until a = Some lockUntil ->
  now < lockUntil ->
  let r := AdminService.authenticate user pass ip ua now db in
  outcome r = Thrown (AccountLocked (Js.ceil_div (lockUntil - now) 60000))
  /\ admin_named (normalized user) (db_after r) = Some a.
Proof.
  intros Hf Hl Hnow. cbn zeta.
  assert (Hat : locked_at now a = true).
  { unfold locked_at. rewrite Hl. apply Z.gtb_lt. lia. }
  destruct (authenticate_locked user pass ip ua now db a Hf Hat)
    as (t & Ht & _ & Hrun).
  rewrite Hrun. assert (t = lockUntil) as -> by congruence.
  split; [reflexivity | exact Hf].
Qed.

Lemma after_attempts_app (l1 l2 : list (string * Z)) (db : Db) :
  after_attempts user (l1 ++ l2)%list db
  = after_attempts user l2 (after_attempts user l1 db).
Proof.
  revert db. induction l1 as [|[p t] l1 IH]; intros db; cbn;
    [reflexivity | apply IH].
Qed.

Lemma set_attempts_same (a : Admin) :
  locked_until a = None ->
  AdminService.set_attempts (login_attempts a) None a = a.
Proof. destruct a; cbn. intros ->. reflexivity. Qed.

(** Wrong passwords short of the threshold only count. *)
Lemma failures_below_threshold (tries : list (string * Z)) :
  forall (db : Db) (a : Admin),
    admin_named (normalized user) db = Some a ->
    locked_until a = None ->
    is_active a <> 0 ->
    (forall p t, In (p, t) tries -> bcrypt_compare p (password a) = false) ->
    login_attempts a + Z.of_nat (List.length tries) < MAX_LOGIN_ATTEMPTS ->
    admin_named (normalized user) (after_attempts user tries db)
    = Some (AdminService.set_attempts
              (login_attempts a + Z.of_nat (List.length tries)) None a).
Proof.
  induction tries as [|[p t] tries IH]; intros db a Hf Hl Ha Hp Hn.
  - cbn. rewrite Z.add_0_r, set_attempts_same by exact Hl. exact Hf.
  - cbn [after_attempts].
    assert (Hat : locked_at t a = false) by (unfold locked_at; now rewrite Hl).
    destruct (wrong_password_step p None None t db a Hf Hat Ha
                (Hp p t (or_introl eq_refl))) as [_ Hrow].
    cbn zeta in Hrow.
    assert (Hlt : (login_attempts a + 1 >=? MAX_LOGIN_ATTEMPTS) = false).
    { rewrite Z.geb_leb. apply Z.leb_gt. cbn [List.length] in Hn. lia. }
    rewrite Hlt in Hrow.
    set (a1 := AdminService.set_attempts (login_attempts a + 1) None a) in *.
    assert (Hp1 : forall q u, In (q, u) tries ->
                              bcrypt_compare q (password a1) = false).
    { intros q u Hin. apply (Hp q u). now right. }
    assert (Hn1 : login_attempts a1 + Z.of_nat (List.length tries)
                  < MAX_LOGIN_ATTEMPTS).
    { cbn [List.length] in Hn. cbn. lia. }
    rewrite (IH _ a1 Hrow eq_refl Ha Hp1 Hn1).
    unfold a1, AdminService.set_attempts. cbn.
    do 2 f_equal. lia.
Qed.

(** The failure that reaches the threshold locks the account for
    [LOCKOUT_DURATION], and until that instant every call is refused,
    whatever the password. *)
Theorem lockout_after_threshold (earlier : list (string * Z))
    (p : string) (t : Z) (db : Db) (a : Admin) :
  admin_named (normalized user) db = Some a ->
  locked_until a = None ->
  is_active a <> 0 ->
  (forall q u, In (q, u) (earlier ++ [(p, t)])%list ->
               bcrypt_compare q (password a) = false) ->
  login_attempts a + Z.of_nat (List.length earlier) = MAX_LOGIN_ATTEMPTS - 1 ->
  let db' := after_attempts user (earlier ++ [(p, t)])%list db in
  admin_named (normalized user) db'
  = Some (AdminService.set_attempts MAX_LOGIN_ATTEMPTS
            (Some (t + LOCKOUT_DURATION)) a)
  /\ forall pass ip ua now,
       now < t + LOCKOUT_DURATION ->
       outcome (AdminService.authenticate user pass ip ua now db')
       = Thrown (AccountLocked
                   (Js.ceil_div (t + LOCKOUT_DURATION - now) 60000)).
Proof.
  intros Hf Hl Ha Hp Hn. cbn zeta.
  rewrite after_attempts_app. cbn [after_attempts].
  assert (Hrow := failures_below_threshold earlier db a Hf Hl Ha).
  rewrite Hn in Hrow.
  specialize (Hrow (fun q u Hin => Hp q u (in_or_app _ _ _ (or_introl Hin)))).
  specialize (Hrow ltac:(unfold MAX_LOGIN_ATTEMPTS; lia)).
  set (db4 := after_attempts user earlier db) in *.
  set (a4 := AdminService.set_attempts (MAX_LOGIN_ATTEMPTS - 1) None a) in *.
  assert (Hat : locked_at t a4 = false) by reflexivity.
  assert (Hlast : In (p, t) (earlier ++ [(p, t)])).
  { apply in_or_app. right. now left. }
  destruct (wrong_password_step p None None t db4 a4 Hrow Hat Ha
              (Hp p t Hlast)) as [_ Hrow5].
  cbn in Hrow5. split; [exact Hrow5|].
  intros pass ip ua now Hnow.
  apply (locked_refuses pass ip ua now _ _ (t + LOCKOUT_DURATION) Hrow5);
    [reflexivity | exact Hnow].
Qed.

(** Once the lock has run out, the stored counter is reset, but the
    password check goes on with the row as read before the reset: a
    wrong password counts from the old value and locks again at once. *)
Lemma wrong_password_after_expiry (pass : string) (ip ua : option string)
    (now : Z) (db : Db) (a : Admin) (lockUntil : Z) :
  admin_named (normalized user) db = Some a ->
  locked_until a = Some lockUntil ->
  lockUntil <= now ->
  MAX_LOGIN_ATTEMPTS <= login_attempts a + 1 ->
  is_active a <> 0 ->
  bcrypt_compare pass (password a) = false ->
  let r := AdminService.authenticate user pass ip ua now db in
  outcome r = Thrown TooManyFailedAttempts
  /\ admin_named (normalized user) (db_after r)
     = Some (AdminService.set_attempts (login_attempts a + 1)
               (Some (now + LOCKOUT_DURATION)) a).
Proof.
  intros Hf Hl Hnow Hn Ha Hp.
  assert (Hat : locked_at now a = false).
  { unfold locked_at. rewrite Hl, Z.gtb_ltb. apply Z.ltb_ge. lia. }
  destruct (wrong_password_step pass ip ua now db a Hf Hat Ha Hp)
    as [Hout Hrow].
  cbn zeta in *.
  assert (Hge : (login_attempts a + 1 >=? MAX_LOGIN_ATTEMPTS) = true).
  { rewrite Z.geb_leb. apply Z.leb_le. lia. }
  rewrite Hge in Hout, Hrow. split; assumption.
Qed.

End Lockout.

(** C1. The account of the seeded admin was locked at its fifth failure
    and the lock runs out at [Demo.t_login].  An [authenticate] call at
    that very instant with a wrong password does not find the counter at
    0: it counts the attempt as the sixth, answers with the lockout
    message and locks the account for another [LOCKOUT_DURATION]. *)
Theorem C1_expired_lock_relocks :
  let db := mkDb [Demo.admin1_locked] [] [] 0 0 in
  let r := AdminService.authenticate (E := Demo.externals) "admin" "wrongpass"
             None None Demo.t_login db in
  login_attempts Demo.admin1_locked = 5
  /\ locked_until Demo.admin1_locked = Some Demo.t_login
  /\ outcome r = Thrown TooManyFailedAttempts
  /\ admin_named "admin" (db_after r)
     = Some (AdminService.set_attempts 6
               (Some (Demo.t_login + LOCKOUT_DURATION)) Demo.admin1).
Proof. repeat split. Qed.

(** ** Login answers *)

Section Login.
Context `{E : Externals}.

Lemma login_thrown (user pass : string) (ip ua : option string) (now : Z)
    (db : Db) (e : AuthError) :
  Routes.login_validation (Js.trim user) pass = [] ->
  outcome (AdminService.authenticate (validator_escape (Js.trim user)) pass
             ip ua now db) = Thrown e ->
  message e <> "" ->
  fst (Routes.login user pass ip ua now db) = failure 401 (message e) None.
Proof.
  intros Hv Hout Hm. unfold Routes.login. rewrite Hv.
  destruct (AdminService.authenticate _ pass ip ua now db) as [[s|e'] db'];
    cbn in Hout; [discriminate|].
  injection Hout as ->. cbn [fst]. unfold Js.or, Js.truthy.
  destruct (String.eqb_spec (message e) ""); [contradiction | reflexivity].
Qed.

End Login.

(** C3 (as amended). A login with an unknown user name is answered
    exactly as a login with the user name of an admin and a wrong
    password, provided that admin is active, no lock of the account is
    running and the attempt stays below the lockout threshold: both get
    status 401 and the message [Invalid credentials], with no code. *)
Theorem C3_unknown_user_indistinguishable `{E : Externals}
    (unknown known pass1 pass2 : string) (ip1 ua1 ip2 ua2 : option string)
    (now1 now2 : Z) (db : Db) (a : Admin) :
  Routes.login_validation (Js.trim unknown) pass1 = [] ->
  Routes.login_validation (Js.trim known) pass2 = [] ->
  admin_named (login_name unknown) db = None ->
  admin_named (login_name known) db = Some a ->
  is_active a <> 0 ->
  locked_at now2 a = false ->
  login_attempts a + 1 < MAX_LOGIN_ATTEMPTS ->
  bcrypt_compare pass2 (password a) = false ->
  fst (Routes.login unknown pass1 ip1 ua1 now1 db)
  = fst (Routes.login known pass2 ip2 ua2 now2 db)
  /\ fst (Routes.login unknown pass1 ip1 ua1 now1 db)
     = failure 401 "Invalid credentials" None.
Proof.
  intros Hv1 Hv2 Hu Hk Ha Hl Hn Hp.
  assert (H1 : fst (Routes.login unknown pass1 ip1 ua1 now1 db)
               = failure 401 "Invalid credentials" None).
  { apply (login_thrown unknown pass1 ip1 ua1 now1 db InvalidCredentials Hv1);
      [|discriminate].
    unfold login_name in Hu.
    rewrite (authenticate_unknown _ pass1 ip1 ua1 now1 db Hu). reflexivity. }
  assert (H2 : fst (Routes.login known pass2 ip2 ua2 now2 db)
               = failure 401 "Invalid credentials" None).
  { apply (login_thrown known pass2 ip2 ua2 now2 db InvalidCredentials Hv2);
      [|discriminate].
    unfold login_name in Hk.
    rewrite (authenticate_mismatch _ pass2 ip2 ua2 now2 db a Hk Hl Ha Hp).
    cbn. rewrite Z.geb_leb.
    destruct (Z.leb_spec MAX_LOGIN_ATTEMPTS (login_attempts a + 1));
      [lia | reflexivity]. }
  split; [congruence | exact H1].
Qed.

Lemma C3_witness :
  fst (Routes.login (E := Demo.externals) "nobody" "wrongpass" None None
         Demo.t_login Demo.db0)
  = fst (Routes.login (E := Demo.externals) "Admin " "wrongpass" None None
           Demo.t_login Demo.db0)
  /\ fst (Routes.login (E := Demo.externals) "nobody" "wrongpass" None None
            Demo.t_login Demo.db0)
     = failure 401 "Invalid credentials" None.
Proof.
  apply (C3_unknown_user_indistinguishable (E := Demo.externals)
           "nobody" "Admin " "wrongpass" "wrongpass" None None None None
           Demo.t_login Demo.t_login Demo.db0 Demo.admin1);
    try reflexivity.
  cbn. lia.
Defined.

(** C3 (as stated) fails on a deactivated account: with the attempt
    counter at 0, a wrong password for the known user name ["admin"] is
    answered [Account is disabled], an unknown user name
    [Invalid credentials]. *)
Lemma C3_counterexample :
  let db := mkDb [Demo.admin1_disabled] [] [] 0 0 in
  admin_named "nobody" db = None
  /\ admin_named "admin" db = Some Demo.admin1_disabled
  /\ login_attempts Demo.admin1_disabled = 0
  /\ bcrypt_compare (Externals := Demo.externals) "wrongpass"
       (password Demo.admin1_disabled) = false
  /\ fst (Routes.login (E := Demo.externals) "nobody" "wrongpass" None None
            Demo.t_login db)
     = failure 401 "Invalid credentials" None
  /\ fst (Routes.login (E := Demo.externals) "admin" "wrongpass" None None
            Demo.t_login db)
     = failure 401 "Account is disabled" None
  /\ fst (Routes.login (E := Demo.externals) "nobody" "wrongpass" None None
            Demo.t_login db)
     <> fst (Routes.login (E := Demo.externals) "admin" "wrongpass" None None
               Demo.t_login db).
Proof. cbn zeta. repeat split. discriminate. Qed.

(** ** The branches of [changePassword] *)

Section ChangePassword.
Context `{E : Externals}.
Variables (adminId : Z) (oldPassword newPassword : string).
Variables (now : Z) (db : Db).

Lemma changePassword_too_short :
  Z.of_nat (String.length newPassword) < 8 ->
  AdminService.changePassword adminId oldPassword newPassword now db
  = (Thrown NewPasswordTooShort, db).
Proof.
  intros Hn. unfold AdminService.changePassword.
  apply Z.ltb_lt in Hn. rewrite Hn. reflexivity.
Qed.

Lemma changePassword_not_found :
  8 <= Z.of_nat (String.length newPassword) ->
  admin_with_id adminId db = None ->
  AdminService.changePassword adminId oldPassword newPassword now db
  = (Thrown AdminNotFound, db).
Proof.
  intros Hn Hf. unfold AdminService.changePassword, bind, query.
  apply Z.ltb_ge in Hn. rewrite Hn.
  fold (admin_with_id adminId db). rewrite Hf. reflexivity.
Qed.

Lemma changePassword_mismatch (a : Admin) :
  8 <= Z.of_nat (String.length newPassword) ->
  admin_with_id adminId db = Some a ->
  bcrypt_compare oldPassword (password a) = false ->
  AdminService.changePassword adminId oldPassword newPassword now db
  = (Thrown InvalidOldPassword,
         logged (Some adminId) "password_change_failed" None None false
           (Some "Invalid old password") now db).
Proof.
  intros Hn Hf Hp. unfold AdminService.changePassword, bind, query.
  apply Z.ltb_ge in Hn. rewrite Hn.
  fold (admin_with_id adminId db). rewrite Hf. cbn [option_map].
  rewrite Hp. reflexivity.
Qed.

Lemma changePassword_match (a : Admin) :
  8 <= Z.of_nat (String.length newPassword) ->
  admin_with_id adminId db = Some a ->
  bcrypt_compare oldPassword (password a) = true ->
  AdminService.changePassword adminId oldPassword newPassword now db
  = (Returned true,
         logged (Some adminId) "password_changed" None None true None now
           (AdminService.revoke_where (fun t => rt_admin_id t =? adminId)
              (AdminService.update_admins adminId
                 (AdminService.set_password
                    (bcrypt_hash newPassword SALT_ROUNDS))
                 db))).
Proof.
  intros Hn Hf Hp. unfold AdminService.changePassword, bind, query.
  apply Z.ltb_ge in Hn. rewrite Hn.
  fold (admin_with_id adminId db). rewrite Hf. cbn [option_map].
  rewrite Hp. reflexivity.
Qed.

End ChangePassword.

(** ** Audit writes *)

Lemma authenticate_audits `{E : Externals} (user pass : string)
    (ip ua : option string) (now : Z) (db : Db) :
  let r := AdminService.authenticate user pass ip ua now db in
  exists entry,
    admin_audit_log (db_after r) = (admin_audit_log db ++ [entry])%list
    /\ success entry = success_flag (outcome r).
Proof.
  cbn zeta.
  destruct (admin_named (normalized user) db) as [a|] eqn:Hf.
  2:{ rewrite (authenticate_unknown _ pass ip ua now db Hf).
      eexists. split; reflexivity. }
  destruct (locked_at now a) eqn:Hl.
  { destruct (authenticate_locked user pass ip ua now db a Hf Hl)
      as (t & _ & _ & ->).
    eexists. split; reflexivity. }
  destruct (audit_lock_cleared a db) as (Hlog & Hseq & _).
  destruct (Z.eq_dec (is_active a) 0) as [Ha|Ha].
  { rewrite (authenticate_disabled _ pass ip ua _ _ a Hf Hl Ha).
    eexists. cbn [db_after outcome fst snd]. rewrite audit_logged, Hlog.
    split; reflexivity. }
  destruct (bcrypt_compare pass (password a)) eqn:Hp.
  - rewrite (authenticate_match _ _ ip ua _ _ a Hf Hl Ha Hp).
    eexists. cbn [db_after outcome fst snd]. rewrite audit_logged. cbn.
    rewrite Hlog. split; reflexivity.
  - rewrite (authenticate_mismatch _ _ ip ua _ _ a Hf Hl Ha Hp).
    eexists. cbn [db_after outcome fst snd]. rewrite audit_logged. cbn.
    rewrite Hlog. split; [reflexivity|].
    destruct (login_attempts a + 1 >=? MAX_LOGIN_ATTEMPTS); reflexivity.
Qed.

(** C6 (as amended). Every branch of [authenticate] appends exactly one
    audit entry, whose [success] column tells whether the call returned.
    [changePassword] appends exactly one entry, for the admin concerned,
    on the two branches that follow the old-password check (mismatch
    and success); when the new password is shorter than 8 characters or
    the admin does not exist it throws and leaves the database, audit
    log included, as it was. *)
Theorem C6_audit_writes `{E : Externals} :
  (forall user pass ip ua now db,
     let r := AdminService.authenticate user pass ip ua now db in
     exists entry,
       admin_audit_log (db_after r) = (admin_audit_log db ++ [entry])%list
       /\ success entry = success_flag (outcome r))
  /\ (forall adminId oldPassword newPassword now db,
       let r := AdminService.changePassword adminId oldPassword newPassword
                  now db in
       if reaches_old_password_check adminId newPassword db then
         exists entry,
           admin_audit_log (db_after r) = (admin_audit_log db ++ [entry])%list
           /\ al_admin_id entry = Some adminId
           /\ success entry = success_flag (outcome r)
       else
         db_after r = db /\ success_flag (outcome r) = 0).
Proof.
  split; [intros; apply authenticate_audits|].
  intros adminId old new now db. cbn zeta.
  unfold reaches_old_password_check.
  destruct (Z.ltb_spec (Z.of_nat (String.length new)) 8) as [Hn|Hn]; cbn [negb andb].
  { rewrite (changePassword_too_short adminId old new now db Hn).
    split; reflexivity. }
  destruct (admin_with_id adminId db) as [a|] eqn:Hf.
  2:{ rewrite (changePassword_not_found adminId old new now db Hn Hf).
      split; reflexivity. }
  destruct (bcrypt_compare old (password a)) eqn:Hp.
  - rewrite (changePassword_match adminId old new now db a Hn Hf Hp).
    eexists. repeat split.
  - rewrite (changePassword_mismatch adminId old new now db a Hn Hf Hp).
    eexists. repeat split.
Qed.

(** C6 (as stated) fails on [changePassword]: a new password of five
    characters makes it throw before anything is written to the audit
    log. *)
Lemma C6_counterexample :
  let r := AdminService.changePassword (E := Demo.externals) 1 "admin123"
             "short" Demo.t_login Demo.db0 in
  outcome r = Thrown NewPasswordTooShort
  /\ admin_audit_log (db_after r) = admin_audit_log Demo.db0
  /\ admin_audit_log (db_after r) = [].
Proof. repeat split. Qed.

(** ** Old-password mismatch *)

(** C7 (as amended). When [changePassword] reaches the old-password
    check (new password of at least 8 characters, existing admin) and the
    old password does not match the stored hash, it appends one failure
    audit entry ([password_change_failed], [Invalid old password]),
    changes nothing else, and fails with the message
    [Invalid old password], which the route forwards with status 400:
    the answer names the old password, and differs from the answer to a
    rejected new password. *)
Theorem C7_old_password_mismatch `{E : Externals} (adminId : Z)
    (oldPassword newPassword : string) (now : Z) (db : Db) (a : Admin) :
  8 <= Z.of_nat (String.length newPassword) ->
  admin_with_id adminId db = Some a ->
  bcrypt_compare oldPassword (password a) = false ->
  let r := AdminService.changePassword adminId oldPassword newPassword now db in
  outcome r = Thrown InvalidOldPassword
  /\ admins (db_after r) = admins db
  /\ refresh_tokens (db_after r) = refresh_tokens db
  /\ admin_audit_log (db_after r)
     = (admin_audit_log db
        ++ [mkAudit (admin_audit_log_seq db + 1) (Some adminId)
              "password_change_failed" None None 0
              (Some "Invalid old password") (Clock.CURRENT_TIMESTAMP now)])%list
  /\ Routes.change_password_failure InvalidOldPassword
     = failure 400 "Invalid old password" None
  /\ Routes.change_password_failure InvalidOldPassword
     <> Routes.change_password_failure NewPasswordTooShort.
Proof.
  intros Hn Hf Hp. cbn zeta.
  rewrite (changePassword_mismatch adminId oldPassword newPassword now db a
             Hn Hf Hp).
  repeat split. discriminate.
Qed.

Lemma C7_witness :
  let r := AdminService.changePassword (E := Demo.externals) 1 "wrongold"
             "NewPassw0rd" Demo.t_login Demo.db0 in
  outcome r = Thrown InvalidOldPassword
  /\ admins (db_after r) = admins Demo.db0
  /\ refresh_tokens (db_after r) = refresh_tokens Demo.db0
  /\ admin_audit_log (db_after r)
     = [mkAudit 1 (Some 1) "password_change_failed" None None 0
          (Some "Invalid old password") "2026-11-02 06:00:00"]
  /\ Routes.change_password_failure InvalidOldPassword
     = failure 400 "Invalid old password" None
  /\ Routes.change_password_failure InvalidOldPassword
     <> Routes.change_password_failure NewPasswordTooShort.
Proof.
  apply (C7_old_password_mismatch (E := Demo.externals) 1 "wrongold"
           "NewPassw0rd" Demo.t_login Demo.db0 Demo.admin1).
  - cbn. lia.
  - reflexivity.
  - reflexivity.
Defined.

(** C7 (as stated) fails twice over.  With a wrong old password and an
    acceptable new one, the caller is told [Invalid old password]; with
    the right old password and a new one that is too short, it is told
    [New password must be at least 8 characters]: the two answers tell
    the caller which field was wrong.  And with a wrong old password
    together with a too-short new one, no audit entry is written. *)
Lemma C7_counterexample :
  let wrong_old := AdminService.changePassword (E := Demo.externals) 1
                     "wrongold" "NewPassw0rd" Demo.t_login Demo.db0 in
  let wrong_new := AdminService.changePassword (E := Demo.externals) 1
                     "admin123" "short" Demo.t_login Demo.db0 in
  let both_wrong := AdminService.changePassword (E := Demo.externals) 1
                      "wrongold" "short" Demo.t_login Demo.db0 in
  outcome wrong_old = Thrown InvalidOldPassword
  /\ outcome wrong_new = Thrown NewPasswordTooShort
  /\ Routes.change_password_failure InvalidOldPassword
     = failure 400 "Invalid old password" None
  /\ Routes.change_password_failure NewPasswordTooShort
     = failure 400 "New password must be at least 8 characters" None
  /\ Routes.change_password_failure InvalidOldPassword
     <> Routes.change_password_failure NewPasswordTooShort
  /\ outcome both_wrong = Thrown NewPasswordTooShort
  /\ admin_audit_log (db_after both_wrong) = [].
Proof. cbn zeta. repeat split. discriminate. Qed.

(** ** The token store *)

Lemma verify_none_when_revoked (h : string) (now : Z) (db : Db) :
  (forall t, In t (refresh_tokens db) -> token_hash t = h -> revoked t = 1) ->
  AdminService.verifyRefreshToken h now db = None.
Proof.
  unfold AdminService.verifyRefreshToken.
  induction (refresh_tokens db) as [|t l IH]; intros Hall; [reflexivity|].
  cbn [find]. unfold AdminService.usable at 1.
  destruct (String.eqb_spec (token_hash t) h) as [Hh|Hh]; cbn [andb].
  - rewrite (Hall t (or_introl eq_refl) Hh). cbn.
    apply IH. intros u Hu. apply Hall. now right.
  - apply IH. intros u Hu. apply Hall. now right.
Qed.

Lemma revoke_where_revokes (cond : RefreshToken -> bool) (db : Db) :
  (forall t, cond (AdminService.set_revoked t) = cond t) ->
  forall t, In t (refresh_tokens (AdminService.revoke_where cond db)) ->
            cond t = true -> revoked t = 1.
Proof.
  intros Hc t Hin Ht. cbn in Hin. apply in_map_iff in Hin.
  destruct Hin as (u & Hu & _). destruct (cond u) eqn:Hcu; subst t.
  - reflexivity.
  - congruence.
Qed.

Lemma revoke_all_covers (adminId : Z) (h : string) (db : Db) :
  owned_by adminId h db ->
  forall t,
    In t (refresh_tokens
            (AdminService.revoke_where (fun t => rt_admin_id t =? adminId) db)) ->
    token_hash t = h -> revoked t = 1.
Proof.
  intros Hown t Hin Hh.
  apply (revoke_where_revokes (fun t => rt_admin_id t =? adminId) db);
    [reflexivity | exact Hin |].
  cbn in Hin. apply in_map_iff in Hin. destruct Hin as (u & Hu & Hin).
  assert (Hsame : token_hash u = token_hash t /\ rt_admin_id u = rt_admin_id t).
  { destruct (rt_admin_id u =? adminId); subst t; split; reflexivity. }
  destruct Hsame as [Hth Hid]. rewrite <- Hid. apply Z.eqb_eq.
  apply (Hown u Hin). congruence.
Qed.

Lemma admin_with_id_update (i : Z) (f : Admin -> Admin) (db : Db) :
  (forall a, id (f a) = id a) ->
  admin_with_id i (AdminService.update_admins i f db)
  = option_map f (admin_with_id i db).
Proof.
  intros Hf. unfold admin_with_id, AdminService.update_admins; cbn.
  induction (admins db) as [|a l IH]; [reflexivity|]. cbn.
  destruct (id a =? i) eqn:Ha.
  - rewrite Hf, Ha. reflexivity.
  - rewrite Ha. exact IH.
Qed.


(** ** The answers of POST /refresh *)

Section Refresh.
Context `{E : Externals}.
Variables (cookie body : option string) (tok : string) (now : Z) (db : Db).
Hypothesis Hpresented : Js.or cookie body = Some tok.

Lemma refresh_without_usable_row :
  AdminService.verifyRefreshToken (sha256_hex tok) now db = None ->
  res_success (Routes.refresh cookie body now db) = false.
Proof.
  intros Hnone. unfold Routes.refresh. rewrite Hpresented.
  destruct tok as [|c r]; [reflexivity|].
  destruct (Middleware.verifyRefreshToken _ now); [|reflexivity].
  rewrite Hnone. reflexivity.
Qed.

Hypothesis Hnonempty : tok <> "".

Lemma refresh_invalid_token :
  Middleware.verifyRefreshToken tok now = None ->
  Routes.refresh cookie body now db
  = failure 500 "Failed to refresh token" None.
Proof.
  intros Hv. unfold Routes.refresh. rewrite Hpresented.
  destruct tok as [|c r]; [contradiction|]. rewrite Hv. reflexivity.
Qed.

Variable decoded : JwtClaims.
Hypothesis Hverified : Middleware.verifyRefreshToken tok now = Some decoded.

Lemma refresh_token_revoked :
  AdminService.verifyRefreshToken (sha256_hex tok) now db = None ->
  Routes.refresh cookie body now db = token_revoked.
Proof.
  intros Hnone. unfold Routes.refresh. rewrite Hpresented.
  destruct tok as [|c r]; [contradiction|].
  rewrite Hverified, Hnone. reflexivity.
Qed.

Variable storedToken : RefreshToken.
Hypothesis Hstored :
  AdminService.verifyRefreshToken (sha256_hex tok) now db = Some storedToken.

Lemma refresh_account_disabled :
  match admin_with_id (claim_id decoded) db with
  | Some a => is_active a = 0
  | None => True
  end ->
  Routes.refresh cookie body now db = account_disabled.
Proof.
  intros Hoff. unfold Routes.refresh. rewrite Hpresented.
  destruct tok as [|c r]; [contradiction|].
  rewrite Hverified, Hstored. unfold AdminService.getAdminById.
  fold (admin_with_id (claim_id decoded) db).
  destruct (admin_with_id (claim_id decoded) db) as [a|]; [|reflexivity].
  cbn. rewrite Hoff. reflexivity.
Qed.

Lemma refresh_issues_access_token (a : Admin) :
  admin_with_id (claim_id decoded) db = Some a ->
  is_active a <> 0 ->
  let fresh := Middleware.generateAccessToken (id a) (username a) (role a)
                 now in
  Routes.refresh cookie body now db
  = mkResponse 200 true None None (Some "Token refreshed successfully") []
      None (Some fresh) None (Some 86400) [("auth_token", fresh)].
Proof.
  intros Hf Ha. cbn zeta. unfold Routes.refresh. rewrite Hpresented.
  destruct tok as [|c r]; [contradiction|].
  rewrite Hverified, Hstored. unfold AdminService.getAdminById.
  fold (admin_with_id (claim_id decoded) db). rewrite Hf. cbn.
  apply Z.eqb_neq in Ha. rewrite Ha. reflexivity.
Qed.

End Refresh.


(** The comparison is between texts: when the expiry and the current
    instant fall on the same UTC date, the two texts first differ after
    the date, where the ISO form has [T] and [CURRENT_TIMESTAMP] a
    space, so the row counts as unexpired whatever the time of day. *)
Lemma same_date_counts_as_unexpired (expiry now : Z) :
  Clock.date_text expiry = Clock.date_text now ->
  Clock.text_gt (Clock.toISOString expiry) (Clock.CURRENT_TIMESTAMP now) = true.
Proof.
  intros Hd. unfold Clock.toISOString, Clock.CURRENT_TIMESTAMP, Clock.text_gt.
  rewrite Hd. generalize (Clock.date_text now) as d.
  induction d as [|c d IH]; [reflexivity|].
  cbn [append String.compare].
  unfold Ascii.compare. rewrite N.compare_refl. exact IH.
Qed.

Lemma expired_row_still_usable (h : string) (expiry now : Z)
    (t : RefreshToken) :
  token_hash t = h ->
  revoked t = 0 ->
  expires_at t = Column.Text (Clock.toISOString expiry) ->
  Clock.date_text expiry = Clock.date_text now ->
  AdminService.usable h now t = true.
Proof.
  intros Hh Hr He Hd. unfold AdminService.usable, Column.gt.
  rewrite Hh, Hr, He, String.eqb_refl, (same_date_counts_as_unexpired _ _ Hd).
  reflexivity.
Qed.

(** ** Password change *)




(** ** Deactivation *)




(** ** Refresh with an expired row *)

(** C4. The row stored for ["refresh.1"] expires on 2026-11-09 at
    06:00:00 UTC; the token itself is signed for thirty days.  One hour
    after the expiry of the row, [verifyRefreshToken] of the service
    still finds it, and POST /refresh answers 200 with a new access
    token instead of TOKEN_REVOKED; the row only stops matching on the
    next UTC date.  Once the signature of the token has expired as well,
    the throw of the middleware's [verifyRefreshToken] is answered 500
    with no code. *)
Theorem C4_expired_row_still_refreshes :
  let hour_later := Demo.t_expiry + 3600000 in
  let next_date := Demo.t_expiry + 18 * 3600000 in
  let signature_expired := Demo.refresh1_exp * 1000 in
  expires_at Demo.token1 = Column.Text "2026-11-09T06:00:00.000Z"
  /\ Clock.CURRENT_TIMESTAMP hour_later = "2026-11-09 07:00:00"
  /\ Middleware.verifyRefreshToken (E := Demo.externals) "refresh.1" hour_later
     = Some (mkClaims 1 None None (Some "refresh"))
  /\ AdminService.verifyRefreshToken (Demo.sha "refresh.1") hour_later Demo.db1
     = Some Demo.token1
  /\ Routes.refresh (E := Demo.externals) (Some "refresh.1") None hour_later
       Demo.db1
     = mkResponse 200 true None None (Some "Token refreshed successfully") []
         None (Some "access.1") None (Some 86400) [("auth_token", "access.1")]
  /\ Clock.CURRENT_TIMESTAMP next_date = "2026-11-10 00:00:00"
  /\ Routes.refresh (E := Demo.externals) (Some "refresh.1") None next_date
       Demo.db1
     = token_revoked
  /\ Clock.CURRENT_TIMESTAMP signature_expired = "2026-12-02 06:00:00"
  /\ Routes.refresh (E := Demo.externals) (Some "refresh.1") None
       signature_expired Demo.db1
     = failure 500 "Failed to refresh token" None.
Proof. cbn zeta. repeat split; vm_compute; reflexivity. Qed.

(** ** The login limiter *)










(** * Further properties of the code *)

(** ** Patterns *)

Lemma append_empty (s1 s2 : string) :
  s1 ++ s2 = EmptyString -> s1 = EmptyString /\ s2 = EmptyString.
Proof. destruct s1; cbn; [auto | discriminate]. Qed.

Lemma append_nil_r (s : string) : s ++ EmptyString = s.
Proof. induction s as [|c s IH]; cbn; [|rewrite IH]; reflexivity. Qed.

Lemma append_assoc (s1 s2 s3 : string) : (s1 ++ s2) ++ s3 = s1 ++ s2 ++ s3.
Proof. induction s1 as [|c s1 IH]; cbn; [|rewrite IH]; reflexivity. Qed.

Lemma nullable_spec (r : Regex.regex) :
  Regex.nullable r = true <-> in_lang r EmptyString.
Proof.
  split.
  - induction r; cbn; intros Hn; try discriminate.
    + constructor.
    + apply andb_prop in Hn. destruct Hn.
      change EmptyString with (EmptyString ++ EmptyString). constructor; auto.
    + apply orb_prop in Hn. destruct Hn; [apply in_alt_l | apply in_alt_r]; auto.
    + constructor.
  - intros H. remember EmptyString as s eqn:Hs.
    induction H; cbn; try discriminate; try reflexivity.
    + apply append_empty in Hs. destruct Hs. rewrite IHin_lang1, IHin_lang2; auto.
    + rewrite IHin_lang; auto.
    + rewrite IHin_lang; auto. apply orb_true_r.
Qed.

Lemma in_class_inv (p : ascii -> bool) (s : string) :
  in_lang (Regex.Class p) s -> exists c, s = String c EmptyString /\ p c = true.
Proof. intros H. inversion H; subst. eauto. Qed.

Lemma in_seq_inv (r1 r2 : Regex.regex) (s : string) :
  in_lang (Regex.Seq r1 r2) s ->
  exists s1 s2, s = s1 ++ s2 /\ in_lang r1 s1 /\ in_lang r2 s2.
Proof. intros H. inversion H; subst. eauto. Qed.

Lemma in_alt_inv (r1 r2 : Regex.regex) (s : string) :
  in_lang (Regex.Alt r1 r2) s -> in_lang r1 s \/ in_lang r2 s.
Proof. intros H. inversion H; subst; auto. Qed.

Lemma deriv_sound (c : ascii) (r : Regex.regex) :
  forall s, in_lang (Regex.deriv c r) s -> in_lang r (String c s).
Proof.
  induction r; cbn; intros s H.
  - inversion H.
  - inversion H.
  - destruct (p c) eqn:Hp; inversion H; subst. now constructor.
  - assert (Hseq : in_lang (Regex.Seq (Regex.deriv c r1) r2) s ->
                   in_lang (Regex.Seq r1 r2) (String c s)).
    { intros Hs. apply in_seq_inv in Hs.
      destruct Hs as (s1 & s2 & -> & H1 & H2).
      change (String c (s1 ++ s2)) with (String c s1 ++ s2).
      constructor; auto. }
    destruct (Regex.nullable r1) eqn:Hn; [|auto].
    apply in_alt_inv in H. destruct H as [H|H]; [auto|].
    change (String c s) with (EmptyString ++ String c s).
    constructor; auto. now apply nullable_spec.
  - apply in_alt_inv in H.
    destruct H; [apply in_alt_l | apply in_alt_r]; auto.
  - apply in_seq_inv in H. destruct H as (s1 & s2 & -> & H1 & H2).
    change (String c (s1 ++ s2)) with (String c s1 ++ s2).
    constructor; auto.
Qed.

Lemma deriv_complete (c : ascii) (r : Regex.regex) (w : string) :
  in_lang r w -> forall t, w = String c t -> in_lang (Regex.deriv c r) t.
Proof.
  induction 1 as [ | p x Hp | r1 r2 s1 s2 H1 IH1 H2 IH2 | r1 r2 s H IH
                 | r1 r2 s H IH | r | r s1 s2 H1 IH1 H2 IH2 ];
    intros t Hw; cbn.
  - discriminate.
  - injection Hw as -> <-. rewrite Hp. constructor.
  - destruct s1 as [|c1 s1].
    + cbn in Hw. subst s2.
      assert (Hn : Regex.nullable r1 = true) by now apply nullable_spec.
      rewrite Hn. apply in_alt_r. now apply IH2.
    + cbn in Hw. injection Hw as -> <-.
      specialize (IH1 s1 eq_refl).
      destruct (Regex.nullable r1); [apply in_alt_l|]; constructor; auto.
  - apply in_alt_l. auto.
  - apply in_alt_r. auto.
  - discriminate.
  - destruct s1 as [|c1 s1].
    + cbn in Hw. now apply IH2.
    + cbn in Hw. injection Hw as -> <-.
      constructor; auto.
Qed.

Lemma matches_spec (s : string) :
  forall r, Regex.matches r s = true <-> in_lang r s.
Proof.
  induction s as [|c s IH]; intros r; cbn.
  - apply nullable_spec.
  - rewrite IH. split.
    + apply deriv_sound.
    + intros H. now apply (deriv_complete c r (String c s)).
Qed.

Lemma all_chars_app (p : ascii -> bool) (s1 s2 : string) :
  all_chars p (s1 ++ s2) = all_chars p s1 && all_chars p s2.
Proof.
  induction s1 as [|c s1 IH]; cbn; [reflexivity|].
  rewrite IH. apply andb_assoc.
Qed.

Lemma star_class_spec (p : ascii -> bool) (s : string) :
  in_lang (Regex.Star (Regex.Class p)) s <-> all_chars p s = true.
Proof.
  split.
  - intros H. remember (Regex.Star (Regex.Class p)) as r eqn:Hr.
    induction H; try discriminate; [reflexivity|].
    injection Hr as ->.
    apply in_class_inv in H. destruct H as (c & -> & Hc).
    cbn. rewrite Hc. now apply IHin_lang2.
  - induction s as [|c s IH]; cbn; intros H.
    + constructor.
    + apply andb_prop in H. destruct H as [Hc Hs].
      change (String c s) with (String c EmptyString ++ s).
      constructor; [now constructor | auto].
Qed.

Lemma plus_class_spec (p : ascii -> bool) (s : string) :
  in_lang (Regex.plus (Regex.Class p)) s
  <-> s <> EmptyString /\ all_chars p s = true.
Proof.
  unfold Regex.plus. split.
  - intros H. apply in_seq_inv in H. destruct H as (s1 & s2 & -> & H1 & H2).
    apply in_class_inv in H1. destruct H1 as (c & -> & Hc).
    apply star_class_spec in H2. cbn. rewrite Hc, H2. split; [discriminate | auto].
  - intros [Hne H]. destruct s as [|c s]; [contradiction|].
    cbn in H. apply andb_prop in H. destruct H as [Hc Hs].
    change (String c s) with (String c EmptyString ++ s).
    constructor; [now constructor | now apply star_class_spec].
Qed.

Lemma lit_spec (c : ascii) (s : string) :
  in_lang (Regex.lit c) s <-> s = String c EmptyString.
Proof.
  unfold Regex.lit. split.
  - intros H. apply in_class_inv in H. destruct H as (x & -> & Hx).
    apply Ascii.eqb_eq in Hx. now subst.
  - intros ->. constructor. apply Ascii.eqb_refl.
Qed.

Lemma email_shape (s : string) :
  Regex.matches Regex.emailRegex s = true
  <-> exists l d t,
        s = l ++ "@" ++ d ++ "." ++ t
        /\ l <> EmptyString /\ d <> EmptyString /\ t <> EmptyString
        /\ all_chars Regex.not_space_or_at l = true
        /\ all_chars Regex.not_space_or_at d = true
        /\ all_chars Regex.not_space_or_at t = true.
Proof.
  rewrite matches_spec. unfold Regex.emailRegex. split.
  - intros H.
    apply in_seq_inv in H. destruct H as (l & r1 & -> & Hl & H).
    apply in_seq_inv in H. destruct H as (a & r2 & -> & Ha & H).
    apply in_seq_inv in H. destruct H as (d & r3 & -> & Hd & H).
    apply in_seq_inv in H. destruct H as (o & t & -> & Ho & Ht).
    apply lit_spec in Ha, Ho. subst a o.
    apply plus_class_spec in Hl, Hd, Ht.
    exists l, d, t. cbn. tauto.
  - intros (l & d & t & -> & Hl & Hd & Ht & Al & Ad & At).
    constructor; [now apply plus_class_spec|].
    constructor; [now apply lit_spec|].
    constructor; [now apply plus_class_spec|].
    constructor; [now apply lit_spec | now apply plus_class_spec].
Qed.

(** X11. The email pattern of the signup route and of the landing page
    accepts exactly the strings [local@domain.tail] whose three parts
    are non-empty and free of white space and of [@]; in particular an
    accepted address has no white space and one [@] only. *)
Theorem emailRegex_accepts (s : string) :
  Regex.matches Regex.emailRegex s = true
  <-> exists l d t,
        s = l ++ "@" ++ d ++ "." ++ t
        /\ l <> EmptyString /\ d <> EmptyString /\ t <> EmptyString
        /\ all_chars Regex.not_space_or_at l = true
        /\ all_chars Regex.not_space_or_at d = true
        /\ all_chars Regex.not_space_or_at t = true.
Proof. apply email_shape. Qed.

Lemma lookahead_spec (p : ascii -> bool) (s : string) :
  Regex.lookahead p s = on_first_line p s.
Proof.
  apply eq_true_iff_eq. unfold Regex.lookahead. rewrite matches_spec. split.
  - intros H.
    apply in_seq_inv in H. destruct H as (pre & r1 & -> & Hpre & H).
    apply in_seq_inv in H. destruct H as (c & post & -> & Hc & _).
    apply in_class_inv in Hc. destruct Hc as (x & -> & Hx).
    apply star_class_spec in Hpre.
    induction pre as [|y pre IH]; cbn in *.
    + now rewrite Hx.
    + apply andb_prop in Hpre. destruct Hpre as [Hy Hpre].
      rewrite Hy, (IH Hpre). apply orb_true_r.
  - induction s as [|c s IH]; cbn; [discriminate|].
    intros H. apply orb_prop in H. destruct H as [Hc|H].
    + change (String c s) with (EmptyString ++ (String c EmptyString ++ s)).
      constructor; [constructor|].
      constructor; [now constructor|].
      apply star_class_spec. clear. induction s; cbn; auto.
    + apply andb_prop in H. destruct H as [Hd Hs].
      specialize (IH Hs).
      apply in_seq_inv in IH. destruct IH as (pre & r1 & -> & Hpre & Hrest).
      change (String c (pre ++ r1)) with (String c pre ++ r1).
      constructor; [|exact Hrest].
      apply star_class_spec. cbn. rewrite Hd. now apply star_class_spec.
Qed.

(** X12. The password pattern [^(?=.*[a-z])(?=.*[A-Z])(?=.*\d)] accepts
    exactly the strings that have a lower-case letter, an upper-case
    letter and a digit before their first line terminator: a character
    class that only occurs after a line break does not count. *)
Theorem passwordRegex_accepts (s : string) :
  Regex.passwordRegex_test s
  = on_first_line Regex.lower s && on_first_line Regex.upper s
    && on_first_line Regex.digit s.
Proof.
  unfold Regex.passwordRegex_test. now rewrite !lookahead_spec.
Qed.

(** ** Stored expiry values *)

Lemma all_chars_weaken (p q : ascii -> bool) (s : string) :
  (forall c, p c = true -> q c = true) ->
  all_chars p s = true -> all_chars q s = true.
Proof.
  intros Hpq. induction s as [|c s IH]; cbn; [reflexivity|].
  intros H. apply andb_prop in H. destruct H as [Hc Hs].
  rewrite (Hpq c Hc), (IH Hs). reflexivity.
Qed.

Lemma in_lang_alphabet (r : Regex.regex) (s : string) :
  in_lang r s -> all_chars (mentions r) s = true.
Proof.
  induction 1 as [|p c Hp|r1 r2 s1 s2 _ IH1 _ IH2|r1 r2 s _ IH|r1 r2 s _ IH
                 |r|r s1 s2 _ IH1 _ IH2]; cbn [mentions all_chars].
  - reflexivity.
  - rewrite Hp. reflexivity.
  - rewrite all_chars_app. apply andb_true_intro. split.
    + apply (all_chars_weaken (mentions r1)); [|exact IH1].
      intros c Hc. rewrite Hc. reflexivity.
    + apply (all_chars_weaken (mentions r2)); [|exact IH2].
      intros c Hc. rewrite Hc. apply orb_true_r.
  - apply (all_chars_weaken (mentions r1)); [|exact IH].
    intros c Hc. rewrite Hc. reflexivity.
  - apply (all_chars_weaken (mentions r2)); [|exact IH].
    intros c Hc. rewrite Hc. apply orb_true_r.
  - reflexivity.
  - rewrite all_chars_app. apply andb_true_intro. split; [|exact IH2].
    apply (all_chars_weaken (mentions r)); [|exact IH1].
    intros c Hc. exact Hc.
Qed.

(** A text with a character that no numeric literal has stays TEXT. *)
Lemma stays_text (c : ascii) (a b : string) :
  mentions Column.numeric_literal c = false ->
  Column.numeric_affinity (a ++ String c b) = Column.Text (a ++ String c b).
Proof.
  intros Hc. unfold Column.numeric_affinity.
  destruct (Regex.matches Column.numeric_literal (a ++ String c b)) eqn:Hm;
    [|reflexivity].
  apply matches_spec, in_lang_alphabet in Hm.
  rewrite all_chars_app in Hm. apply andb_prop in Hm. destruct Hm as [_ Hm].
  cbn [all_chars] in Hm. apply andb_prop in Hm. destruct Hm as [Hm _].
  congruence.
Qed.

(** The text of [toISOString] is stored as it is: it has a [T]. *)
Lemma toISOString_stays_text (t : Z) :
  Column.numeric_affinity (Clock.toISOString t)
  = Column.Text (Clock.toISOString t).
Proof.
  unfold Clock.toISOString.
  change (Clock.date_text t ++ "T" ++ Clock.time_text t ++ "."
          ++ Clock.pad3 (t mod 1000) ++ "Z")
    with (Clock.date_text t
          ++ String "T" (Clock.time_text t ++ "." ++ Clock.pad3 (t mod 1000)
                         ++ "Z")).
  apply stays_text. reflexivity.
Qed.

(** So is the text of [CURRENT_TIMESTAMP], the other operand of the
    comparisons: it has a colon. *)
Lemma CURRENT_TIMESTAMP_stays_text (t : Z) :
  Column.numeric_affinity (Clock.CURRENT_TIMESTAMP t)
  = Column.Text (Clock.CURRENT_TIMESTAMP t).
Proof.
  unfold Clock.CURRENT_TIMESTAMP, Clock.time_text.
  set (s := (t mod Clock.ms_per_day) / 1000).
  change (Clock.date_text t ++ " " ++ Clock.pad2 (s / 3600) ++ ":"
          ++ Clock.pad2 ((s / 60) mod 60) ++ ":" ++ Clock.pad2 (s mod 60))
    with (Clock.date_text t
          ++ (" " ++ Clock.pad2 (s / 3600))
          ++ String ":" (Clock.pad2 ((s / 60) mod 60) ++ ":"
                         ++ Clock.pad2 (s mod 60))).
  rewrite <- append_assoc. apply stays_text. reflexivity.
Qed.

(** ** Sweeping expired tokens *)

Lemma find_filter_same {A} (p q : A -> bool) (l : list A) :
  (forall x, p x = true -> q x = true) ->
  find p (filter q l) = find p l.
Proof.
  intros Hpq. induction l as [|x l IH]; [reflexivity|]. cbn.
  destruct (q x) eqn:Hq; cbn.
  - destruct (p x); [reflexivity | exact IH].
  - destruct (p x) eqn:Hp; [|exact IH].
    apply Hpq in Hp. congruence.
Qed.

Lemma text_gt_not_lt (a b : string) :
  Clock.text_gt a b = true -> TokenStore.text_lt a b = false.
Proof.
  unfold Clock.text_gt, TokenStore.text_lt.
  destruct (String.compare a b); congruence.
Qed.

Lemma usable_not_expired (h : string) (now : Z) (t : RefreshToken) :
  AdminService.usable h now t = true -> TokenStore.expired now t = false.
Proof.
  unfold AdminService.usable, TokenStore.expired, Column.gt. intros Hu.
  apply andb_prop in Hu. destruct Hu as [_ Hgt].
  destruct (expires_at t); [discriminate|].
  now apply text_gt_not_lt.
Qed.

(** X1. A sweep of [cleanupExpiredTokens] never removes a row that
    [verifyRefreshToken] would accept at that instant: the token-store
    look-up of every hash, and with it the answer of POST /refresh to
    every request, is the same after the sweep as before. *)
Theorem cleanup_keeps_usable_tokens `{E : Externals} (now : Z) (db : Db) :
  let swept := db_after (TokenStore.cleanupExpiredTokens now db) in
  (forall h, AdminService.verifyRefreshToken h now swept
             = AdminService.verifyRefreshToken h now db)
  /\ (forall cookie body, Routes.refresh cookie body now swept
                          = Routes.refresh cookie body now db).
Proof.
  cbn zeta.
  assert (Hv : forall h,
             AdminService.verifyRefreshToken h now
               (db_after (TokenStore.cleanupExpiredTokens now db))
             = AdminService.verifyRefreshToken h now db).
  { intros h. unfold AdminService.verifyRefreshToken. cbn.
    apply find_filter_same. intros t Ht.
    rewrite (usable_not_expired h now t Ht). reflexivity. }
  split; [exact Hv|].
  intros cookie body. unfold Routes.refresh.
  destruct (Js.or cookie body) as [[|c r]|]; try reflexivity.
  destruct (Middleware.verifyRefreshToken _ now); [|reflexivity].
  rewrite Hv. reflexivity.
Qed.

Lemma filter_length_split {A} (p : A -> bool) (l : list A) :
  List.length l
  = (List.length (filter p l) + List.length (filter (fun x => negb (p x)) l))%nat.
Proof.
  induction l as [|x l IH]; [reflexivity|]. cbn.
  destruct (p x); cbn; lia.
Qed.

Lemma filter_idem {A} (p : A -> bool) (l : list A) :
  filter p (filter p l) = filter p l.
Proof.
  induction l as [|x l IH]; [reflexivity|]. cbn.
  destruct (p x) eqn:Hp; cbn; [rewrite Hp, IH|]; auto.
Qed.

Lemma compare_after_prefix (d1 d2 r1 r2 : string) :
  String.length d1 = String.length d2 ->
  String.compare (d1 ++ r1) (d2 ++ r2)
  = match String.compare d1 d2 with
    | Eq => String.compare r1 r2
    | c => c
    end.
Proof.
  revert d2. induction d1 as [|c1 d1 IH]; intros [|c2 d2] Hlen;
    try discriminate Hlen; [reflexivity|].
  cbn [append String.compare].
  destruct (Ascii.compare c1 c2); try reflexivity.
  apply IH. cbn in Hlen. congruence.
Qed.

Lemma date_text_length (t : Z) : String.length (Clock.date_text t) = 10%nat.
Proof.
  unfold Clock.date_text.
  destruct (Clock.civil_from_days (t / Clock.ms_per_day)) as [[y m] d].
  reflexivity.
Qed.

(** On a [toISOString] text the comparison of the sweep is decided by
    the dates. *)
Lemma expired_by_date (now e : Z) (t : RefreshToken) :
  expires_at t = Column.Text (Clock.toISOString e) ->
  TokenStore.expired now t = date_before e now.
Proof.
  intros He. unfold TokenStore.expired, TokenStore.text_lt, date_before.
  rewrite He. unfold Clock.toISOString, Clock.CURRENT_TIMESTAMP.
  rewrite compare_after_prefix by (rewrite !date_text_length; reflexivity).
  destruct (String.compare (Clock.date_text e) (Clock.date_text now));
    reflexivity.
Qed.

Lemma sweep_count (now : Z) (rows : list RefreshToken) (expiries : list Z) :
  map expires_at rows
  = map (fun e => Column.Text (Clock.toISOString e)) expiries ->
  List.length (filter (TokenStore.expired now) rows)
  = List.length (filter (fun e => date_before e now) expiries).
Proof.
  revert expiries. induction rows as [|t rows IH]; intros [|e expiries] Hm;
    try discriminate Hm; [reflexivity|].
  cbn [map] in Hm. injection Hm as He Hm. cbn [filter].
  rewrite (expired_by_date now e t He).
  destruct (date_before e now); cbn [List.length]; rewrite (IH _ Hm);
    reflexivity.
Qed.

(** X2. [cleanupExpiredTokens] looks at the date only.  Of the rows
    whose expiry was stored as the [toISOString] text of an instant, as
    the routes store it, the sweep deletes exactly those whose date part
    is below the date part of [CURRENT_TIMESTAMP], whatever the times of
    day, and whether the row is revoked or not; a row whose expiry was
    stored as a number is always deleted.  When every row holds such a
    text, the number returned is the number of expiry instants of an
    earlier date.  No other table is touched, and a second sweep at the
    same instant deletes nothing and returns 0. *)
Theorem cleanup_counts_and_settles (now : Z) (db : Db) :
  let r := TokenStore.cleanupExpiredTokens now db in
  (forall t e,
     expires_at t = Column.Text (Clock.toISOString e) ->
     (In t (refresh_tokens (db_after r))
      <-> In t (refresh_tokens db)
          /\ String.compare (Clock.date_text e) (Clock.date_text now) <> Lt))
  /\ (forall t literal,
        expires_at t = Column.Number literal ->
        ~ In t (refresh_tokens (db_after r)))
  /\ (forall expiries,
        map expires_at (refresh_tokens db)
        = map (fun e => Column.Text (Clock.toISOString e)) expiries ->
        outcome r
        = Returned (Z.of_nat (List.length
                                (filter (fun e => date_before e now) expiries))))
  /\ admins (db_after r) = admins db
  /\ admin_audit_log (db_after r) = admin_audit_log db
  /\ TokenStore.cleanupExpiredTokens now (db_after r) = (Returned 0, db_after r).
Proof.
  cbn zeta. unfold TokenStore.cleanupExpiredTokens. cbn [outcome db_after fst snd].
  cbn [refresh_tokens admins admin_audit_log].
  split.
  { intros t e He. rewrite filter_In, (expired_by_date now e t He).
    unfold date_before.
    destruct (String.compare (Clock.date_text e) (Clock.date_text now));
      cbn; split; intros [Hin H]; split; auto; congruence. }
  split.
  { intros t literal He Hin. apply filter_In in Hin. destruct Hin as [_ Hin].
    unfold TokenStore.expired in Hin. rewrite He in Hin. discriminate. }
  split.
  { intros expiries Hm. f_equal. rewrite <- (sweep_count now _ _ Hm).
    rewrite (filter_length_split (TokenStore.expired now) (refresh_tokens db)).
    lia. }
  split; [reflexivity|]. split; [reflexivity|].
  rewrite filter_idem. f_equal. f_equal. lia.
Qed.

(** A sweep on the day after the expiry of the stored row deletes it; a
    sweep one hour after the expiry does not. *)
Lemma cleanup_counts_and_settles_witness :
  outcome (TokenStore.cleanupExpiredTokens (Demo.t_expiry + 18 * 3600000)
             Demo.db1)
  = Returned 1
  /\ In Demo.token1
       (refresh_tokens
          (db_after (TokenStore.cleanupExpiredTokens (Demo.t_expiry + 3600000)
                       Demo.db1))).
Proof.
  split.
  - destruct (cleanup_counts_and_settles (Demo.t_expiry + 18 * 3600000)
                Demo.db1) as (_ & _ & Hcount & _).
    rewrite (Hcount [Demo.t_expiry] eq_refl). vm_compute. reflexivity.
  - destruct (cleanup_counts_and_settles (Demo.t_expiry + 3600000) Demo.db1)
      as (Hkept & _).
    apply (Hkept Demo.token1 Demo.t_expiry eq_refl).
    split; [left; reflexivity | vm_compute; discriminate].
Defined.

(** X3. A row is never swept on the UTC date of its expiry: when the
    stored [toISOString] text and the current instant carry the same
    date, the row stays, however long ago the expiry instant passed on
    that date. *)
Theorem cleanup_spares_expiry_date (now expiry : Z) (db : Db)
    (t : RefreshToken) :
  In t (refresh_tokens db) ->
  expires_at t = Column.Text (Clock.toISOString expiry) ->
  Clock.date_text expiry = Clock.date_text now ->
  In t (refresh_tokens (db_after (TokenStore.cleanupExpiredTokens now db))).
Proof.
  intros Hin He Hd. cbn. apply filter_In. split; [exact Hin|].
  apply negb_true_iff. unfold TokenStore.expired. rewrite He.
  apply text_gt_not_lt, same_date_counts_as_unexpired, Hd.
Qed.

Lemma cleanup_spares_expiry_date_witness :
  Demo.t_expiry < Demo.t_expiry + 3600000
  /\ In Demo.token1
       (refresh_tokens
          (db_after (TokenStore.cleanupExpiredTokens (Demo.t_expiry + 3600000)
                       Demo.db1))).
Proof.
  split; [reflexivity|].
  apply (cleanup_spares_expiry_date (Demo.t_expiry + 3600000) Demo.t_expiry
           Demo.db1 Demo.token1).
  - left. reflexivity.
  - reflexivity.
  - vm_compute. reflexivity.
Defined.

(** ** Storing and finding refresh tokens *)

Lemma find_append {A} (p : A -> bool) (l l' : list A) :
  find p (l ++ l')%list
  = match find p l with
    | Some x => Some x
    | None => find p l'
    end.
Proof.
  induction l as [|x l IH]; [reflexivity|]. cbn.
  destruct (p x); [reflexivity | exact IH].
Qed.





(** ** What [authenticate] leaves alone *)

Lemma update_admins_column {B} (g : Admin -> B) (i : Z) (f : Admin -> Admin)
    (db : Db) :
  (forall a, g (f a) = g a) ->
  map g (admins (AdminService.update_admins i f db)) = map g (admins db).
Proof.
  intros Hg. cbn. rewrite map_map. apply map_ext. intros a.
  destruct (id a =? i); [apply Hg | reflexivity].
Qed.

Lemma lock_cleared_column {B} (g : Admin -> B) (a : Admin) (db : Db) :
  (forall x n l, g (AdminService.set_attempts n l x) = g x) ->
  map g (admins (lock_cleared a db)) = map g (admins db).
Proof.
  intros Hg. unfold lock_cleared. destruct (locked_until a); [|reflexivity].
  apply update_admins_column. intros x. apply Hg.
Qed.

Lemma update_admins_other_rows (i : Z) (f : Admin -> Admin) (db : Db)
    (n : nat) (a : Admin) :
  nth_error (admins db) n = Some a -> id a <> i ->
  nth_error (admins (AdminService.update_admins i f db)) n = Some a.
Proof.
  intros Hn Hid. cbn. rewrite nth_error_map, Hn. cbn.
  apply Z.eqb_neq in Hid. rewrite Hid. reflexivity.
Qed.

Lemma lock_cleared_other_rows (x : Admin) (db : Db) (n : nat) (a : Admin) :
  nth_error (admins db) n = Some a -> id a <> id x ->
  nth_error (admins (lock_cleared x db)) n = Some a.
Proof.
  intros Hn Hid. unfold lock_cleared. destruct (locked_until x); [|exact Hn].
  now apply update_admins_other_rows.
Qed.

(** The database [authenticate] leaves is the one it found with some
    updates of the row it read, followed by one audit entry. *)
Lemma authenticate_shape `{E : Externals} (user pass : string)
    (ip ua : option string) (now : Z) (db : Db) :
  let db' := db_after (AdminService.authenticate user pass ip ua now db) in
  exists adminId act ok detail mid,
    db' = logged adminId act ip ua ok detail now mid
    /\ (mid = db
        \/ exists a,
             admin_named (normalized user) db = Some a
             /\ (mid = lock_cleared a db
                 \/ exists f,
                      mid = AdminService.update_admins (id a) f
                              (lock_cleared a db)
                      /\ ((exists n l, f = AdminService.set_attempts n l)
                          \/ f = AdminService.set_logged_in now))).
Proof.
  cbn zeta.
  destruct (admin_named (normalized user) db) as [a|] eqn:Hf.
  2:{ rewrite (authenticate_unknown _ pass ip ua now db Hf).
      do 5 eexists. split; [reflexivity | now left]. }
  destruct (locked_at now a) eqn:Hl.
  { destruct (authenticate_locked user pass ip ua now db a Hf Hl)
      as (t & _ & _ & ->).
    do 5 eexists. split; [reflexivity | now left]. }
  destruct (Z.eq_dec (is_active a) 0) as [Ha|Ha].
  { rewrite (authenticate_disabled _ pass ip ua _ _ a Hf Hl Ha).
    do 5 eexists. split; [reflexivity|]. right. exists a. split; auto. }
  destruct (bcrypt_compare pass (password a)) eqn:Hp.
  - rewrite (authenticate_match _ _ ip ua _ _ a Hf Hl Ha Hp).
    do 5 eexists. split; [reflexivity|]. right. exists a. split; auto.
    right. eexists. split; [reflexivity|]. now right.
  - rewrite (authenticate_mismatch _ _ ip ua _ _ a Hf Hl Ha Hp).
    do 5 eexists. split; [reflexivity|]. right. exists a. split; auto.
    right. eexists. split; [reflexivity|]. left. do 2 eexists. reflexivity.
Qed.

(** X5. Whatever its outcome, [authenticate] never adds, removes or
    reorders an admin, never changes an id, a user name, a password hash,
    a role or an activation flag, and never touches the refresh-token
    table. *)
Theorem authenticate_preserves_accounts `{E : Externals} (user pass : string)
    (ip ua : option string) (now : Z) (db : Db) :
  let db' := db_after (AdminService.authenticate user pass ip ua now db) in
  map id (admins db') = map id (admins db)
  /\ map username (admins db') = map username (admins db)
  /\ map password (admins db') = map password (admins db)
  /\ map role (admins db') = map role (admins db)
  /\ map is_active (admins db') = map is_active (admins db)
  /\ refresh_tokens db' = refresh_tokens db.
Proof.
  cbn zeta.
  destruct (authenticate_shape user pass ip ua now db)
    as (adminId & act & ok & detail & mid & -> & Hmid).
  assert (Hcol : forall B (g : Admin -> B),
             (forall x n l, g (AdminService.set_attempts n l x) = g x) ->
             (forall x, g (AdminService.set_logged_in now x) = g x) ->
             map g (admins mid) = map g (admins db)).
  { intros B g Hg1 Hg2.
    destruct Hmid as [->|(a & _ & [->|(f & -> & Hf)])].
    - reflexivity.
    - now apply lock_cleared_column.
    - rewrite update_admins_column; [now apply lock_cleared_column|].
      destruct Hf as [(n & l & ->)| ->]; auto. }
  assert (Htok : refresh_tokens mid = refresh_tokens db).
  { destruct Hmid as [->|(a & _ & [->|(f & -> & _)])]; try reflexivity.
    - apply audit_lock_cleared.
    - cbn. apply audit_lock_cleared. }
  cbn [logged db_after snd]. cbn.
  repeat split; try (apply Hcol; reflexivity). exact Htok.
Qed.

(** X6. [authenticate] writes to one row of [admins] at most, the row
    of the user name it was given: every row with another id is left
    exactly as it was, and when the user name is unknown the whole table
    is. *)
Theorem authenticate_touches_one_row `{E : Externals} (user pass : string)
    (ip ua : option string) (now : Z) (db : Db) :
  let db' := db_after (AdminService.authenticate user pass ip ua now db) in
  match admin_named (normalized user) db with
  | None => admins db' = admins db
  | Some target =>
      forall n a, nth_error (admins db) n = Some a -> id a <> id target ->
                  nth_error (admins db') n = Some a
  end.
Proof.
  cbn zeta.
  destruct (authenticate_shape user pass ip ua now db)
    as (adminId & act & ok & detail & mid & -> & Hmid).
  destruct (admin_named (normalized user) db) as [target|] eqn:Hf.
  - intros n a Hn Hid. cbn.
    destruct Hmid as [->|(x & Hx & Hrest)]; [exact Hn|].
    assert (x = target) as -> by congruence.
    destruct Hrest as [->|(f & -> & _)].
    + now apply lock_cleared_other_rows.
    + apply update_admins_other_rows; [|exact Hid].
      now apply lock_cleared_other_rows.
  - destruct Hmid as [->|(x & Hx & _)]; [reflexivity | discriminate].
Qed.

Lemma authenticate_tokens_unchanged `{E : Externals} (user pass : string)
    (ip ua : option string) (now : Z) (db : Db) :
  let db' := db_after (AdminService.authenticate user pass ip ua now db) in
  refresh_tokens db' = refresh_tokens db
  /\ refresh_tokens_seq db' = refresh_tokens_seq db.
Proof.
  cbn zeta.
  destruct (authenticate_shape user pass ip ua now db)
    as (adminId & act & ok & detail & mid & -> & Hmid).
  cbn.
  destruct Hmid as [->|(a & _ & [->|(f & -> & _)])]; cbn;
    unfold lock_cleared; try destruct (locked_until a); split; reflexivity.
Qed.

(** ** Logging in *)

(** X7. POST /login stores a refresh-token row only when it answers 200:
    then exactly one row is appended, owned by the admin returned, holding
    the hash of the refresh token returned, unrevoked and expiring seven
    days later; on every other answer the table is as it was. *)
Theorem login_mints_tokens_only_on_success `{E : Externals}
    (user pass : string) (ip ua : option string) (now : Z) (db : Db) :
  let res := fst (Routes.login user pass ip ua now db) in
  let db' := snd (Routes.login user pass ip ua now db) in
  if status res =? 200 then
    exists safe tok,
      res_user res = Some safe
      /\ res_refreshToken res = Some tok
      /\ refresh_tokens db'
         = (refresh_tokens db
            ++ [mkRefreshToken (refresh_tokens_seq db + 1) (safe_id safe)
                  (sha256_hex tok)
                  (Column.Text
                     (Clock.toISOString (now + 7 * 24 * 60 * 60 * 1000)))
                  (Clock.CURRENT_TIMESTAMP now) 0])%list
  else
    res_refreshToken res = None /\ refresh_tokens db' = refresh_tokens db.
Proof.
  cbn zeta. unfold Routes.login.
  destruct (Routes.login_validation (Js.trim user) pass) as [|m ms];
    [|split; reflexivity].
  destruct (authenticate_tokens_unchanged (validator_escape (Js.trim user))
              pass ip ua now db) as [Htok Hseq].
  destruct (AdminService.authenticate _ pass ip ua now db) as [[safe|e] db1];
    cbn -[Column.numeric_affinity Clock.toISOString] in Htok, Hseq |- *.
  - exists safe. eexists. rewrite Htok, Hseq, toISOString_stays_text.
    repeat split.
  - split; [reflexivity | exact Htok].
Qed.

(** ** What [changePassword] leaves alone *)

(** X8. Whatever its outcome, [changePassword] never changes the attempt
    counter, the lock, the activation flag, the last login, the id, the
    name or the role of any admin, never changes a row of [admins] other
    than the caller's, and leaves every refresh-token row owned by
    another admin exactly as it was. *)
Theorem changePassword_touches_only_caller `{E : Externals} (adminId : Z)
    (oldPassword newPassword : string) (now : Z) (db : Db) :
  let db' :=
    db_after (AdminService.changePassword adminId oldPassword newPassword
                now db) in
  map (fun a => (id a, username a, role a, is_active a, login_attempts a,
                 locked_until a, last_login a)) (admins db')
  = map (fun a => (id a, username a, role a, is_active a, login_attempts a,
                   locked_until a, last_login a)) (admins db)
  /\ (forall n a, nth_error (admins db) n = Some a -> id a <> adminId ->
                  nth_error (admins db') n = Some a)
  /\ (forall n t, nth_error (refresh_tokens db) n = Some t ->
                  rt_admin_id t <> adminId ->
                  nth_error (refresh_tokens db') n = Some t).
Proof.
  cbn zeta.
  destruct (Z.ltb_spec (Z.of_nat (String.length newPassword)) 8) as [Hn|Hn].
  { rewrite (changePassword_too_short adminId oldPassword newPassword now db
               Hn).
    repeat split; auto. }
  destruct (admin_with_id adminId db) as [a|] eqn:Hf.
  2:{ rewrite (changePassword_not_found adminId oldPassword newPassword now db
                 Hn Hf).
      repeat split; auto. }
  destruct (bcrypt_compare oldPassword (password a)) eqn:Hp.
  - rewrite (changePassword_match adminId oldPassword newPassword now db a
               Hn Hf Hp).
    cbn [db_after snd]. split; [|split].
    + cbn. rewrite map_map. apply map_ext. intros x.
      destruct (id x =? adminId); reflexivity.
    + intros n x Hx Hid. cbn. rewrite nth_error_map, Hx. cbn.
      apply Z.eqb_neq in Hid. rewrite Hid. reflexivity.
    + intros n t Ht Hid. cbn. rewrite nth_error_map, Ht. cbn.
      apply Z.eqb_neq in Hid. rewrite Hid. reflexivity.
  - rewrite (changePassword_mismatch adminId oldPassword newPassword now db a
               Hn Hf Hp).
    repeat split; auto.
Qed.

(** ** Logging out *)

Lemma verify_after_unrelated_revocation (cond : RefreshToken -> bool)
    (h : string) (now : Z) (db : Db) :
  (forall t, In t (refresh_tokens db) -> token_hash t = h -> cond t = false) ->
  AdminService.verifyRefreshToken h now (AdminService.revoke_where cond db)
  = AdminService.verifyRefreshToken h now db.
Proof.
  unfold AdminService.verifyRefreshToken. cbn.
  induction (refresh_tokens db) as [|t l IH]; intros Hc; [reflexivity|].
  cbn [map find].
  assert (IH' := IH (fun u Hu => Hc u (or_intror Hu))).
  destruct (cond t) eqn:Hct.
  - assert (Hh : String.eqb (token_hash t) h = false).
    { apply String.eqb_neq. intros Hh.
      rewrite (Hc t (or_introl eq_refl) Hh) in Hct. discriminate. }
    unfold AdminService.usable at 1 3. cbn [token_hash AdminService.set_revoked].
    rewrite Hh. cbn [andb]. exact IH'.
  - destruct (AdminService.usable h now t); [reflexivity | exact IH'].
Qed.

Lemma refresh_same_answer `{E : Externals} (cookie body : option string)
    (now : Z) (db db' : Db) :
  admins db' = admins db ->
  (forall tok, Js.or cookie body = Some tok ->
     AdminService.verifyRefreshToken (sha256_hex tok) now db'
     = AdminService.verifyRefreshToken (sha256_hex tok) now db) ->
  Routes.refresh cookie body now db' = Routes.refresh cookie body now db.
Proof.
  intros Ha Hv. unfold Routes.refresh, AdminService.getAdminById.
  destruct (Js.or cookie body) as [[|c r]|]; try reflexivity.
  destruct (Middleware.verifyRefreshToken _ now); [|reflexivity].
  rewrite (Hv _ eq_refl), Ha. reflexivity.
Qed.

(** X9. After POST /logout has passed the gate with a refresh token in
    the cookie or the body, POST /refresh with that token never succeeds
    again and answers TOKEN_REVOKED whenever the token still verifies,
    while a refresh request with a token of another hash gets the answer
    it would have got without the logout. *)
Theorem logout_revokes_presented_token `{E : Externals} `{F : JwtFailure}
    (authHeader cookieToken cookie body : option string)
    (ip ua : option string) (now : Z) (db : Db) (user : JwtClaims)
    (refreshToken : string) :
  Gate.authenticateToken authHeader cookieToken now = Gate.Next user ->
  Js.or cookie body = Some refreshToken ->
  refreshToken <> "" ->
  let db' :=
    snd (Sessions.logout authHeader cookieToken cookie body ip ua now db) in
  (forall c b later,
     Js.or c b = Some refreshToken ->
     res_success (Routes.refresh c b later db') = false
     /\ (forall decoded,
           Middleware.verifyRefreshToken refreshToken later = Some decoded ->
           Routes.refresh c b later db' = token_revoked))
  /\ (forall c b later other,
        Js.or c b = Some other ->
        sha256_hex other <> sha256_hex refreshToken ->
        Routes.refresh c b later db' = Routes.refresh c b later db).
Proof.
  intros Hgate Hpres Hne. cbn zeta.
  unfold Sessions.logout, Sessions.behind_gate. rewrite Hgate.
  unfold Sessions.logout_handler. rewrite Hpres.
  destruct refreshToken as [|ch rest] eqn:Htok; [contradiction|].
  rewrite <- Htok in *. clear Htok. cbn [snd].
  set (db1 := db_after
                (AdminService.revokeRefreshToken (sha256_hex refreshToken) db)).
  assert (Hgone : forall later d,
             refresh_tokens d = refresh_tokens db1 ->
             AdminService.verifyRefreshToken (sha256_hex refreshToken) later d
             = None).
  { intros later d Hd. apply verify_none_when_revoked. rewrite Hd.
    intros t Hin Hh.
    apply (revoke_where_revokes
             (fun t => String.eqb (token_hash t) (sha256_hex refreshToken)) db);
      [reflexivity | exact Hin | now apply String.eqb_eq]. }
  split.
  - intros c b later Hcb. split.
    + apply (refresh_without_usable_row c b refreshToken later _ Hcb).
      apply Hgone. reflexivity.
    + intros decoded Hver.
      apply (refresh_token_revoked c b refreshToken later _ Hcb Hne decoded
               Hver).
      apply Hgone. reflexivity.
  - intros c b later other Hcb Hother.
    apply refresh_same_answer; [reflexivity|].
    intros tok Htok. assert (tok = other) as -> by congruence.
    apply (verify_after_unrelated_revocation
             (fun t => String.eqb (token_hash t) (sha256_hex refreshToken))
             (sha256_hex other) later db).
    intros t _ Hh. apply String.eqb_neq. congruence.
Qed.

(** X10. After POST /logout-all has passed the gate, POST /refresh with
    any token whose rows belong to the caller never succeeds again and
    answers TOKEN_REVOKED whenever the token still verifies, while a
    refresh request with a token whose rows all belong to other admins
    gets the answer it would have got without it. *)
Theorem logout_all_revokes_callers_tokens `{E : Externals} `{F : JwtFailure}
    (authHeader cookieToken : option string) (ip ua : option string)
    (now : Z) (db : Db) (user : JwtClaims) :
  Gate.authenticateToken authHeader cookieToken now = Gate.Next user ->
  let db' := snd (Sessions.logout_all authHeader cookieToken ip ua now db) in
  (forall c b later tok,
     Js.or c b = Some tok ->
     owned_by (claim_id user) (sha256_hex tok) db ->
     res_success (Routes.refresh c b later db') = false
     /\ (forall decoded,
           tok <> "" ->
           Middleware.verifyRefreshToken tok later = Some decoded ->
           Routes.refresh c b later db' = token_revoked))
  /\ (forall c b later other,
        Js.or c b = Some other ->
        (forall t, In t (refresh_tokens db) ->
                   token_hash t = sha256_hex other ->
                   rt_admin_id t <> claim_id user) ->
        Routes.refresh c b later db' = Routes.refresh c b later db).
Proof.
  intros Hgate. cbn zeta.
  unfold Sessions.logout_all, Sessions.behind_gate. rewrite Hgate.
  unfold Sessions.logout_all_handler. cbn [snd].
  assert (Hgone : forall later tok d,
             owned_by (claim_id user) (sha256_hex tok) db ->
             refresh_tokens d
             = refresh_tokens
                 (AdminService.revoke_where
                    (fun t => rt_admin_id t =? claim_id user) db) ->
             AdminService.verifyRefreshToken (sha256_hex tok) later d = None).
  { intros later tok d Hown Hd. apply verify_none_when_revoked. rewrite Hd.
    intros t Hin Hh.
    apply (revoke_all_covers (claim_id user) (sha256_hex tok) db Hown t Hin Hh). }
  split.
  - intros c b later tok Hcb Hown. split.
    + apply (refresh_without_usable_row c b tok later _ Hcb).
      apply (Hgone later tok _ Hown). reflexivity.
    + intros decoded Hne Hver.
      apply (refresh_token_revoked c b tok later _ Hcb Hne decoded Hver).
      apply (Hgone later tok _ Hown). reflexivity.
  - intros c b later other Hcb Hother.
    apply refresh_same_answer; [reflexivity|].
    intros tok Htok. assert (tok = other) as -> by congruence.
    apply (verify_after_unrelated_revocation
             (fun t => rt_admin_id t =? claim_id user)
             (sha256_hex other) later db).
    intros t Hin Hh. apply Z.eqb_neq. now apply Hother.
Qed.

(** ** The request gate *)

Lemma split_without_separator (sep : ascii) (w : string) :
  lacks sep w = true -> Gate.split sep w = [w].
Proof.
  unfold lacks. induction w as [|c w IH]; cbn; [reflexivity|].
  intros H. apply andb_prop in H. destruct H as [Hc Hw].
  apply negb_true_iff in Hc. rewrite Hc, (IH Hw). reflexivity.
Qed.

Lemma split_at_separator (sep : ascii) (w rest : string) :
  lacks sep w = true ->
  Gate.split sep (w ++ String sep rest) = w :: Gate.split sep rest.
Proof.
  unfold lacks. induction w as [|c w IH]; cbn.
  - intros _. rewrite Ascii.eqb_refl. reflexivity.
  - intros H. apply andb_prop in H. destruct H as [Hc Hw].
    apply negb_true_iff in Hc. rewrite Hc, (IH Hw). reflexivity.
Qed.

(** X13. [authenticateToken] takes the second space-separated word of
    the Authorization header as the token, whatever the first word is,
    and then ignores the cookie; a header of one word or none leaves the
    decision to the [auth_token] cookie; with neither it answers 401
    NO_TOKEN. *)
Theorem authenticateToken_token_source `{E : Externals} `{F : JwtFailure}
    (now : Z) :
  (forall scheme tok cookie,
     lacks " " scheme = true -> lacks " " tok = true -> tok <> "" ->
     Gate.authenticateToken (Some (scheme ++ " " ++ tok)) cookie now
     = Gate.authenticateToken None (Some tok) now)
  /\ (forall word cookie,
        lacks " " word = true ->
        Gate.authenticateToken (Some word) cookie now
        = Gate.authenticateToken None cookie now)
  /\ Gate.authenticateToken None None now
     = Gate.Rejected (failure 401 "Access denied. No token provided."
                        (Some "NO_TOKEN")).
Proof.
  split; [|split; [|reflexivity]].
  - intros scheme tok cookie Hs Ht Hne.
    unfold Gate.authenticateToken, Gate.headerToken.
    assert (Htruthy : Js.truthy (Some (scheme ++ " " ++ tok)) = true).
    { destruct scheme; reflexivity. }
    rewrite Htruthy.
    change (scheme ++ " " ++ tok) with (scheme ++ String " " tok).
    rewrite (split_at_separator " " scheme tok Hs).
    rewrite (split_without_separator " " tok Ht). cbn [nth_error].
    destruct tok as [|c r]; [contradiction | reflexivity].
  - intros word cookie Hw.
    unfold Gate.authenticateToken, Gate.headerToken.
    destruct word as [|c r]; [reflexivity|].
    cbn [Js.truthy String.eqb negb].
    rewrite (split_without_separator " " (String c r) Hw). reflexivity.
Qed.

Lemma authenticateToken_token_source_witness :
  Gate.authenticateToken (E := Demo.externals) (F := DemoGate.failures)
    (Some "Bearer access.1") (Some "refresh.1") Demo.t_login
  = Gate.authenticateToken (E := Demo.externals) (F := DemoGate.failures)
      None (Some "access.1") Demo.t_login
  /\ Gate.authenticateToken (E := Demo.externals) (F := DemoGate.failures)
       (Some "Bearer") (Some "access.1") Demo.t_login
     = Gate.Next (mkClaims 1 (Some "admin") (Some "admin") None).
Proof.
  destruct (authenticateToken_token_source (E := Demo.externals)
              (F := DemoGate.failures) Demo.t_login) as (Hhead & Hcookie & _).
  split.
  - apply (Hhead "Bearer" "access.1" (Some "refresh.1")).
    + reflexivity.
    + reflexivity.
    + discriminate.
  - rewrite (Hcookie "Bearer" (Some "access.1")); reflexivity.
Defined.

(** X14. The gate does not look at the [type] of a token: a refresh
    token that verifies is let through as a bearer credential, and with
    it alone POST /logout-all answers 200 and revokes every refresh
    token of the admin it names. *)
Theorem refresh_token_passes_gate `{E : Externals} `{F : JwtFailure}
    (tok : string) (decoded : JwtClaims) (ip ua : option string) (now : Z)
    (db : Db) :
  Middleware.verifyRefreshToken tok now = Some decoded ->
  tok <> "" ->
  let r := Sessions.logout_all None (Some tok) ip ua now db in
  Gate.authenticateToken None (Some tok) now = Gate.Next decoded
  /\ status (fst r) = 200
  /\ (forall t, In t (refresh_tokens (snd r)) ->
                rt_admin_id t = claim_id decoded -> revoked t = 1).
Proof.
  intros Hv Hne. cbn zeta.
  assert (Hj : jwt_verify tok now = Some decoded).
  { unfold Middleware.verifyRefreshToken in Hv.
    destruct (jwt_verify tok now) as [d|]; [|discriminate].
    destruct (claim_type d) as [ty|]; [|discriminate].
    destruct (String.eqb ty "refresh"); congruence. }
  assert (Hg : Gate.authenticateToken None (Some tok) now = Gate.Next decoded).
  { unfold Gate.authenticateToken. cbn.
    destruct tok as [|c r]; [contradiction|]. cbn. rewrite Hj. reflexivity. }
  split; [exact Hg|].
  unfold Sessions.logout_all, Sessions.behind_gate. rewrite Hg.
  split; [reflexivity|].
  intros t Hin Hid. cbn in Hin.
  apply (revoke_where_revokes (fun t => rt_admin_id t =? claim_id decoded) db);
    [reflexivity | exact Hin | now apply Z.eqb_eq].
Qed.

Lemma refresh_token_passes_gate_witness :
  let r := Sessions.logout_all (E := Demo.externals) (F := DemoGate.failures)
             None (Some "refresh.1") None None Demo.t_login Demo.db1 in
  status (fst r) = 200
  /\ refresh_tokens (snd r) = [AdminService.set_revoked Demo.token1].
Proof.
  destruct (refresh_token_passes_gate (E := Demo.externals)
              (F := DemoGate.failures) "refresh.1"
              (mkClaims 1 None None (Some "refresh")) None None Demo.t_login
              Demo.db1) as (_ & Hst & _).
  - reflexivity.
  - discriminate.
  - cbn zeta. split; [exact Hst | reflexivity].
Defined.

(** ** Changing the password through the route *)

(** X15. POST /change-password answers 200 only for a request that
    passed the gate with a non-empty old password and a new password of
    at least 8 characters that has a lower-case letter, an upper-case
    letter and a digit on its first line; when one of these rules is
    broken the database is left as it was, audit log included. *)
Theorem change_password_route_enforces_rules `{E : Externals}
    `{F : JwtFailure} (authHeader cookieToken : option string)
    (oldPassword newPassword : string) (now : Z) (db : Db) :
  let r := Sessions.change_password authHeader cookieToken oldPassword
             newPassword now db in
  let rules :=
    negb (String.eqb oldPassword "")
    && (8 <=? Z.of_nat (String.length newPassword))
    && on_first_line Regex.lower newPassword
    && on_first_line Regex.upper newPassword
    && on_first_line Regex.digit newPassword in
  if rules then
    status (fst r) = 200 ->
    exists user,
      Gate.authenticateToken authHeader cookieToken now = Gate.Next user
      /\ outcome (AdminService.changePassword (claim_id user) oldPassword
                    newPassword now db) = Returned true
  else status (fst r) <> 200 /\ snd r = db.
Proof.
  cbn zeta. unfold Sessions.change_password, Sessions.behind_gate.
  unfold Sessions.change_password_handler, Sessions.change_password_validation.
  unfold Regex.passwordRegex_test. rewrite !lookahead_spec.
  destruct (Gate.authenticateToken authHeader cookieToken now) as [rej|user]
    eqn:Hgate.
  { assert (Hrej : status rej <> 200).
    { unfold Gate.authenticateToken in Hgate.
      destruct (Js.or _ cookieToken) as [[|c t]|];
        try (injection Hgate as <-; discriminate).
      destruct (jwt_verify _ now); [discriminate|].
      destruct (String.eqb _ "TokenExpiredError");
        injection Hgate as <-; discriminate. }
    destruct (negb _ && _ && _ && _ && _); cbn; [contradiction | auto]. }
  destruct (String.eqb oldPassword "") eqn:Ho; cbn [negb andb app].
  { split; [discriminate | reflexivity]. }
  rewrite Z.leb_antisym.
  destruct (Z.of_nat (String.length newPassword) <? 8) eqn:Hl; cbn [negb andb app].
  { split; [discriminate | reflexivity]. }
  destruct (on_first_line Regex.lower newPassword); cbn [andb];
    [|split; [discriminate | reflexivity]].
  destruct (on_first_line Regex.upper newPassword); cbn [andb];
    [|split; [discriminate | reflexivity]].
  destruct (on_first_line Regex.digit newPassword); cbn [andb];
    [|split; [discriminate | reflexivity]].
  intros Hst. exists user. split; [reflexivity|].
  destruct (AdminService.changePassword (claim_id user) oldPassword newPassword
              now db) as [[b|e] db1] eqn:Hcp.
  - cbn. f_equal.
    assert (Hb : outcome (AdminService.changePassword (claim_id user)
                            oldPassword newPassword now db) = Returned b)
      by now rewrite Hcp.
    unfold AdminService.changePassword, bind, query in Hb.
    rewrite Hl in Hb.
    destruct (option_map password _) as [stored|]; [|discriminate].
    destruct (negb (bcrypt_compare oldPassword stored)); [discriminate|].
    cbn in Hb. congruence.
  - cbn in Hst. discriminate.
Qed.

Lemma change_password_route_enforces_rules_witness :
  exists user,
    Gate.authenticateToken (E := Demo.externals) (F := DemoGate.failures)
      (Some "Bearer access.1") None Demo.t_login = Gate.Next user
    /\ outcome (AdminService.changePassword (E := Demo.externals)
                  (claim_id user) "admin123" "NewPassw0rd" Demo.t_login
                  Demo.db1) = Returned true.
Proof.
  exact (change_password_route_enforces_rules (E := Demo.externals)
           (F := DemoGate.failures) (Some "Bearer access.1") None "admin123"
           "NewPassw0rd" Demo.t_login Demo.db1 eq_refl).
Defined.

Lemma logout_revokes_presented_token_witness :
  let db' :=
    snd (Sessions.logout (E := Demo.externals) (F := DemoGate.failures)
           (Some "Bearer access.1") None (Some "refresh.1") None None None
           Demo.t_login Demo.db1) in
  Routes.refresh (E := Demo.externals) None (Some "refresh.1")
    (Demo.t_login + 1000) db' = token_revoked.
Proof.
  destruct (logout_revokes_presented_token (E := Demo.externals)
              (F := DemoGate.failures) (Some "Bearer access.1") None
              (Some "refresh.1") None None None Demo.t_login Demo.db1
              (mkClaims 1 (Some "admin") (Some "admin") None) "refresh.1")
    as [Hrevoked _].
  - reflexivity.
  - reflexivity.
  - discriminate.
  - cbn zeta.
    destruct (Hrevoked None (Some "refresh.1") (Demo.t_login + 1000) eq_refl)
      as [_ Hanswer].
    apply (Hanswer (mkClaims 1 None None (Some "refresh"))). reflexivity.
Defined.

Lemma logout_all_revokes_callers_tokens_witness :
  let db' :=
    snd (Sessions.logout_all (E := Demo.externals) (F := DemoGate.failures)
           (Some "Bearer access.1") None None None Demo.t_login Demo.db1) in
  Routes.refresh (E := Demo.externals) (Some "refresh.1") None
    (Demo.t_login + 1000) db' = token_revoked.
Proof.
  destruct (logout_all_revokes_callers_tokens (E := Demo.externals)
              (F := DemoGate.failures) (Some "Bearer access.1") None None None
              Demo.t_login Demo.db1
              (mkClaims 1 (Some "admin") (Some "admin") None))
    as [Hrevoked _].
  - reflexivity.
  - cbn zeta.
    destruct (Hrevoked (Some "refresh.1") None (Demo.t_login + 1000)
                "refresh.1" eq_refl) as [_ Hanswer].
    + intros t [<-|[]] _. reflexivity.
    + apply (Hanswer (mkClaims 1 None None (Some "refresh"))).
      * discriminate.
      * reflexivity.
Defined.

(** ** Creating admins *)

Lemma lower_ascii_idem (c : ascii) :
  Js.lower_ascii (Js.lower_ascii c) = Js.lower_ascii c.
Proof. destruct c as [[] [] [] [] [] [] [] []]; reflexivity. Qed.

Lemma toLowerCase_fixed (s : string) :
  all_chars (fun c => Ascii.eqb (Js.lower_ascii c) c) s = true ->
  Js.toLowerCase s = s.
Proof.
  induction s as [|c s IH]; cbn; [reflexivity|].
  intros H. apply andb_prop in H. destruct H as [Hc Hs].
  apply Ascii.eqb_eq in Hc. rewrite Hc, (IH Hs). reflexivity.
Qed.

Lemma toLowerCase_all_fixed (s : string) :
  all_chars (fun c => Ascii.eqb (Js.lower_ascii c) c) (Js.toLowerCase s) = true.
Proof.
  induction s as [|c s IH]; cbn; [reflexivity|].
  rewrite lower_ascii_idem, Ascii.eqb_refl. exact IH.
Qed.

Lemma trimStart_all (p : ascii -> bool) (s : string) :
  all_chars p s = true -> all_chars p (Js.trimStart s) = true.
Proof.
  induction s as [|c s IH]; cbn; [reflexivity|].
  intros H. destruct (Js.is_space c); [|exact H].
  apply andb_prop in H. now apply IH.
Qed.

Lemma trimEnd_all (p : ascii -> bool) (s : string) :
  all_chars p s = true -> all_chars p (Js.trimEnd s) = true.
Proof.
  induction s as [|c s IH]; cbn; [reflexivity|].
  intros H. apply andb_prop in H. destruct H as [Hc Hs].
  specialize (IH Hs).
  destruct (Js.trimEnd s) as [|d r].
  - destruct (Js.is_space c); cbn; [reflexivity | now rewrite Hc].
  - cbn [all_chars]. rewrite Hc. exact IH.
Qed.

Lemma space_is_space (c : ascii) : Ascii.eqb c " " = true -> Js.is_space c = true.
Proof. intros H. apply Ascii.eqb_eq in H. now subst. Qed.

Lemma trimEnd_head (c : ascii) (r : string) :
  Js.is_space c = false -> exists r', Js.trimEnd (String c r) = String c r'.
Proof.
  intros Hc. cbn. destruct (Js.trimEnd r); [rewrite Hc|]; eauto.
Qed.

Lemma ltrim_trim (s : string) : Sql.ltrim (Js.trim s) = Js.trim s.
Proof.
  unfold Js.trim. induction s as [|c s IH]; [reflexivity|].
  cbn [Js.trimStart]. destruct (Js.is_space c) eqn:Hc; [exact IH|].
  destruct (trimEnd_head c s Hc) as (r' & ->). cbn.
  destruct (Ascii.eqb c " ") eqn:Hs; [|reflexivity].
  apply space_is_space in Hs. congruence.
Qed.

Lemma rtrim_trimEnd (s : string) : Sql.rtrim (Js.trimEnd s) = Js.trimEnd s.
Proof.
  induction s as [|c s IH]; [reflexivity|]. cbn [Js.trimEnd].
  destruct (Js.trimEnd s) as [|d r] eqn:Ht.
  - destruct (Js.is_space c) eqn:Hc; [reflexivity|]. cbn.
    destruct (Ascii.eqb c " ") eqn:Hs; [|reflexivity].
    apply space_is_space in Hs. congruence.
  - change (Sql.rtrim (String c (String d r)))
      with (match Sql.rtrim (String d r) with
            | EmptyString =>
                if Ascii.eqb c " " then EmptyString else String c EmptyString
            | String x y => String c (String x y)
            end).
    rewrite IH. reflexivity.
Qed.

(** The user name that the JavaScript side normalizes is a fixed point
    of the SQL expression of the first CHECK. *)
Lemma normalized_passes_check (user : string) :
  Sql.LOWER (Sql.TRIM (normalized user)) = normalized user.
Proof.
  unfold Sql.TRIM, Sql.LOWER, normalized.
  rewrite ltrim_trim. unfold Js.trim at 1. rewrite rtrim_trimEnd.
  fold (Js.trim (Js.toLowerCase user)).
  apply toLowerCase_fixed. unfold Js.trim.
  apply trimEnd_all, trimStart_all, toLowerCase_all_fixed.
Qed.

Lemma find_none_existsb {A} (p : A -> bool) (l : list A) :
  find p l = None -> existsb p l = false.
Proof.
  induction l as [|x l IH]; [reflexivity|]. cbn.
  destruct (p x); [discriminate | exact IH].
Qed.

Lemma max_id_bounds (l : list Admin) (a : Admin) :
  In a l -> id a <= Accounts.max_id l.
Proof.
  unfold Accounts.max_id. induction l as [|x l IH]; [contradiction|].
  cbn. intros [->|Hin]; [lia|]. specialize (IH Hin). lia.
Qed.

Lemma LENGTH_without_nul (w : string) :
  lacks Ascii.zero w = true -> Sql.LENGTH w = Z.of_nat (String.length w).
Proof.
  unfold lacks. induction w as [|c w IH]; [reflexivity|].
  cbn [all_chars Sql.LENGTH String.length]. intros H.
  apply andb_prop in H. destruct H as [Hc Hw].
  apply negb_true_iff in Hc. rewrite Hc, (IH Hw). lia.
Qed.

Section CreateAdmin.
Context `{E : Externals}.
Variables (user pass : string) (mail : option string) (now : Z).
Variable s : AdminStore.

(** X16. [createAdmin] with a free user name that passes its two length
    checks: the INSERT goes through exactly when the normalized user name
    has 3 characters at least before its first NUL and the hash 60, for
    the CHECKs of the table count with [LENGTH()], which stops at a NUL,
    where the JavaScript checks count the whole string; the first CHECK
    never rejects a normalized name.  Then the new row is appended with
    an id above every id of the table, the role [admin], no lock and the
    account active, and nothing else changes.  Otherwise the call throws
    the error of the INSERT and writes nothing.  On a name without NUL
    the two ways of counting agree. *)
Theorem createAdmin_succeeds :
  3 <= Z.of_nat (String.length (normalized user)) ->
  8 <= Z.of_nat (String.length pass) ->
  admin_named (normalized user) (store_db s) = None ->
  (3 <= Sql.LENGTH (normalized user) ->
   60 <= Sql.LENGTH (bcrypt_hash pass SALT_ROUNDS) ->
   exists n,
     (forall a, In a (admins (store_db s)) -> id a < n)
     /\ admins_seq s < n
     /\ Accounts.createAdmin user pass mail now s
        = (Created (mkNewAdmin n (normalized user) mail "admin"),
           mkStore
             (mkDb (admins (store_db s)
                    ++ [mkAdmin n (normalized user)
                          (bcrypt_hash pass SALT_ROUNDS) "admin" mail
                          (Clock.CURRENT_TIMESTAMP now) None 0 None 1])
                (refresh_tokens (store_db s)) (admin_audit_log (store_db s))
                (refresh_tokens_seq (store_db s))
                (admin_audit_log_seq (store_db s)))
             n))
  /\ (Sql.LENGTH (normalized user) < 3
      \/ Sql.LENGTH (bcrypt_hash pass SALT_ROUNDS) < 60 ->
      Accounts.createAdmin user pass mail now s
      = (CreateFailed ConstraintFailed, s))
  /\ (lacks Ascii.zero (normalized user) = true ->
      Sql.LENGTH (normalized user) = Z.of_nat (String.length (normalized user))).
Proof.
  intros Hu Hp Hf.
  assert (Hrun :
    Accounts.createAdmin user pass mail now s
    = match Accounts.insert_admin (normalized user)
              (bcrypt_hash pass SALT_ROUNDS) "admin" mail now s with
      | Some (n, s') => (Created (mkNewAdmin n (normalized user) mail "admin"), s')
      | None => (CreateFailed ConstraintFailed, s)
      end).
  { unfold Accounts.createAdmin. fold (normalized user).
    apply Z.ltb_ge in Hu, Hp. rewrite Hu, Hp.
    fold (admin_named (normalized user) (store_db s)). rewrite Hf.
    reflexivity. }
  rewrite Hrun. unfold Accounts.insert_admin, Accounts.constraints_hold.
  rewrite normalized_passes_check, String.eqb_refl.
  unfold admin_named in Hf. rewrite (find_none_existsb _ _ Hf).
  cbn [andb negb]. rewrite andb_true_r.
  split; [|split].
  - intros Hl Hh.
    exists (Z.max (admins_seq s) (Accounts.max_id (admins (store_db s))) + 1).
    split; [|split].
    + intros a Hin. apply max_id_bounds in Hin. lia.
    + lia.
    + apply Z.leb_le in Hl, Hh. rewrite Hl, Hh. reflexivity.
  - intros [Hl|Hh].
    + apply Z.leb_gt in Hl. rewrite Hl. reflexivity.
    + apply Z.leb_gt in Hh. rewrite Hh, andb_false_r. reflexivity.
  - apply LENGTH_without_nul.
Qed.

(** Nothing is written when [createAdmin] throws. *)
Lemma createAdmin_failure_writes_nothing (e : CreateAdminError) :
  fst (Accounts.createAdmin user pass mail now s) = CreateFailed e ->
  snd (Accounts.createAdmin user pass mail now s) = s.
Proof.
  unfold Accounts.createAdmin.
  destruct (_ <? 3); [reflexivity|].
  destruct (_ <? 8); [reflexivity|].
  destruct (find _ _); [reflexivity|].
  destruct (Accounts.insert_admin _ _ _ _ _ _) as [[n s']|];
    [discriminate | reflexivity].
Qed.

End CreateAdmin.

Section CreatedAdmin.
Context `{E : Externals}.
Variables (user pass : string) (mail : option string) (now : Z).
Variable s : AdminStore.
Variable info : NewAdmin.
Hypothesis Hcreated :
  fst (Accounts.createAdmin user pass mail now s) = Created info.

(** What a successful [createAdmin] went through and left. *)
Lemma createAdmin_created :
  3 <= Z.of_nat (String.length (normalized user))
  /\ admin_named (normalized user) (store_db s) = None
  /\ Accounts.constraints_hold (normalized user) (bcrypt_hash pass SALT_ROUNDS)
       (admins (store_db s)) = true
  /\ info = mkNewAdmin (new_id info) (normalized user) mail "admin"
  /\ (forall a, In a (admins (store_db s)) -> id a < new_id info)
  /\ snd (Accounts.createAdmin user pass mail now s)
     = mkStore
         (mkDb (admins (store_db s)
                ++ [mkAdmin (new_id info) (normalized user)
                      (bcrypt_hash pass SALT_ROUNDS) "admin" mail
                      (Clock.CURRENT_TIMESTAMP now) None 0 None 1])
            (refresh_tokens (store_db s)) (admin_audit_log (store_db s))
            (refresh_tokens_seq (store_db s))
            (admin_audit_log_seq (store_db s)))
         (new_id info).
Proof.
  revert Hcreated. unfold Accounts.createAdmin. fold (normalized user).
  destruct (Z.ltb_spec (Z.of_nat (String.length (normalized user))) 3)
    as [|Hlen]; [discriminate|].
  destruct (_ <? 8); [discriminate|].
  fold (admin_named (normalized user) (store_db s)).
  destruct (admin_named (normalized user) (store_db s)); [discriminate|].
  unfold Accounts.insert_admin.
  destruct (Accounts.constraints_hold _ _ _); [|discriminate].
  cbn. intros Hc. injection Hc as <-. cbn.
  repeat split; [exact Hlen|].
  intros a Hin. apply max_id_bounds in Hin. lia.
Qed.

Lemma created_admin_is_found :
  admin_named (normalized user)
    (store_db (snd (Accounts.createAdmin user pass mail now s)))
  = Some (mkAdmin (new_id info) (normalized user)
            (bcrypt_hash pass SALT_ROUNDS) "admin" mail
            (Clock.CURRENT_TIMESTAMP now) None 0 None 1).
Proof.
  destruct createAdmin_created as (_ & Hf & _ & _ & _ & ->).
  unfold admin_named in *. cbn. rewrite find_append, Hf. cbn.
  rewrite String.eqb_refl. reflexivity.
Qed.

(** X17. Once [createAdmin] has created an admin, a later call with a
    user name that normalizes to the same name (it may differ by case
    and by surrounding white space) creates nothing and writes nothing,
    whatever its password: it throws [Password must be at least 8
    characters] when the password is shorter than that, the check that
    comes before the look-up, and [Username already exists] otherwise. *)
Theorem createAdmin_rejects_same_name (user' pass' : string)
    (mail' : option string) (now' : Z) :
  normalized user' = normalized user ->
  let s' := snd (Accounts.createAdmin user pass mail now s) in
  Accounts.createAdmin user' pass' mail' now' s'
  = (CreateFailed (if Z.of_nat (String.length pass') <? 8 then PasswordTooShort
                   else UsernameExists),
     s').
Proof.
  intros Hsame. cbn zeta.
  assert (Hfound := created_admin_is_found).
  destruct createAdmin_created as (Hlen & _).
  unfold Accounts.createAdmin at 1. fold (normalized user'). rewrite Hsame.
  apply Z.ltb_ge in Hlen. rewrite Hlen.
  destruct (Z.of_nat (String.length pass') <? 8); [reflexivity|].
  unfold admin_named in Hfound. rewrite Hfound. reflexivity.
Qed.

(** X18. An admin created by [createAdmin] can log in at once: with a
    hash library that accepts the password against its own hash,
    [authenticate] with the same user name and password returns the new
    account, under the id that [createAdmin] returned. *)
Theorem createAdmin_then_authenticate (ip ua : option string) (later : Z) :
  bcrypt_compare pass (bcrypt_hash pass SALT_ROUNDS) = true ->
  outcome (AdminService.authenticate user pass ip ua later
             (store_db (snd (Accounts.createAdmin user pass mail now s))))
  = Returned (mkSafeAdmin (new_id info) (new_username info) "admin" mail
                (Clock.CURRENT_TIMESTAMP now) None 0 None 1).
Proof.
  intros Hlaw.
  assert (Hfound := created_admin_is_found).
  destruct createAdmin_created as (_ & _ & _ & Hinfo & _).
  rewrite (authenticate_match user pass ip ua later _ _ Hfound);
    try reflexivity; try assumption.
  - rewrite Hinfo. reflexivity.
  - discriminate.
Qed.

End CreatedAdmin.

Lemma createAdmin_succeeds_witness :
  (exists n,
     Accounts.createAdmin (E := DemoGate.externals60) " Bob " "password1" None 0
       DemoGate.store0
     = (Created (mkNewAdmin n "bob" None "admin"),
        mkStore
          (mkDb [mkAdmin n "bob" (DemoGate.hash60 "password1" SALT_ROUNDS)
                   "admin" None "1970-01-01 00:00:00" None 0 None 1]
             [] [] 0 0)
          n))
  /\ Accounts.createAdmin (E := DemoGate.externals60)
       (String "a" (String "b" (String Ascii.zero "c"))) "password1" None 0
       DemoGate.store0
     = (CreateFailed ConstraintFailed, DemoGate.store0).
Proof.
  split.
  - destruct (createAdmin_succeeds (E := DemoGate.externals60) " Bob "
                "password1" None 0 DemoGate.store0) as (Hok & _ & _).
    + vm_compute. discriminate.
    + vm_compute. discriminate.
    + reflexivity.
    + destruct Hok as (n & _ & _ & Hrun).
      * vm_compute. discriminate.
      * vm_compute. discriminate.
      * exists n. exact Hrun.
  - destruct (createAdmin_succeeds (E := DemoGate.externals60)
                (String "a" (String "b" (String Ascii.zero "c"))) "password1"
                None 0 DemoGate.store0) as (_ & Hfail & _).
    + vm_compute. discriminate.
    + vm_compute. discriminate.
    + reflexivity.
    + apply Hfail. left. vm_compute. reflexivity.
Defined.

Lemma createAdmin_rejects_same_name_witness :
  Accounts.createAdmin (E := DemoGate.externals60) "BOB" "otherpass1" None 5
    (snd (Accounts.createAdmin (E := DemoGate.externals60) " Bob " "password1"
            None 0 DemoGate.store0))
  = (CreateFailed UsernameExists,
     snd (Accounts.createAdmin (E := DemoGate.externals60) " Bob " "password1"
            None 0 DemoGate.store0))
  /\ Accounts.createAdmin (E := DemoGate.externals60) "BOB" "short" None 5
       (snd (Accounts.createAdmin (E := DemoGate.externals60) " Bob "
               "password1" None 0 DemoGate.store0))
     = (CreateFailed PasswordTooShort,
        snd (Accounts.createAdmin (E := DemoGate.externals60) " Bob "
               "password1" None 0 DemoGate.store0)).
Proof.
  split.
  - apply (createAdmin_rejects_same_name (E := DemoGate.externals60) " Bob "
             "password1" None 0 DemoGate.store0
             (mkNewAdmin 1 "bob" None "admin") eq_refl "BOB" "otherpass1").
    reflexivity.
  - apply (createAdmin_rejects_same_name (E := DemoGate.externals60) " Bob "
             "password1" None 0 DemoGate.store0
             (mkNewAdmin 1 "bob" None "admin") eq_refl "BOB" "short").
    reflexivity.
Defined.

Lemma createAdmin_then_authenticate_witness :
  outcome (AdminService.authenticate (E := DemoGate.externals60) " Bob "
             "password1" None None 1000
             (store_db (snd (Accounts.createAdmin (E := DemoGate.externals60)
                               " Bob " "password1" None 0 DemoGate.store0))))
  = Returned (mkSafeAdmin 1 "bob" "admin" None "1970-01-01 00:00:00" None 0
                None 1).
Proof.
  apply (createAdmin_then_authenticate (E := DemoGate.externals60) " Bob "
           "password1" None 0 DemoGate.store0
           (mkNewAdmin 1 "bob" None "admin")).
  - reflexivity.
  - reflexivity.
Defined.

(** X20. [createDefaultAdmin] does nothing to a table that has an
    admin, so running it again after it has succeeded changes nothing;
    on an empty table it leaves exactly one admin, with whom
    [authenticate] succeeds for [admin] / [admin123] when the hash
    library accepts that password against its own hash. *)
Theorem createDefaultAdmin_seeds_once `{E : Externals} (now : Z)
    (s s' : AdminStore) :
  Accounts.createDefaultAdmin now s = Some s' ->
  (forall again, Accounts.createDefaultAdmin again s' = Some s')
  /\ (admins (store_db s) <> [] -> s' = s)
  /\ (admins (store_db s) = [] ->
      List.length (admins (store_db s')) = 1%nat
      /\ (bcrypt_compare "admin123" (bcrypt_hash "admin123" SALT_ROUNDS) = true ->
          forall ip ua later,
          exists safe,
            outcome (AdminService.authenticate "admin" "admin123" ip ua later
                       (store_db s')) = Returned safe
            /\ safe_username safe = "admin"
            /\ safe_role safe = "admin")).
Proof.
  unfold Accounts.createDefaultAdmin.
  destruct (admins (store_db s)) as [|a l] eqn:Hl.
  - unfold Accounts.insert_admin. rewrite Hl.
    destruct (Accounts.constraints_hold _ _ _); [|discriminate].
    intros Hs. injection Hs as <-.
    split; [reflexivity|]. split; [congruence|].
    intros _. split; [reflexivity|].
    intros Hlaw ip ua later. eexists.
    rewrite (authenticate_match "admin" "admin123" ip ua later _
               (mkAdmin (Z.max (admins_seq s) (Accounts.max_id []) + 1) "admin"
                  (bcrypt_hash "admin123" SALT_ROUNDS) "admin" None
                  (Clock.CURRENT_TIMESTAMP now) None 0 None 1));
      try reflexivity; try assumption.
    + repeat split.
    + discriminate.
  - intros Hs. injection Hs as <-. rewrite Hl.
    split; [reflexivity|]. split; [reflexivity | discriminate].
Qed.

Lemma createDefaultAdmin_seeds_once_witness :
  exists s',
    Accounts.createDefaultAdmin (E := DemoGate.externals60) 0 DemoGate.store0
    = Some s'
    /\ Accounts.createDefaultAdmin (E := DemoGate.externals60) 99 s' = Some s'
    /\ List.length (admins (store_db s')) = 1%nat.
Proof.
  eexists. split; [reflexivity|].
  destruct (createDefaultAdmin_seeds_once (E := DemoGate.externals60) 0
              DemoGate.store0 _ eq_refl) as (Hagain & _ & Hempty).
  split; [apply Hagain | apply Hempty; reflexivity].
Defined.

(** ** The waitlist *)

Lemma waitlist_max_id_bounds (l : list Signup) (r : Signup) :
  In r l -> w_id r <= WaitlistService.max_id l.
Proof.
  unfold WaitlistService.max_id. induction l as [|x l IH]; [contradiction|].
  cbn. intros [->|Hin]; [lia|]. specialize (IH Hin). lia.
Qed.

(** The three ways POST /signup can go. *)
Lemma signup_cases (name email church ip ua : option string) (now : Z)
    (db : WaitlistDb) :
  let r := Server.signup name email church ip ua now db in
  (exists m, r = ((400, mkAddResult false m None), db))
  \/ (exists e,
        email = Some e
        /\ Regex.matches Regex.emailRegex e = true
        /\ find (fun x => String.eqb (w_email x) e) (waitlist db) <> None
        /\ r = ((409, mkAddResult false "Email already registered" None), db))
  \/ (exists e n row,
        email = Some e
        /\ Regex.matches Regex.emailRegex e = true
        /\ find (fun x => String.eqb (w_email x) e) (waitlist db) = None
        /\ (forall x, In x (waitlist db) -> w_id x < n)
        /\ row = mkSignup n
                   (match Js.or name (Some "Anonymous") with
                    | Some x => x
                    | None => "Anonymous"
                    end)
                   e church (Clock.CURRENT_TIMESTAMP now) ip ua
        /\ r = ((201, mkAddResult true "Successfully added to waitlist"
                        (Some n)),
                mkWaitlistDb (waitlist db ++ [row]) n)).
Proof.
  cbn zeta. unfold Server.signup.
  destruct email as [[|c e]|]; [left; eauto | | left; eauto].
  destruct (Regex.matches Regex.emailRegex (String c e)) eqn:Hv; cbn [negb];
    [|left; eauto].
  unfold WaitlistService.addToWaitlist.
  destruct (find _ (waitlist db)) as [x|] eqn:Hf.
  - right. left. exists (String c e). rewrite Hf.
    split; [reflexivity|]. split; [exact Hv|]. split; [discriminate|].
    reflexivity.
  - right. right.
    exists (String c e),
      (Z.max (waitlist_seq db) (WaitlistService.max_id (waitlist db)) + 1).
    eexists.
    split; [reflexivity|]. split; [exact Hv|]. split; [exact Hf|].
    split; [|split; reflexivity].
    intros x Hin. apply waitlist_max_id_bounds in Hin. lia.
Qed.

(** X21. POST /api/waitlist/signup adds a row only when it answers 201:
    then the email passed the pattern, no row had that exact email, one
    row is appended and [getCount] grows by one; on every other answer
    (400 or 409) the table is unchanged. *)
Theorem signup_adds_one_row_on_201 (name email church ip ua : option string)
    (now : Z) (db : WaitlistDb) :
  let r := Server.signup name email church ip ua now db in
  if fst (fst r) =? 201 then
    Server.count (snd r) = Server.count db + 1
    /\ exists e row,
         email = Some e
         /\ Regex.matches Regex.emailRegex e = true
         /\ (forall x, In x (waitlist db) -> w_email x <> e)
         /\ waitlist (snd r) = (waitlist db ++ [row])%list
         /\ w_email row = e
         /\ add_id (snd (fst r)) = Some (w_id row)
  else
    snd r = db /\ (fst (fst r) = 400 \/ fst (fst r) = 409).
Proof.
  cbn zeta.
  destruct (signup_cases name email church ip ua now db)
    as [(m & ->)|[(e & _ & _ & _ & ->)|(e & n & row & -> & Hv & Hf & _ & -> & ->)]];
    cbn -[Regex.matches Regex.emailRegex]; auto.
  split.
  - unfold Server.count, WaitlistService.getCount. cbn.
    rewrite length_app. cbn. lia.
  - do 2 eexists. repeat split; try reflexivity; try assumption.
    intros x Hin Hx.
    apply (find_none _ _ Hf) in Hin. apply String.eqb_neq in Hin. contradiction.
Qed.

(** X22. After a signup has been answered 201, every later signup with
    the same email, whatever the name and the church, is answered 409
    [Email already registered] and leaves the table unchanged. *)
Theorem signup_same_email_again (name church ip ua : option string)
    (email : string) (now : Z) (db : WaitlistDb) :
  fst (fst (Server.signup name (Some email) church ip ua now db)) = 201 ->
  forall name' church' ip' ua' now',
    let db' := snd (Server.signup name (Some email) church ip ua now db) in
    Server.signup name' (Some email) church' ip' ua' now' db'
    = ((409, mkAddResult false "Email already registered" None), db').
Proof.
  intros H201 name' church' ip' ua' now'. cbn zeta.
  destruct (signup_cases name (Some email) church ip ua now db)
    as [(m & Hr)|[(e & _ & _ & _ & Hr)|(e & n & row & He & Hv & Hf & _ & -> & Hr)]];
    rewrite Hr in *; cbn in H201; try discriminate.
  injection He as <-. cbn [snd].
  unfold Server.signup.
  destruct email as [|c rest]; [discriminate|].
  rewrite Hv. cbn [negb].
  unfold WaitlistService.addToWaitlist. cbn [waitlist].
  rewrite find_append, Hf. cbn [find w_email].
  rewrite String.eqb_refl. reflexivity.
Qed.

Lemma signup_same_email_again_witness :
  Server.signup (Some "Ann") (Some "ann@example.org") (Some "Other") None None
    5000
    (snd (Server.signup None (Some "ann@example.org") None None None 0
            (mkWaitlistDb [] 0)))
  = ((409, mkAddResult false "Email already registered" None),
     snd (Server.signup None (Some "ann@example.org") None None None 0
            (mkWaitlistDb [] 0))).
Proof.
  apply (signup_same_email_again None None None None "ann@example.org" 0
           (mkWaitlistDb [] 0)).
  vm_compute. reflexivity.
Defined.

(** X23. POST /api/waitlist/signup keeps the table well formed: ids and
    emails stay unique and every stored email matches the pattern of the
    route. *)
Theorem signup_keeps_constraints (name email church ip ua : option string)
    (now : Z) (db : WaitlistDb) :
  waitlist_constraints (waitlist db) ->
  waitlist_constraints
    (waitlist (snd (Server.signup name email church ip ua now db))).
Proof.
  intros (Hid & Hmail & Hrows).
  destruct (signup_cases name email church ip ua now db)
    as [(m & ->)|[(e & _ & _ & _ & ->)
                 |(e & n & row & -> & Hv & Hf & Hfresh & -> & ->)]];
    cbn [snd waitlist]; try (repeat split; assumption).
  unfold waitlist_constraints. rewrite !map_app. cbn [map w_id w_email].
  split; [|split].
  - apply NoDup_app; [exact Hid | repeat constructor; auto |].
    intros x Hx [<-|[]]. apply in_map_iff in Hx.
    destruct Hx as (a & Ha & Hin). specialize (Hfresh a Hin). lia.
  - apply NoDup_app; [exact Hmail | repeat constructor; auto |].
    intros x Hx [<-|[]]. apply in_map_iff in Hx.
    destruct Hx as (a & Ha & Hin).
    apply (find_none _ _ Hf) in Hin. apply String.eqb_neq in Hin.
    contradiction.
  - apply Forall_app. split; [exact Hrows|].
    constructor; [exact Hv | constructor].
Qed.

Lemma signup_keeps_constraints_witness :
  waitlist_constraints
    (waitlist (snd (Server.signup None (Some "ann@example.org") None None None
                      0 (mkWaitlistDb [] 0)))).
Proof.
  apply (signup_keeps_constraints None (Some "ann@example.org") None None None
           0 (mkWaitlistDb [] 0)).
  repeat split; constructor.
Defined.

(** ** The signup form *)

Lemma not_space_or_at_lacks_at (s : string) :
  all_chars Regex.not_space_or_at s = true -> lacks "@" s = true.
Proof.
  unfold lacks. induction s as [|c s IH]; cbn; [reflexivity|].
  intros H. apply andb_prop in H. destruct H as [Hc Hs].
  unfold Regex.not_space_or_at in Hc. apply andb_prop in Hc.
  destruct Hc as [_ Hc]. rewrite Hc. now apply IH.
Qed.

(** X24. When the signup form of the landing page sends a request, the
    email is the trimmed input, the name is the part of the email before
    its [@], which is not empty, and the church is absent or not empty;
    the signup route never answers such a request 400, and when it
    answers 201 the row stored carries that name: the [Anonymous]
    default is not used. *)
Theorem form_request_is_accepted (emailInput churchInput name email : string)
    (church : option string) :
  Landing.formData emailInput churchInput = Some (name, email, church) ->
  email = Js.trim emailInput
  /\ name <> ""
  /\ lacks "@" name = true
  /\ (exists rest, email = name ++ "@" ++ rest)
  /\ church <> Some ""
  /\ forall ip ua now db,
       let r := Server.signup (Some name) (Some email) church ip ua now db in
       fst (fst r) <> 400
       /\ (fst (fst r) = 201 ->
           exists row,
             waitlist (snd r) = (waitlist db ++ [row])%list
             /\ w_name row = name /\ w_email row = email
             /\ w_church row = church).
Proof.
  unfold Landing.formData, Landing.validateEmail.
  destruct (Regex.matches Regex.emailRegex (Js.trim emailInput)) eqn:Hv;
    [|discriminate].
  intros Hform. injection Hform as Hname <- Hchurch.
  destruct (proj1 (email_shape _) Hv)
    as (l & d & t & Hmail & Hl & _ & _ & Al & _ & _).
  assert (Hat := not_space_or_at_lacks_at l Al).
  rewrite Hmail in Hname.
  change (l ++ "@" ++ d ++ "." ++ t) with (l ++ String "@" (d ++ "." ++ t))
    in Hname.
  rewrite (split_at_separator "@" l _ Hat) in Hname. subst name.
  split; [reflexivity|]. split; [exact Hl|]. split; [exact Hat|].
  split; [exists (d ++ "." ++ t); exact Hmail|].
  split.
  { subst church. unfold Js.or, Js.truthy.
    destruct (String.eqb_spec (Js.trim churchInput) ""); cbn; congruence. }
  intros ip ua now db. cbn zeta.
  destruct (signup_cases (Some l) (Some (Js.trim emailInput)) church ip ua now db)
    as [(m & Hr)|[(e & _ & _ & _ & ->)
                 |(e & n & row & He & _ & _ & _ & -> & ->)]].
  - exfalso. revert Hr. unfold Server.signup.
    destruct (Js.trim emailInput) as [|c r] eqn:Ht.
    + rewrite Hmail in Ht. destruct l; discriminate.
    + rewrite Hv. cbn [negb].
      destruct (WaitlistService.addToWaitlist _ _ _ _ _ _ _) as [res db'].
      destruct (add_success res); discriminate.
  - cbn. split; discriminate.
  - cbn [fst snd waitlist]. split; [discriminate|]. intros _.
    injection He as <-. eexists. split; [reflexivity|].
    cbn [w_name w_email w_church]. repeat split.
    unfold Js.or, Js.truthy.
    destruct l; [contradiction | reflexivity].
Qed.

Lemma form_request_is_accepted_witness :
  Landing.formData " ann@example.org " " " = Some ("ann", "ann@example.org", None)
  /\ fst (fst (Server.signup (Some "ann") (Some "ann@example.org") None None
                 None 0 (mkWaitlistDb [] 0))) <> 400.
Proof.
  split; [reflexivity|].
  destruct (form_request_is_accepted " ann@example.org " " " "ann"
              "ann@example.org" None eq_refl) as (_ & _ & _ & _ & _ & Hroute).
  apply (Hroute None None 0 (mkWaitlistDb [] 0)).
Defined.

Lemma emailRegex_accepts_witness :
  Regex.matches Regex.emailRegex "ann@example.org" = true.
Proof.
  apply (proj2 (emailRegex_accepts "ann@example.org")).
  exists "ann", "example", "org".
  split; [reflexivity|].
  split; [intros H; discriminate H|]. split; [intros H; discriminate H|].
  split; [intros H; discriminate H|].
  split; [reflexivity|]. split; reflexivity.
Defined.

(** ** The typing animation *)

Lemma substring0_prefix (n : nat) (s : string) :
  String.prefix (Landing.substring0 n s) s = true.
Proof.
  revert s. induction n as [|n IH]; intros [|c s]; cbn; try reflexivity.
  destruct (ascii_dec c c); [apply IH | contradiction].
Qed.

Lemma substring0_zero (s : string) : Landing.substring0 0 s = EmptyString.
Proof. destruct s; reflexivity. Qed.

Lemma run_keeps_settled (st : Landing.Typing) (cb : Landing.Callback) :
  typing_settled st cb ->
  typing_settled (fst (fst (Landing.run cb st)))
    (snd (fst (Landing.run cb st))).
Proof.
  unfold typing_settled, typing_headline. intros (Hh & Hi & Ht & Hcb).
  assert (Hsix : List.length Landing.headlines = 6%nat) by reflexivity.
  destruct cb; cbn [Landing.run].
  - unfold Landing.type.
    destruct (Landing.isDeleting st) eqn:Hd; cbn [negb andb].
    + destruct (0 <? Landing.index st)%nat eqn:Hpos;
        cbn [fst snd Landing.currentHeadlineIndex Landing.index
               Landing.isDeleting Landing.textContent].
      * apply Nat.ltb_lt in Hpos.
        split; [exact Hh|]. split; [lia|]. split; [reflexivity|].
        intros H; discriminate H.
      * apply Nat.ltb_ge in Hpos.
        assert (Hz : Landing.index st = 0%nat) by lia.
        split; [rewrite Hsix; apply Nat.mod_upper_bound; lia|].
        split; [lia|]. split; [|intros H; discriminate H].
        rewrite Ht, Hz. simpl Nat.pred. now rewrite !substring0_zero.
    + destruct (Landing.index st <=? _)%nat eqn:Hle;
        cbn [fst snd Landing.currentHeadlineIndex Landing.index
               Landing.isDeleting Landing.textContent].
      * apply Nat.leb_le in Hle.
        split; [exact Hh|]. split; [lia|]. split; [reflexivity|].
        intros H; discriminate H.
      * apply Nat.leb_gt in Hle. rewrite Hd.
        split; [exact Hh|]. split; [exact Hi|]. split; [exact Ht|].
        intros _. split; [reflexivity | exact Hle].
  - destruct (Hcb eq_refl) as [Hd Hlen]. unfold Landing.type.
    cbn [fst snd Landing.currentHeadlineIndex Landing.index Landing.isDeleting
           Landing.textContent negb andb].
    assert (Hpos : (0 <? Landing.index st)%nat = true)
      by (apply Nat.ltb_lt; lia).
    rewrite Hpos.
    cbn [fst snd Landing.currentHeadlineIndex Landing.index Landing.isDeleting
           Landing.textContent].
    split; [exact Hh|]. split; [lia|]. split; [reflexivity|].
    intros H; discriminate H.
Qed.

Lemma after_timers_settled (n : nat) :
  forall st cb elapsed,
    typing_settled st cb ->
    typing_settled (fst (fst (Landing.after_timers n st cb elapsed)))
      (snd (fst (Landing.after_timers n st cb elapsed))).
Proof.
  induction n as [|n IH]; intros st cb elapsed Hs; [exact Hs|].
  cbn [Landing.after_timers].
  assert (Hrun := run_keeps_settled st cb Hs).
  destruct (Landing.run cb st) as [[st' cb'] delay]. apply IH. exact Hrun.
Qed.

(** X25. From its first call on, whatever the element showed before, the
    typing animation always shows a prefix of the typing_headline it is on, its
    character index never exceeds the length of that typing_headline by more
    than one, and the typing_headline index stays within the list. *)
Theorem typing_shows_prefix (n : nat) (before : string) :
  let st :=
    fst (fst (Landing.after_timers (S n) (Landing.mkTyping 0 0 false before) Landing.CallType 0)) in
  String.prefix (Landing.textContent st)
    (nth (Landing.currentHeadlineIndex st) Landing.headlines EmptyString) = true
  /\ (Landing.index st
      <= S (String.length (nth (Landing.currentHeadlineIndex st) Landing.headlines EmptyString)))%nat
  /\ (Landing.currentHeadlineIndex st < List.length Landing.headlines)%nat.
Proof.
  cbn zeta. cbn [Landing.after_timers Landing.run].
  change (Landing.type (Landing.mkTyping 0 0 false before))
    with (Landing.mkTyping 0 1 false EmptyString, Landing.CallType, 50).
  cbn iota.
  assert (Hs : typing_settled (Landing.mkTyping 0 1 false EmptyString) Landing.CallType).
  { unfold typing_settled, typing_headline. cbn. repeat split; try lia. discriminate. }
  apply (after_timers_settled n _ _ (0 + 50)) in Hs.
  destruct Hs as (Hh & Hi & Ht & _). unfold typing_headline in *.
  split; [|split; [exact Hi | exact Hh]].
  rewrite Ht. apply substring0_prefix.
Qed.

(** X26. Each headline takes one full turn: started on headline [h] with
    nothing typed, after one call per character and one more the whole
    headline is shown, and after [2 * length + 4] calls the animation is
    on the next headline of the list (the first one after the last) with
    nothing shown, having waited 80 ms per typed position, 3000 ms on
    the full headline and 500 ms on the empty one. *)
Theorem typing_takes_a_full_turn (h : nat) (before : string) :
  (h < List.length Landing.headlines)%nat ->
  let text := nth h Landing.headlines EmptyString in
  let len := String.length text in
  Landing.textContent
    (fst (fst (Landing.after_timers (S len) (Landing.mkTyping h 0 false before)
                 Landing.CallType 0))) = text
  /\ Landing.after_timers (2 * len + 4) (Landing.mkTyping h 0 false before)
       Landing.CallType 0
     = (Landing.mkTyping (Nat.modulo (S h) (List.length Landing.headlines)) 0
          false EmptyString,
        Landing.CallType,
        80 * Z.of_nat (S len) + 3500).
Proof.
  intros Hh. cbn zeta.
  do 6 (destruct h as [|h]; [split; vm_compute; reflexivity|]).
  cbn in Hh. lia.
Qed.

Lemma typing_takes_a_full_turn_witness :
  Landing.after_timers 58 (Landing.mkTyping 4 0 false "x") Landing.CallType 0
  = (Landing.mkTyping 5 0 false EmptyString, Landing.CallType, 5740).
Proof.
  assert (Hh : (4 < List.length Landing.headlines)%nat) by (cbn; lia).
  exact (proj2 (typing_takes_a_full_turn 4 "x" Hh)).
Defined.

(** ** Sessions end to end *)

Lemma find_unique_id (l : list Admin) (a : Admin) :
  NoDup (map id l) -> In a l -> find (fun x => id x =? id a) l = Some a.
Proof.
  induction l as [|x l IH]; [contradiction|].
  cbn. intros Hnd Hin. inversion Hnd as [|y ys Hnotin Hnd']; subst.
  destruct Hin as [->|Hin].
  - now rewrite Z.eqb_refl.
  - destruct (id x =? id a) eqn:Hx; [|now apply IH].
    apply Z.eqb_eq in Hx. exfalso. apply Hnotin. rewrite Hx.
    now apply in_map.
Qed.

Lemma admin_with_id_lock_cleared (a : Admin) (db : Db) :
  admin_with_id (id a) db = Some a ->
  exists a',
    admin_with_id (id a) (lock_cleared a db) = Some a'
    /\ is_active a' = is_active a /\ id a' = id a
    /\ username a' = username a /\ role a' = role a.
Proof.
  intros Hf. unfold lock_cleared. destruct (locked_until a).
  - rewrite admin_with_id_update, Hf by reflexivity. cbn.
    eexists. repeat split.
  - exists a. repeat split. exact Hf.
Qed.

(** X27. A login that is answered 200 opens a session that works: as
    long as the refresh token returned verifies for the admin returned
    and the current [CURRENT_TIMESTAMP] text is below the expiry text
    stored, POST /refresh with that token answers 200 with an access
    token issued for that admin (ids being unique in [admins]). *)
Theorem login_then_refresh `{E : Externals} (user pass : string)
    (ip ua : option string) (now later : Z) (db : Db) (safe : SafeAdmin)
    (tok : string) (decoded : JwtClaims) :
  NoDup (map id (admins db)) ->
  status (fst (Routes.login user pass ip ua now db)) = 200 ->
  res_user (fst (Routes.login user pass ip ua now db)) = Some safe ->
  res_refreshToken (fst (Routes.login user pass ip ua now db)) = Some tok ->
  tok <> "" ->
  Middleware.verifyRefreshToken tok later = Some decoded ->
  claim_id decoded = safe_id safe ->
  Clock.text_gt (Clock.toISOString (now + 7 * 24 * 60 * 60 * 1000))
    (Clock.CURRENT_TIMESTAMP later) = true ->
  let fresh :=
    Middleware.generateAccessToken (safe_id safe) (safe_username safe)
      (safe_role safe) later in
  Routes.refresh (Some tok) None later (snd (Routes.login user pass ip ua now db))
  = mkResponse 200 true None None (Some "Token refreshed successfully") []
      None (Some fresh) None (Some 86400) [("auth_token", fresh)].
Proof.
  intros Hnd Hst Huser Htok Hne Hver Hid Hgt. cbn zeta.
  revert Hst Huser Htok. unfold Routes.login.
  destruct (Routes.login_validation (Js.trim user) pass) as [|m ms];
    [|discriminate].
  set (u := validator_escape (Js.trim user)).
  destruct (admin_named (normalized u) db) as [a|] eqn:Hf.
  2:{ rewrite (authenticate_unknown u pass ip ua now db Hf). discriminate. }
  destruct (locked_at now a) eqn:Hl.
  { destruct (authenticate_locked u pass ip ua now db a Hf Hl)
      as (t & _ & _ & ->).
    discriminate. }
  destruct (Z.eq_dec (is_active a) 0) as [Ha|Ha].
  { rewrite (authenticate_disabled u pass ip ua now db a Hf Hl Ha).
    discriminate. }
  destruct (bcrypt_compare pass (password a)) eqn:Hp.
  2:{ rewrite (authenticate_mismatch u pass ip ua now db a Hf Hl Ha Hp).
      destruct (login_attempts a + 1 >=? MAX_LOGIN_ATTEMPTS); discriminate. }
  rewrite (authenticate_match u pass ip ua now db a Hf Hl Ha Hp).
  cbn [fst snd status res_user res_refreshToken].
  intros _ Hsafe Hrt. injection Hsafe as <-. injection Hrt as Hrt.
  assert (Hin : In a (admins db)).
  { unfold admin_named in Hf. now apply find_some in Hf. }
  assert (Hbyid := find_unique_id (admins db) a Hnd Hin).
  fold (admin_with_id (id a) db) in Hbyid.
  destruct (admin_with_id_lock_cleared a db Hbyid)
    as (a' & Ha' & Hact & Hida & Hname & Hrole).
  cbn [strip_password safe_id safe_username safe_role] in *. subst tok.
  set (tok := Middleware.generateRefreshToken (id a) now) in *.
  cbn [snd]. set (db2 := db_after _).
  assert (Hrow : admin_with_id (claim_id decoded) db2
                 = Some (AdminService.set_logged_in now a')).
  { rewrite Hid.
    change (admin_with_id (id a)
              (AdminService.update_admins (id a)
                 (AdminService.set_logged_in now) (lock_cleared a db))
            = Some (AdminService.set_logged_in now a')).
    rewrite admin_with_id_update, Ha' by reflexivity. reflexivity. }
  assert (Hstored : exists t,
             AdminService.verifyRefreshToken (sha256_hex tok) later db2 = Some t).
  { unfold db2, AdminService.verifyRefreshToken.
    unfold AdminService.storeRefreshToken, exec, db_after.
    cbn [snd refresh_tokens]. rewrite find_append.
    destruct (find _ _) as [t|]; [eauto|].
    cbn [find]. unfold AdminService.usable.
    cbn [token_hash revoked expires_at].
    rewrite toISOString_stays_text. unfold Column.gt.
    rewrite String.eqb_refl, Hgt. cbn. eauto. }
  destruct Hstored as (t & Hstored).
  assert (Hpres : Js.or (Some tok) None = Some tok).
  { unfold Js.or, Js.truthy.
    destruct (String.eqb_spec tok ""); [contradiction | reflexivity]. }
  rewrite (refresh_issues_access_token (Some tok) None tok later db2 Hpres
             Hne decoded Hver t Hstored (AdminService.set_logged_in now a')
             Hrow).
  - cbn. rewrite Hida, Hname, Hrole. reflexivity.
  - cbn. congruence.
Qed.

Lemma login_then_refresh_witness :
  Routes.refresh (E := Demo.externals) (Some "refresh.1") None
    (Demo.t_login + 1000)
    (snd (Routes.login (E := Demo.externals) "admin" "admin123" None None
            Demo.t_login Demo.db0))
  = mkResponse 200 true None None (Some "Token refreshed successfully") []
      None (Some "access.1") None (Some 86400) [("auth_token", "access.1")].
Proof.
  apply (login_then_refresh (E := Demo.externals) "admin" "admin123" None None
           Demo.t_login (Demo.t_login + 1000) Demo.db0
           (strip_password Demo.admin1) "refresh.1"
           (mkClaims 1 None None (Some "refresh"))).
  - repeat constructor. intros [].
  - reflexivity.
  - reflexivity.
  - reflexivity.
  - intros H; discriminate H.
  - reflexivity.
  - reflexivity.
  - vm_compute. reflexivity.
Defined.

(** X28. A deactivated admin cannot open a session: whatever the
    password, POST /login for that user name is never answered 200 and
    stores no refresh token. *)
Theorem login_refuses_deactivated `{E : Externals} (user pass : string)
    (ip ua : option string) (now : Z) (db : Db) (a : Admin) :
  admin_named (login_name user) db = Some a ->
  is_active a = 0 ->
  status (fst (Routes.login user pass ip ua now db)) <> 200
  /\ refresh_tokens (snd (Routes.login user pass ip ua now db))
     = refresh_tokens db.
Proof.
  intros Hf Ha. unfold login_name in Hf. unfold Routes.login.
  destruct (Routes.login_validation (Js.trim user) pass) as [|m ms];
    [|split; [intros H; discriminate H | reflexivity]].
  destruct (locked_at now a) eqn:Hl.
  - destruct (authenticate_locked _ pass ip ua now db a Hf Hl)
      as (t & _ & _ & ->).
    split; [intros H; discriminate H | reflexivity].
  - rewrite (authenticate_disabled _ pass ip ua now db a Hf Hl Ha).
    split; [intros H; discriminate H|].
    cbn. apply audit_lock_cleared.
Qed.

Lemma login_refuses_deactivated_witness :
  status (fst (Routes.login (E := Demo.externals) "admin" "admin123" None None
                 Demo.t_login (mkDb [Demo.admin1_disabled] [] [] 0 0))) <> 200
  /\ refresh_tokens
       (snd (Routes.login (E := Demo.externals) "admin" "admin123" None None
               Demo.t_login (mkDb [Demo.admin1_disabled] [] [] 0 0)))
     = [].
Proof.
  apply (login_refuses_deactivated (E := Demo.externals) "admin" "admin123"
           None None Demo.t_login (mkDb [Demo.admin1_disabled] [] [] 0 0)
           Demo.admin1_disabled); reflexivity.
Defined.

(** X29. Five wrong passwords in a row lock a fresh account: for an
    active admin with no failed attempt and no lock, after five
    [authenticate] calls with wrong passwords the stored counter is 5 and
    [locked_until] is the instant of the fifth call plus
    [LOCKOUT_DURATION]; until that instant every call for that user name,
    the right password included, fails with [Account locked. Try again in
    N minutes.], N being the remaining time rounded up to the minute. *)
Theorem five_failures_lock_account `{E : Externals} (user : string)
    (earlier : list (string * Z)) (p : string) (t : Z) (db : Db) (a : Admin) :
  admin_named (normalized user) db = Some a ->
  login_attempts a = 0 ->
  locked_until a = None ->
  is_active a <> 0 ->
  List.length earlier = 4%nat ->
  (forall q u, In (q, u) (earlier ++ [(p, t)])%list ->
               bcrypt_compare q (password a) = false) ->
  let db' := after_attempts user (earlier ++ [(p, t)])%list db in
  admin_named (normalized user) db'
  = Some (AdminService.set_attempts 5 (Some (t + 15 * 60 * 1000)) a)
  /\ forall pass ip ua now,
       now < t + 15 * 60 * 1000 ->
       outcome (AdminService.authenticate user pass ip ua now db')
       = Thrown (AccountLocked
                   (Js.ceil_div (t + 15 * 60 * 1000 - now) 60000))
       /\ message (AccountLocked (Js.ceil_div (t + 15 * 60 * 1000 - now) 60000))
          = "Account locked. Try again in "
            ++ Js.show (Js.ceil_div (t + 15 * 60 * 1000 - now) 60000)
            ++ " minutes.".
Proof.
  intros Hf Hzero Hl Ha Hlen Hwrong. cbn zeta.
  destruct (lockout_after_threshold user earlier p t db a Hf Hl Ha Hwrong)
    as [Hrow Hlocked].
  { rewrite Hzero, Hlen. reflexivity. }
  split; [exact Hrow|].
  intros pass ip ua now Hnow. split; [|reflexivity].
  apply Hlocked. exact Hnow.
Qed.

Lemma five_failures_lock_account_witness :
  let wrong := ("wrongpass", Demo.t_login) in
  outcome (AdminService.authenticate (E := Demo.externals) "admin" "admin123"
             None None (Demo.t_login + 1)
             (after_attempts (E := Demo.externals) "admin"
                ([wrong; wrong; wrong; wrong] ++ [wrong]) Demo.db0))
  = Thrown (AccountLocked 15).
Proof.
  cbn zeta.
  destruct (five_failures_lock_account (E := Demo.externals) "admin"
              [("wrongpass", Demo.t_login); ("wrongpass", Demo.t_login);
               ("wrongpass", Demo.t_login); ("wrongpass", Demo.t_login)]
              "wrongpass" Demo.t_login Demo.db0 Demo.admin1)
    as [_ Hlocked].
  - reflexivity.
  - reflexivity.
  - reflexivity.
  - intros H; discriminate H.
  - reflexivity.
  - intros q u Hin. cbn in Hin.
    repeat (destruct Hin as [Hin|Hin]; [injection Hin as <- <-; reflexivity|]).
    contradiction.
  - destruct (Hlocked "admin123" None None (Demo.t_login + 1)) as [Hout _].
    + vm_compute. reflexivity.
    + exact Hout.
Defined.
